(** * EasyPeek-backend news converters: a shallow embedding

    The repository holds two batch converters that turn loosely structured
    news records (JSON with Chinese field names) into the normalized [news]
    schema:

    - [src/convert_news.py], class [NewsConverter] ("variant 1");
    - [src/scripts/convert_localization_to_news.py], class
      [NewsDataConverter] ("variant 2"), which also emits SQL.

    Part I embeds the Python run-time notions the converters rely on (text as
    code-point sequences, the [re] patterns that occur in the source, JSON
    values, binary64 floats, naive date-times, the random generator and the
    wall clock as an explicit world) and then the two classes, function by
    function.  Part II states and proves the properties. *)

From Stdlib Require Import Ascii String.
From Stdlib Require Import ZArith NArith List Bool Lia.
From Stdlib Require Import PrimFloat FloatOps SpecFloat.
Import ListNotations.

Set Warnings "-inexact-float,-register-all".
Open Scope Z_scope.

(* ===================================================================== *)
(** * Part I.  Definitions                                                *)
(* ===================================================================== *)

(** ** Python [str]: sequences of Unicode code points *)

Module PyStr.

Definition pystr := list N.

Fixpoint bytes_of_string (s : string) : list N :=
  match s with
  | EmptyString => []
  | String a r => N_of_ascii a :: bytes_of_string r
  end.

(** Literals are written as UTF-8 text in this file and decoded once to code
    points; [len], indexing and slicing of a Python [str] count code points. *)
Fixpoint utf8_decode (l : list N) : pystr :=
  match l with
  | [] => []
  | b0 :: r0 =>
    if (b0 <? 128)%N then b0 :: utf8_decode r0 else
    match r0 with
    | [] => [b0]
    | b1 :: r1 =>
      if (b0 <? 224)%N
      then ((b0 mod 32) * 64 + b1 mod 64)%N :: utf8_decode r1 else
      match r1 with
      | [] => [b0; b1]
      | b2 :: r2 =>
        if (b0 <? 240)%N
        then ((b0 mod 16) * 4096 + (b1 mod 64) * 64 + b2 mod 64)%N
             :: utf8_decode r2 else
        match r2 with
        | [] => [b0; b1; b2]
        | b3 :: r3 =>
          ((b0 mod 8) * 262144 + (b1 mod 64) * 4096
           + (b2 mod 64) * 64 + b3 mod 64)%N :: utf8_decode r3
        end
      end
    end
  end.

Definition py (s : string) : pystr := utf8_decode (bytes_of_string s).

Definition chr (s : string) : N := hd 0%N (py s).

Fixpoint str_eqb (a b : pystr) : bool :=
  match a, b with
  | [], [] => true
  | x :: a', y :: b' => (x =? y)%N && str_eqb a' b'
  | _, _ => false
  end.

Definition mem_str (x : pystr) (l : list pystr) : bool := existsb (str_eqb x) l.

(** [len(s)] as a Python int. *)
Definition len (s : pystr) : Z := Z.of_nat (length s).

(** Characters for which [str.isspace] holds; the same set is matched by
    [\s] in a [str] pattern. *)
Definition whitespace_table : list N :=
  [9; 10; 11; 12; 13; 28; 29; 30; 31; 32; 133; 160; 5760;
   8192; 8193; 8194; 8195; 8196; 8197; 8198; 8199; 8200; 8201; 8202;
   8232; 8233; 8239; 8287; 12288]%N.

Definition is_space (c : N) : bool := existsb (N.eqb c) whitespace_table.

(** Unicode decimal digits (general category Nd, Unicode 14): [\d] in a [str]
    pattern matches exactly these, and [int] reads them with their digit
    value.  Each run starts at a digit zero; [(start, length)]. *)
Definition nd_ranges : list (N * N) :=
  [(0x30, 10); (0x660, 10); (0x6f0, 10); (0x7c0, 10); (0x966, 10);
   (0x9e6, 10); (0xa66, 10); (0xae6, 10); (0xb66, 10); (0xbe6, 10);
   (0xc66, 10); (0xce6, 10); (0xd66, 10); (0xde6, 10); (0xe50, 10);
   (0xed0, 10); (0xf20, 10); (0x1040, 10); (0x1090, 10); (0x17e0, 10);
   (0x1810, 10); (0x1946, 10); (0x19d0, 10); (0x1a80, 10); (0x1a90, 10);
   (0x1b50, 10); (0x1bb0, 10); (0x1c40, 10); (0x1c50, 10); (0xa620, 10);
   (0xa8d0, 10); (0xa900, 10); (0xa9d0, 10); (0xa9f0, 10); (0xaa50, 10);
   (0xabf0, 10); (0xff10, 10); (0x104a0, 10); (0x10d30, 10); (0x11066, 10);
   (0x110f0, 10); (0x11136, 10); (0x111d0, 10); (0x112f0, 10); (0x11450, 10);
   (0x114d0, 10); (0x11650, 10); (0x116c0, 10); (0x11730, 10); (0x118e0, 10);
   (0x11950, 10); (0x11c50, 10); (0x11d50, 10); (0x11da0, 10); (0x16a60, 10);
   (0x16ac0, 10); (0x16b50, 10); (0x1d7ce, 50); (0x1e140, 10); (0x1e2f0, 10);
   (0x1e950, 10); (0x1fbf0, 10)]%N.

Fixpoint digit_in (rs : list (N * N)) (c : N) : option Z :=
  match rs with
  | [] => None
  | (start, n) :: rs' =>
    if ((start <=? c) && (c <? start + n))%N
    then Some (Z.of_N ((c - start) mod 10))
    else digit_in rs' c
  end.

Definition digit_value (c : N) : option Z := digit_in nd_ranges c.

Definition is_digit (c : N) : bool :=
  match digit_value c with Some _ => true | None => false end.

Definition is_ascii_digit (c : N) : bool := ((48 <=? c) && (c <=? 57))%N.

Fixpoint drop_while (p : N -> bool) (s : pystr) : pystr :=
  match s with
  | [] => []
  | c :: r => if p c then drop_while p r else s
  end.

Definition lstrip (s : pystr) : pystr := drop_while is_space s.
Definition rstrip (s : pystr) : pystr := rev (drop_while is_space (rev s)).

(** [s.strip()] *)
Definition strip (s : pystr) : pystr := rstrip (lstrip s).

(** Truth value of a [str]. *)
Definition nonempty (s : pystr) : bool :=
  match s with [] => false | _ => true end.

Fixpoint starts_with (p s : pystr) : bool :=
  match p, s with
  | [], _ => true
  | x :: p', y :: s' => (x =? y)%N && starts_with p' s'
  | _ :: _, [] => false
  end.

(** [sub in s] *)
Fixpoint contains (sub s : pystr) : bool :=
  match s with
  | [] => starts_with sub []
  | _ :: r => starts_with sub s || contains sub r
  end.

(** [s.count(sub)]: occurrences are counted left to right and do not
    overlap; [skip] characters of a counted occurrence are passed over. *)
Fixpoint count_from (sub : pystr) (skip : nat) (s : pystr) : Z :=
  match s with
  | [] => 0
  | _ :: r =>
    match skip with
    | S k => count_from sub k r
    | O => if starts_with sub s
           then 1 + count_from sub (length sub - 1) r
           else count_from sub 0 r
    end
  end.

Definition count (s sub : pystr) : Z :=
  match sub with
  | [] => len s + 1
  | _ => count_from sub 0 s
  end.

(** [s[:n]] with Python's reading of a negative bound. *)
Definition slice_to (s : pystr) (n : Z) : pystr :=
  if 0 <=? n then firstn (Z.to_nat n) s
  else firstn (length s - Z.to_nat (- n)) s.

(** [s[n:]] for a non-negative bound. *)
Definition slice_from (s : pystr) (n : nat) : pystr := skipn n s.

(** [s.replace(c, rep)] for a one-character pattern [c]. *)
Definition replace_char (c : N) (rep : pystr) (s : pystr) : pystr :=
  flat_map (fun x => if (x =? c)%N then rep else [x]) s.

Definition zeros (n : nat) : pystr := repeat 48%N n.

(** [s.zfill(width)]: zeros go after a leading sign. *)
Definition zfill (width : nat) (s : pystr) : pystr :=
  let pad := zeros (width - length s) in
  match s with
  | c :: r => if ((c =? 43) || (c =? 45))%N then c :: pad ++ r else pad ++ s
  | [] => pad
  end.

(** Decimal text of a Python int. *)
Fixpoint digits_fuel (fuel : nat) (n : N) (acc : pystr) : pystr :=
  match fuel with
  | O => acc
  | S f =>
    let acc' := (48 + n mod 10)%N :: acc in
    if (n <? 10)%N then acc' else digits_fuel f (n / 10) acc'
  end.

Definition str_of_N (n : N) : pystr := digits_fuel (S (N.to_nat (N.log2 n))) n [].

Definition str_of_int (z : Z) : pystr :=
  if z <? 0 then 45%N :: str_of_N (Z.to_N (- z)) else str_of_N (Z.to_N z).

(** [%0wd] for a non-negative field. *)
Definition pad_int (width : nat) (z : Z) : pystr :=
  let d := str_of_int z in zeros (width - length d) ++ d.

(** [int(s)] on text made of decimal digits, surrounding whitespace allowed. *)
Fixpoint int_of_digits (acc : Z) (s : pystr) : option Z :=
  match s with
  | [] => Some acc
  | c :: r =>
    match digit_value c with
    | Some d => int_of_digits (10 * acc + d) r
    | None => None
    end
  end.

Definition py_int (s : pystr) : option Z :=
  match strip s with
  | [] => None
  | t => int_of_digits 0 t
  end.

(** [s.encode('utf-8')] raises on a lone surrogate. *)
Definition utf8_encodable (s : pystr) : bool :=
  forallb (fun c => negb ((0xD800 <=? c) && (c <=? 0xDFFF))%N) s.

End PyStr.
Import PyStr.

(** ** The regular expressions of the source

    Every pattern the converters hand to [re.search] or [re.match], and the
    patterns [datetime.strptime] builds for their formats, is a sequence of
    literal characters and capturing alternations of fixed-length
    character-class runs.  A greedy [\d{1,2}] is the alternation that tries
    two digits before one. *)

Module Re.

Inductive cls :=
| Digit                    (* \d: any Unicode decimal digit *)
| Range (lo hi : N)        (* [lo-hi] *)
| Char (c : N).

Definition cls_match (k : cls) (c : N) : bool :=
  match k with
  | Digit => is_digit c
  | Range lo hi => ((lo <=? c) && (c <=? hi))%N
  | Char x => (c =? x)%N
  end.

Inductive elem :=
| Lit (c : N)
| Spaces                   (* \s+, not captured *)
| Alt (alts : list (list cls)).

(** What is left after a run of one or more whitespace characters, the
    longest run first. *)
Fixpoint after_spaces (s : pystr) : list pystr :=
  match s with
  | c :: r => if is_space c then after_spaces r ++ [r] else []
  | [] => []
  end.

Fixpoint match_seq (ks : list cls) (s : pystr) : option (pystr * pystr) :=
  match ks with
  | [] => Some ([], s)
  | k :: ks' =>
    match s with
    | c :: r =>
      if cls_match k c then
        match match_seq ks' r with
        | Some (m, rest) => Some (c :: m, rest)
        | None => None
        end
      else None
    | [] => None
    end
  end.

(** All matches of the pattern at the head of [s], in the order in which a
    backtracking matcher finds them: the captured groups and the text left. *)
Fixpoint matches (p : list elem) (s : pystr) : list (list pystr * pystr) :=
  match p with
  | [] => [([], s)]
  | Lit c :: p' =>
    match s with
    | x :: r => if (x =? c)%N then matches p' r else []
    | [] => []
    end
  | Spaces :: p' => flat_map (matches p') (after_spaces s)
  | Alt alts :: p' =>
    flat_map
      (fun ks =>
         match match_seq ks s with
         | Some (g, r) => map (fun gr => (g :: fst gr, snd gr)) (matches p' r)
         | None => []
         end)
      alts
  end.

(** [re.match(p, s)]: groups and the unmatched rest. *)
Definition re_match (p : list elem) (s : pystr) : option (list pystr * pystr) :=
  hd_error (matches p s).

(** [re.search(p, s)]: the leftmost position at which the pattern matches;
    the result carries the groups and the whole matched text. *)
Fixpoint re_search (p : list elem) (s : pystr) : option (list pystr * pystr) :=
  match re_match p s with
  | Some (gs, rest) => Some (gs, firstn (length s - length rest) s)
  | None =>
    match s with
    | [] => None
    | _ :: r => re_search p r
    end
  end.

Definition d1 : list cls := [Digit].
Definition d2 : list cls := [Digit; Digit].
Definition d4 : list cls := [Digit; Digit; Digit; Digit].

End Re.

(** ** JSON values as [json.load] returns them *)

Inductive json :=
| JNull
| JBool (b : bool)
| JInt (z : Z)
| JFloat (f : float)
| JStr (s : pystr)
| JArr (l : list json)
| JObj (o : list (pystr * json)).

(** Truth value of a loaded value ([not v] is its negation). *)
Definition truthy (v : json) : bool :=
  match v with
  | JNull => false
  | JBool b => b
  | JInt z => negb (z =? 0)
  | JFloat f => negb (PrimFloat.eqb f 0%float)
  | JStr s => nonempty s
  | JArr l => match l with [] => false | _ => true end
  | JObj o => match o with [] => false | _ => true end
  end.

(** [v == s] for a [str] [s]: only an equal [str] compares equal. *)
Definition json_eq_str (v : json) (s : pystr) : bool :=
  match v with
  | JStr t => str_eqb t s
  | _ => false
  end.

Fixpoint lookup (o : list (pystr * json)) (key : pystr) : option json :=
  match o with
  | [] => None
  | (k, v) :: o' => if str_eqb k key then Some v else lookup o' key
  end.

(** ** Exceptions, and the world the impure calls read *)

Inductive exn :=
| ValueError (msg : pystr)
| UnicodeEncodeError        (* a ValueError subclass *)
| JSONDecodeError           (* a ValueError subclass *)
| TypeError
| AttributeError
| KeyError
| OverflowError
| FileNotFoundError
| OSError.

Inductive result (A : Type) :=
| Ok (a : A)
| Raise (e : exn).
Arguments Ok {A} a.
Arguments Raise {A} e.

(** The random generator is a tape of raw draws and the wall clock a tape of
    readings (microseconds of local naive time since 1970-01-01 00:00:00);
    each call consumes one entry. *)
Record World := mkWorld {
  rand_tape : nat -> N;
  rand_pos : nat;
  clock_tape : nat -> N;
  clock_pos : nat
}.

Definition M (A : Type) : Type := World -> result A * World.

Definition ret {A} (a : A) : M A := fun w => (Ok a, w).
Definition raise {A} (e : exn) : M A := fun w => (Raise e, w).
Definition bind {A B} (m : M A) (k : A -> M B) : M B :=
  fun w =>
    match m w with
    | (Ok a, w') => k a w'
    | (Raise e, w') => (Raise e, w')
    end.
(** [try: m  except Exception as e: h e] *)
Definition try_except {A} (m : M A) (h : exn -> M A) : M A :=
  fun w =>
    match m w with
    | (Ok a, w') => (Ok a, w')
    | (Raise e, w') => h e w'
    end.
Definition lift {A} (r : result A) : M A := fun w => (r, w).

Declare Scope py_scope.
Delimit Scope py_scope with py.
Notation "x <- m ;; k" := (bind m (fun x => k))
  (at level 61, m at next level, right associativity) : py_scope.
Notation "m ;;; k" := (bind m (fun _ => k))
  (at level 61, right associativity) : py_scope.
Open Scope py_scope.

(** [random._randbelow(n)] for [n > 0]. *)
Definition randbelow (n : Z) : M Z :=
  fun w =>
    (Ok (Z.of_N (rand_tape w (rand_pos w)) mod n),
     mkWorld (rand_tape w) (S (rand_pos w)) (clock_tape w) (clock_pos w)).

(** [random.randint(a, b)] *)
Definition randint (a b : Z) : M Z :=
  if b - a + 1 <=? 0 then raise (ValueError (py "empty range for randrange()"))
  else r <- randbelow (b - a + 1) ;; ret (a + r).

(** [random.choice(seq)] *)
Definition choice {A} (seq : list A) : M A :=
  match seq with
  | [] => raise KeyError
  | x :: _ => i <- randbelow (Z.of_nat (length seq)) ;; ret (nth (Z.to_nat i) seq x)
  end.

Fixpoint set_nth {A} (n : nat) (x : A) (l : list A) : list A :=
  match l, n with
  | [], _ => []
  | _ :: r, O => x :: r
  | y :: r, S n' => y :: set_nth n' x r
  end.

(** The selection loop of [random.sample] for a small population: the pool
    keeps the not yet selected items in its first [n - i] places. *)
Fixpoint sample_loop {A} (d : A) (pool : list A) (n : nat) (k : nat) : M (list A) :=
  match k with
  | O => ret []
  | S k' =>
    j <- randbelow (Z.of_nat n) ;;
    let x := nth (Z.to_nat j) pool d in
    let pool' := set_nth (Z.to_nat j) (nth (n - 1) pool d) pool in
    rest <- sample_loop d pool' (n - 1) k' ;;
    ret (x :: rest)
  end.

(** [random.sample(population, k)] for populations of at most 21 items. *)
Definition sample {A} (d : A) (population : list A) (k : Z) : M (list A) :=
  if (k <? 0) || (Z.of_nat (length population) <? k)
  then raise (ValueError (py "Sample larger than population or is negative"))
  else sample_loop d population (length population) (Z.to_nat k).

(** One reading of the clock. *)
Definition clock_read : M N :=
  fun w =>
    (Ok (clock_tape w (clock_pos w)),
     mkWorld (rand_tape w) (rand_pos w) (clock_tape w) (S (clock_pos w))).

(** ** Python [float]: IEEE binary64 *)

Module PyFloat.

(** The nearest binary64 value of an integer. *)
Definition of_int (z : Z) : float := SF2Prim (binary_normalize prec emax z 0 false).

(** [float(z)], as done implicitly by [int * float] and [float + int]. *)
Definition float_of_int (z : Z) : result float :=
  let f := of_int z in
  if is_infinity f then Raise OverflowError else Ok f.

(** [int(x)]: truncation toward zero. *)
Definition int_of_float (x : float) : result Z :=
  match Prim2SF x with
  | S754_zero _ => Ok 0
  | S754_infinity _ => Raise OverflowError
  | S754_nan => Raise (ValueError (py "cannot convert float NaN to integer"))
  | S754_finite sg m e =>
    let a := if 0 <=? e then Z.shiftl (Zpos m) e else Z.shiftr (Zpos m) (- e) in
    Ok (if sg then - a else a)
  end.

(** [p / q] rounded to an integer, ties to even ([0 <= p], [0 < q]). *)
Definition round_half_even (p q : Z) : Z :=
  let k := p / q in
  let r := p mod q in
  if 2 * r <? q then k
  else if q <? 2 * r then k + 1
  else if Z.even k then k else k + 1.

(** The binary64 value nearest to [p / q] ([0 < p], [0 < q]), ties to even:
    a quotient of at least 64 bits with a sticky last bit is rounded once. *)
Definition nearest_ratio (p q : Z) : float :=
  let sh := Z.max 0 (64 + Z.log2 q - Z.log2 p) in
  let n := Z.shiftl p sh in
  let sticky := if n mod q =? 0 then 0 else 1 in
  SF2Prim (binary_normalize prec emax (2 * (n / q) + sticky) (- sh - 1) false).

(** [round(x, ndigits)] for [0 <= ndigits]: the exact value of [x] is rounded
    half-even to [ndigits] decimals and the decimal is read back as the
    nearest float. *)
Definition py_round (x : float) (ndigits : nat) : float :=
  match Prim2SF x with
  | S754_finite sg m e =>
    if 0 <=? e then x else
    let k := round_half_even (Zpos m * 10 ^ Z.of_nat ndigits) (2 ^ (- e)) in
    if k =? 0 then (if sg then neg_zero else zero)
    else
      let r := nearest_ratio k (10 ^ Z.of_nat ndigits) in
      if sg then (- r)%float else r
  | _ => x
  end.

(** [max(a, b)] on floats: the first argument unless the second is larger. *)
Definition py_max (a b : float) : float := if (a <? b)%float then b else a.

End PyFloat.
Import PyFloat.

(** ** What the converters take from the platform

    Functions of the Python standard library whose results the converters
    only pass along: the text of a float, the text of a list or dict, MD5,
    the network-location part found by [urllib.parse.urlparse] ([None] when
    it raises), the POSIX timestamp text of a clock reading, and whether the
    C library pads [%Y] to four digits. *)

Definition float_char (c : N) : bool :=
  existsb (N.eqb c) (py "0123456789+-.einfa").

Class Runtime := {
  float_repr : float -> pystr;
  float_repr_chars : forall f, forallb float_char (float_repr f) = true;
  container_str : json -> pystr;
  md5_hexdigest : pystr -> pystr;
  urlparse_netloc : pystr -> option pystr;
  timestamp_str : N -> pystr;
  strftime_pads_year : bool
}.

(** ** Naive date-times *)

Module PyTime.

(** A [datetime] without time zone: microseconds since 1970-01-01 00:00:00. *)
Definition datetime := Z.

Definition us_per_second : Z := 1000000.
Definition us_per_day : Z := 86400 * us_per_second.

Definition is_leap (y : Z) : bool :=
  (y mod 4 =? 0) && (negb (y mod 100 =? 0) || (y mod 400 =? 0)).

Definition days_in_month (y m : Z) : Z :=
  if m =? 2 then (if is_leap y then 29 else 28)
  else if (m =? 4) || (m =? 6) || (m =? 9) || (m =? 11) then 30
  else 31.

(** Days from 1970-01-01 to the given proleptic Gregorian date. *)
Definition days_from_civil (y m d : Z) : Z :=
  let y' := if m <=? 2 then y - 1 else y in
  let era := y' / 400 in
  let yoe := y' - era * 400 in
  let mp := (m + 9) mod 12 in
  let doy := (153 * mp + 2) / 5 + d - 1 in
  let doe := yoe * 365 + yoe / 4 - yoe / 100 + doy in
  era * 146097 + doe - 719468.

Definition civil_from_days (z : Z) : Z * Z * Z :=
  let z := z + 719468 in
  let era := z / 146097 in
  let doe := z - era * 146097 in
  let yoe := (doe - doe / 1460 + doe / 36524 - doe / 146096) / 365 in
  let doy := doe - (365 * yoe + yoe / 4 - yoe / 100) in
  let mp := (5 * doy + 2) / 153 in
  let d := doy - (153 * mp + 2) / 5 + 1 in
  let m := if mp <? 10 then mp + 3 else mp - 9 in
  (if m <=? 2 then yoe + era * 400 + 1 else yoe + era * 400, m, d).

Definition min_datetime : Z := days_from_civil 1 1 1 * us_per_day.
Definition max_datetime : Z := days_from_civil 10000 1 1 * us_per_day - 1.

(** [datetime(y, m, d, H, M, S)] *)
Definition make_datetime (y m d hh mm ss : Z) : result datetime :=
  if (1 <=? y) && (y <=? 9999) && (1 <=? m) && (m <=? 12)
     && (1 <=? d) && (d <=? days_in_month y m)
     && (0 <=? hh) && (hh <=? 23) && (0 <=? mm) && (mm <=? 59)
     && (0 <=? ss) && (ss <=? 59)
  then Ok ((days_from_civil y m d * 86400 + hh * 3600 + mm * 60 + ss) * us_per_second)
  else Raise (ValueError (py "date value out of range")).

(** [datetime.now()] *)
Definition now : M datetime :=
  t <- clock_read ;;
  if Z.of_N t <=? max_datetime then ret (Z.of_N t)
  else raise (ValueError (py "year is out of range")).

(** [t - timedelta(days=k)] *)
Definition minus_days (t : datetime) (k : Z) : result datetime :=
  let r := t - k * us_per_day in
  if (min_datetime <=? r) && (r <=? max_datetime) then Ok r
  else Raise OverflowError.

(** [(a - b).days] *)
Definition days_between (a b : datetime) : Z := (a - b) / us_per_day.

Definition date_of (t : datetime) : Z * Z * Z := civil_from_days (t / us_per_day).
Definition hour_of (t : datetime) : Z := (t mod us_per_day) / (3600 * us_per_second).
Definition minute_of (t : datetime) : Z := ((t mod us_per_day) / (60 * us_per_second)) mod 60.
Definition second_of (t : datetime) : Z := ((t mod us_per_day) / us_per_second) mod 60.
Definition micro_of (t : datetime) : Z := t mod us_per_second.

Definition dash : N := 45%N.
Definition colon : N := 58%N.
Definition space : N := 32%N.

Section Formatting.
Context {rt : Runtime}.

(** [t.strftime('%Y-%m-%d %H:%M:%S')] *)
Definition strftime (t : datetime) : pystr :=
  let '(y, m, d) := date_of t in
  (if strftime_pads_year then pad_int 4 y else str_of_int y)
  ++ [dash] ++ pad_int 2 m ++ [dash] ++ pad_int 2 d ++ [space]
  ++ pad_int 2 (hour_of t) ++ [colon] ++ pad_int 2 (minute_of t)
  ++ [colon] ++ pad_int 2 (second_of t).

End Formatting.

(** [t.isoformat()] *)
Definition isoformat (t : datetime) : pystr :=
  let '(y, m, d) := date_of t in
  pad_int 4 y ++ [dash] ++ pad_int 2 m ++ [dash] ++ pad_int 2 d ++ [84%N]
  ++ pad_int 2 (hour_of t) ++ [colon] ++ pad_int 2 (minute_of t)
  ++ [colon] ++ pad_int 2 (second_of t)
  ++ (if micro_of t =? 0 then [] else 46%N :: pad_int 6 (micro_of t)).

(** The patterns [strptime] compiles for the directives in use. *)
Import Re.
Definition dir_Y : elem := Alt [d4].
Definition dir_m : elem :=
  Alt [[Char 49; Range 48 50]; [Char 48; Range 49 57]; [Range 49 57]]%N.
Definition dir_d : elem :=
  Alt [[Char 51; Range 48 49]; [Range 49 50; Digit]; [Char 48; Range 49 57];
       [Range 49 57]; [Char 32; Range 49 57]]%N.
Definition dir_H : elem :=
  Alt [[Char 50; Range 48 51]; [Range 48 49; Digit]; [Digit]]%N.
Definition dir_M : elem := Alt [[Range 48 53; Digit]; [Digit]]%N.
Definition dir_S : elem :=
  Alt [[Char 54; Range 48 49]; [Range 48 53; Digit]; [Digit]]%N.

Fixpoint ints_of (gs : list pystr) : option (list Z) :=
  match gs with
  | [] => Some []
  | g :: r =>
    match py_int g, ints_of r with
    | Some z, Some zs => Some (z :: zs)
    | _, _ => None
    end
  end.

(** [datetime.strptime(s, fmt)] for a format whose directives are, in order,
    year, month, day, hour, minute and optionally second: the compiled pattern
    must match at the start of [s] and leave nothing unconverted. *)
Definition strptime (fmt : list elem) (s : pystr) : result datetime :=
  match re_match fmt s with
  | Some (gs, []) =>
    match ints_of gs with
    | Some [y; m; d; hh; mm] => make_datetime y m d hh mm 0
    | Some [y; m; d; hh; mm; ss] => make_datetime y m d hh mm ss
    | _ => Raise (ValueError (py "time data does not match format"))
    end
  | Some (_, _ :: _) => Raise (ValueError (py "unconverted data remains"))
  | None => Raise (ValueError (py "time data does not match format"))
  end.

End PyTime.
Import PyTime.

(** ** [json.dumps(v, ensure_ascii=False)] *)

Module PyJson.

Definition hex_digit (n : N) : N := if (n <? 10)%N then (48 + n)%N else (87 + n)%N.

Definition escape_char (c : N) : pystr :=
  if (c =? 34)%N then [92; 34]%N
  else if (c =? 92)%N then py "\\"
  else if (c =? 8)%N then py "\b"
  else if (c =? 12)%N then py "\f"
  else if (c =? 10)%N then py "\n"
  else if (c =? 13)%N then py "\r"
  else if (c =? 9)%N then py "\t"
  else if (c <? 32)%N then py "\u00" ++ [hex_digit (c / 16); hex_digit (c mod 16)]
  else [c].

Definition quote (s : pystr) : pystr := [34%N] ++ flat_map escape_char s ++ [34%N].

Fixpoint join (sep : pystr) (l : list pystr) : pystr :=
  match l with
  | [] => []
  | [x] => x
  | x :: r => x ++ sep ++ join sep r
  end.

Section Dumps.
Context {rt : Runtime}.

Definition dumps_float (f : float) : pystr :=
  if is_nan f then py "NaN"
  else if is_infinity f then (if (f <? 0)%float then py "-Infinity" else py "Infinity")
  else float_repr f.

Fixpoint json_dumps (v : json) : pystr :=
  match v with
  | JNull => py "null"
  | JBool true => py "true"
  | JBool false => py "false"
  | JInt z => str_of_int z
  | JFloat f => dumps_float f
  | JStr s => quote s
  | JArr l => py "[" ++ join (py ", ") (map json_dumps l) ++ py "]"
  | JObj o =>
    py "{"
    ++ join (py ", ")
         (map (fun kv => match kv with (k, x) => quote k ++ py ": " ++ json_dumps x end) o)
    ++ py "}"
  end.

End Dumps.

(** Text that a UTF-8 file accepts: no lone surrogate anywhere in the value. *)
Fixpoint json_encodable (v : json) : bool :=
  match v with
  | JStr s => utf8_encodable s
  | JArr l => forallb json_encodable l
  | JObj o =>
    forallb (fun kv => match kv with (k, x) => utf8_encodable k && json_encodable x end) o
  | _ => true
  end.

End PyJson.
Import PyJson.

(** ** The console

    [print] encodes its text for the console, which is taken to accept
    UTF-8 as the files the converters open: a text that holds a lone
    surrogate is refused with UnicodeEncodeError.  Where the source prints
    the message of an exception next to a value, the texts below hold the
    value only: the messages are fixed texts of the program or are built by
    the interpreter, which shows an offending character escaped (the one
    message that quotes its input raw, that of [strptime] for unconverted
    data, is printed next to the input itself). *)

Module Console.
Section WithRuntime.
Context {rt : Runtime}.

(** [str(v)], as an f-string renders a loaded value. *)
Definition py_str (v : json) : pystr :=
  match v with
  | JNull => py "None"
  | JBool true => py "True"
  | JBool false => py "False"
  | JInt z => str_of_int z
  | JFloat f => float_repr f
  | JStr s => s
  | _ => container_str v
  end.

(** [print(text)] *)
Definition print (text : pystr) : result unit :=
  if utf8_encodable text then Ok tt else Raise UnicodeEncodeError.

End WithRuntime.
End Console.

(** ** The normalized record, and what a batch run leaves behind *)

Record NormalizedRecord := mkRecord {
  title : pystr;
  content : pystr;
  summary : pystr;
  description : pystr;
  source : json;
  category : pystr;
  published_at : pystr;
  created_by : json;
  is_active : bool;
  source_type : pystr;
  rss_source_id : json;
  link : json;
  guid : pystr;
  author : pystr;
  image_url : json;
  tags : pystr;
  language : pystr;
  view_count : Z;
  like_count : Z;
  comment_count : Z;
  share_count : Z;
  hotness_score : float;
  status : pystr;
  is_processed : bool
}.

Definition record_encodable (r : NormalizedRecord) : bool :=
  utf8_encodable (title r) && utf8_encodable (content r)
  && utf8_encodable (summary r) && utf8_encodable (description r)
  && json_encodable (source r) && utf8_encodable (category r)
  && utf8_encodable (published_at r) && json_encodable (link r)
  && utf8_encodable (guid r) && utf8_encodable (author r)
  && json_encodable (image_url r) && utf8_encodable (tags r).

Record Stats := mkStats {
  st_view_count : Z;
  st_like_count : Z;
  st_comment_count : Z;
  st_share_count : Z
}.

(** The input file as [open] and [json.load] find it. *)
Inductive file_state :=
| Missing                   (* open raises FileNotFoundError *)
| Unreadable (e : exn)      (* open or read raises something else *)
| Malformed                 (* json.load raises JSONDecodeError *)
| Loaded (data : json).

(** [target_error] is the exception [open(target, 'w')] raises, if any. *)
Record Files := mkFiles {
  source_state : file_state;
  target_error : option exn
}.

(** The output file after the run: untouched, cut short by a failed write,
    or holding the serialized document. *)
Inductive output (D : Type) :=
| NoOutput
| Truncated
| Complete (d : D).
Arguments NoOutput {D}.
Arguments Truncated {D}.
Arguments Complete {D} d.

(** What the entry points print. *)
Inductive event :=
| Converted (t : pystr)
| Skipped (t : json)
| Failed (e : exn)
| FailedAt (t : json) (e : exn)
| FailedItem (e : exn) (item : json)
| Summary (total converted skipped : Z)
| SourceNotFound
| SourceNotJson
| RunError (e : exn).

Record Outcome (D : Type) := mkOutcome {
  written : output D;
  console : list event;
  raised : option exn
}.
Arguments mkOutcome {D}.
Arguments written {D}.
Arguments console {D}.
Arguments raised {D}.

Definition is_value_error (e : exn) : bool :=
  match e with
  | ValueError _ | UnicodeEncodeError | JSONDecodeError => true
  | _ => false
  end.

(** Whether [needle in str(e)] for a message in Chinese: only a
    [ValueError] raised with such a message carries one. *)
Definition message_contains (e : exn) (needle : pystr) : bool :=
  match e with
  | ValueError msg => contains needle msg
  | _ => false
  end.

(** ** Variant 1: [NewsConverter] in [src/convert_news.py] *)

Module NewsConverter.

Definition categories : list pystr :=
  Eval vm_compute in
  map py ["政治"; "经济"; "社会"; "科技"; "体育"; "娱乐"; "国际"; "军事";
          "教育"; "健康"]%string.

Definition default_authors : list pystr :=
  Eval vm_compute in map py ["记者"; "编辑"; "通讯员"; "特约记者"]%string.

Definition keyword_category_map : list (pystr * list pystr) :=
  Eval vm_compute in
  map (fun ck => (py (fst ck), map py (snd ck)))
  [("政治", ["政治"; "政府"; "政策"; "领导"; "党"; "国家"; "外交"; "会议"; "决策"; "治理"]);
   ("经济", ["经济"; "股市"; "股指"; "金融"; "投资"; "贸易"; "GDP"; "通胀"; "银行";
             "企业"; "上市"; "板块"; "涨幅"; "交易"]);
   ("科技", ["科技"; "AI"; "人工智能"; "互联网"; "5G"; "芯片"; "创新"; "技术"; "数字"; "智能"]);
   ("社会", ["社会"; "民生"; "教育"; "医疗"; "就业"; "住房"; "环境"; "安全"; "文化"]);
   ("国际", ["国际"; "美国"; "欧洲"; "日本"; "韩国"; "俄罗斯"; "全球"; "世界"]);
   ("军事", ["军事"; "国防"; "军队"; "战争"; "武器"; "安全"]);
   ("体育", ["体育"; "比赛"; "运动"; "足球"; "篮球"; "奥运"]);
   ("娱乐", ["娱乐"; "明星"; "电影"; "音乐"; "综艺"; "演出"]);
   ("健康", ["健康"; "医疗"; "疫情"; "病毒"; "治疗"; "药物"]);
   ("教育", ["教育"; "学校"; "大学"; "招生"; "考试"; "学生"])]%string.

Definition default_category : pystr := Eval vm_compute in py "社会".

(** The inner loop: [score += text.count(keyword)]. *)
Definition keyword_score (text : pystr) (keywords : list pystr) : Z :=
  fold_left (fun score keyword => score + count text keyword) keywords 0.

(** [category_scores]: the categories with a positive score, in the order
    of the keyword table. *)
Definition category_scores (text : pystr) : list (pystr * Z) :=
  filter (fun cs => 0 <? snd cs)
    (map (fun ck => (fst ck, keyword_score text (snd ck))) keyword_category_map).

(** [max(items, key=lambda x: x[1])]: the first item with the largest score. *)
Fixpoint max_by_score (best : pystr * Z) (l : list (pystr * Z)) : pystr * Z :=
  match l with
  | [] => best
  | x :: r => max_by_score (if snd best <? snd x then x else best) r
  end.

Definition analyze_category_with_ai (title content : pystr) : pystr :=
  let text := title ++ py " " ++ slice_to content 500 in
  match category_scores text with
  | [] => default_category
  | x :: r => fst (max_by_score x r)
  end.

Definition open_bracket : N := Eval vm_compute in chr "【".
Definition close_bracket : N := Eval vm_compute in chr "】".
Definition full_stop : N := Eval vm_compute in chr "。".
Definition terminals : list N := Eval vm_compute in py "。！？".
Definition is_terminal (c : N) : bool := existsb (N.eqb c) terminals.

(** [re.sub(r'\s+', '', s)]: every whitespace character goes. *)
Definition re_sub_spaces (s : pystr) : pystr := filter (fun c => negb (is_space c)) s.

(** The length of the shortest text matched by [.*?】] at the head of [s];
    [.] does not match a line feed. *)
Fixpoint close_at (s : pystr) : option nat :=
  match s with
  | [] => None
  | c :: r =>
    if (c =? close_bracket)%N then Some 1%nat
    else if (c =? 10)%N then None
    else option_map S (close_at r)
  end.

(** [re.sub(r'【.*?】', '', s)], scanning left to right; [skip] characters of
    a match in progress are dropped. *)
Fixpoint sub_brackets (skip : nat) (s : pystr) : pystr :=
  match s with
  | [] => []
  | c :: r =>
    match skip with
    | S k => sub_brackets k r
    | O =>
      if (c =? open_bracket)%N then
        match close_at r with
        | Some k => sub_brackets k r
        | None => c :: sub_brackets 0 r
        end
      else c :: sub_brackets 0 r
    end
  end.

Definition re_sub_brackets (s : pystr) : pystr := sub_brackets 0 s.

(** [re.split(r'[。！？]', s)] *)
Fixpoint re_split_terminals (s : pystr) : list pystr :=
  match s with
  | [] => [[]]
  | c :: r =>
    if is_terminal c then [] :: re_split_terminals r
    else
      match re_split_terminals r with
      | h :: t => (c :: h) :: t
      | [] => [[c]]
      end
  end.

(** The [for sentence in sentences] loop with its [break]. *)
Fixpoint summary_loop (max_length : Z) (summary : pystr) (sentences : list pystr) : pystr :=
  match sentences with
  | [] => summary
  | sentence :: rest =>
    if (len (summary ++ sentence) <=? max_length) && nonempty (strip sentence)
    then summary_loop max_length (summary ++ sentence ++ [full_stop]) rest
    else summary
  end.

Definition ellipsis : pystr := Eval vm_compute in py "...".

Definition generate_summary (content : pystr) (max_length : Z) : pystr :=
  let clean_content := re_sub_spaces content in
  let clean_content := re_sub_brackets clean_content in
  let sentences := re_split_terminals clean_content in
  let summary := summary_loop max_length [] sentences in
  if nonempty summary then strip summary
  else slice_to content max_length ++ ellipsis.

Definition year_mark : N := Eval vm_compute in chr "年".
Definition month_mark : N := Eval vm_compute in chr "月".
Definition day_mark : N := Eval vm_compute in chr "日".

(** [(\d{4})年(\d{1,2})月(\d{1,2})日(\d{1,2}):(\d{1,2})] *)
Definition date_pattern : list Re.elem :=
  [Re.Alt [Re.d4]; Re.Lit year_mark; Re.Alt [Re.d2; Re.d1]; Re.Lit month_mark;
   Re.Alt [Re.d2; Re.d1]; Re.Lit day_mark; Re.Alt [Re.d2; Re.d1]; Re.Lit colon;
   Re.Alt [Re.d2; Re.d1]].

(** [x in v] for a loaded value [v] and a one-character [str] [x]; [None]
    when [v] is not a container. *)
Definition json_has (v : json) (x : N) : option bool :=
  match v with
  | JStr s => Some (contains [x] s)
  | JArr l => Some (existsb (fun e => json_eq_str e [x]) l)
  | JObj o => Some (existsb (fun kv => str_eqb (fst kv) [x]) o)
  | _ => None
  end.

Section WithRuntime.
Context {rt : Runtime}.

Definition current_time_text : M pystr := (t <- now ;; ret (strftime t)).

(** The body of the [try] in [parse_datetime]. *)
Definition parse_datetime_try (date_string : json) : M pystr :=
  match json_has date_string year_mark, json_has date_string month_mark,
        json_has date_string day_mark with
  | Some hy, Some hm, Some hd =>
    if hy && hm && hd then
      match date_string with
      | JStr s =>
        match Re.re_search date_pattern s with
        | Some ([year; month; day; hour; minute], _) =>
          ret (year ++ [dash] ++ zfill 2 month ++ [dash] ++ zfill 2 day ++ [space]
               ++ zfill 2 hour ++ [colon] ++ zfill 2 minute ++ py ":00")
        | _ => current_time_text
        end
      | _ => raise TypeError
      end
    else current_time_text
  | _, _, _ => raise TypeError
  end.

Definition parse_datetime (date_string : json) : M pystr :=
  try_except (parse_datetime_try date_string) (fun _ => current_time_text).

Definition generate_guid (url title : json) : M pystr :=
  match url, title with
  | JStr u, JStr t =>
    c <- now ;;
    let unique_string := u ++ t ++ timestamp_str (Z.to_N c) in
    if utf8_encodable unique_string then ret (md5_hexdigest unique_string)
    else raise UnicodeEncodeError
  | _, _ => raise TypeError
  end.

Definition unknown_source : pystr := Eval vm_compute in py "未知来源".
Definition www_prefix : pystr := Eval vm_compute in py "www.".

(** [urlparse] fails on every value that is not a [str], and the failure is
    caught here. *)
Definition extract_domain_name (url : json) : pystr :=
  match url with
  | JStr u =>
    match urlparse_netloc u with
    | Some domain =>
      if starts_with www_prefix domain then slice_from domain 4 else domain
    | None => unknown_source
    end
  | _ => unknown_source
  end.

Definition generate_random_stats : M Stats :=
  v <- randint 100 10000 ;;
  l <- randint 10 1000 ;;
  c <- randint 5 500 ;;
  s <- randint 0 200 ;;
  ret (mkStats v l c s).

Definition calculate_hotness_score (stats : Stats) : result float :=
  match float_of_int (st_view_count stats),
        float_of_int (st_like_count stats * 2),
        float_of_int (st_comment_count stats * 3),
        float_of_int (st_share_count stats * 5) with
  | Ok v, Ok l, Ok c, Ok s =>
    let score := (v * 0.1 + l + c + s)%float in
    Ok (py_round score 1)
  | _, _, _, _ => Raise OverflowError
  end.

Definition empty_body_message : pystr := Eval vm_compute in py "正文为空，跳过此条新闻".
Definition empty_body_mark : pystr := Eval vm_compute in py "正文为空".
Definition hot_tag : pystr := Eval vm_compute in py "热点".

Definition key_title : pystr := Eval vm_compute in py "标题".
Definition key_body : pystr := Eval vm_compute in py "正文".
Definition key_source : pystr := Eval vm_compute in py "来源".
Definition key_url : pystr := Eval vm_compute in py "页面网址".
Definition key_time : pystr := Eval vm_compute in py "发布时间".

(** [item.get(key, default)]; a value that is not a dict has no [get]. *)
Definition dict_get (item : json) (key : pystr) (default : json) : result json :=
  match item with
  | JObj o => Ok (match lookup o key with Some v => v | None => default end)
  | _ => Raise AttributeError
  end.

Definition convert_news_item (source_item : json) : M NormalizedRecord :=
  title <- lift (dict_get source_item key_title (JStr [])) ;;
  content <- lift (dict_get source_item key_body (JStr [])) ;;
  source_name <- lift (dict_get source_item key_source (JStr [])) ;;
  url <- lift (dict_get source_item key_url (JStr [])) ;;
  publish_time <- lift (dict_get source_item key_time (JStr [])) ;;
  body <- match content with
          | JStr s =>
            if negb (nonempty s) || str_eqb (strip s) []
            then raise (ValueError empty_body_message) else ret s
          | other =>
            if negb (truthy other)
            then raise (ValueError empty_body_message) else raise AttributeError
          end ;;
  head <- match title with JStr t => ret t | _ => raise TypeError end ;;
  let category := analyze_category_with_ai head body in
  let summary := generate_summary body 200 in
  let description := summary in
  let source_name :=
    if negb (truthy source_name) then JStr (extract_domain_name url) else source_name in
  stats <- generate_random_stats ;;
  hotness_score <- lift (calculate_hotness_score stats) ;;
  published <- parse_datetime publish_time ;;
  guid <- generate_guid url title ;;
  author <- choice default_authors ;;
  ret (mkRecord head body summary description source_name category published
         JNull true (py "manual") JNull url guid author (JStr [])
         (json_dumps (JArr [JStr category; JStr category; JStr hot_tag]))
         (py "zh")
         (st_view_count stats) (st_like_count stats) (st_comment_count stats)
         (st_share_count stats) hotness_score (py "published") true).

Definition format_error_message : pystr :=
  Eval vm_compute in py "源数据格式不正确，应该是JSON对象或数组".

(** The title shown for a skipped or failed item:
    [item.get("标题", f"第{i+1}条新闻")]. *)
Definition shown_title (item : json) (i : Z) : result json :=
  dict_get item key_title (JStr (py "第" ++ str_of_int (i + 1) ++ py "条新闻")).

(** State of the conversion loop of [convert_file]. *)
Record LoopState := mkLoop {
  converted_data : list NormalizedRecord;
  skipped_count : Z;
  printed : list event;
  escaped : option exn
}.

(** The two [except] clauses of the loop body, entered with the exception
    [e]: the state they leave.  An exception raised inside a handler, by
    [item.get] or by [print], leaves the loop. *)
Definition handle (i : Z) (item : json) (e : exn) (st : LoopState) : LoopState :=
  let leave e' := mkLoop (converted_data st) (skipped_count st) (printed st) (Some e') in
  if is_value_error e then
    if message_contains e empty_body_mark then
      match shown_title item i with
      | Ok t =>
        match Console.print (py "⚠ 跳过: " ++ Console.py_str t ++ py " (正文为空)") with
        | Ok _ =>
          mkLoop (converted_data st) (skipped_count st + 1)
                 (printed st ++ [Skipped t]) None
        | Raise e' => leave e'
        end
      | Raise e' => leave e'
      end
    else
      mkLoop (converted_data st) (skipped_count st) (printed st ++ [Failed e]) None
  else
    match shown_title item i with
    | Ok t =>
      match Console.print (py "✗ 转换失败 [" ++ Console.py_str t ++ py "]: ") with
      | Ok _ =>
        mkLoop (converted_data st) (skipped_count st)
               (printed st ++ [FailedAt t e]) None
      | Raise e' => leave e'
      end
    | Raise e' => leave e'
    end.

(** The body of the loop for one item: the record is appended before its
    title is printed, so a failure of that [print] is handled with the
    record already in [converted_data]. *)
Definition convert_step (i : Z) (item : json) (st : LoopState) (w : World)
  : LoopState * World :=
  match convert_news_item item w with
  | (Ok r, w') =>
    let appended :=
      mkLoop (converted_data st ++ [r]) (skipped_count st) (printed st) None in
    match Console.print (py "✓ 转换成功: " ++ title r) with
    | Ok _ =>
      (mkLoop (converted_data st ++ [r]) (skipped_count st)
              (printed st ++ [Converted (title r)]) None, w')
    | Raise e => (handle i item e appended, w')
    end
  | (Raise e, w') => (handle i item e st, w')
  end.

(** The [for i, item in enumerate(source_data)] loop. *)
Fixpoint convert_loop (i : Z) (items : list json) (st : LoopState) (w : World)
  : LoopState * World :=
  match items with
  | [] => (st, w)
  | item :: rest =>
    let '(st', w') := convert_step i item st w in
    match escaped st' with
    | Some _ => (st', w')
    | None => convert_loop (i + 1) rest st' w'
    end
  end.

(** The three [except] clauses that close [convert_file]. *)
Definition report (e : exn) : event :=
  match e with
  | FileNotFoundError => SourceNotFound
  | JSONDecodeError => SourceNotJson
  | _ => RunError e
  end.

Definition convert_file (fs : Files) (w : World)
  : Outcome (list NormalizedRecord) * World :=
  match source_state fs with
  | Missing => (mkOutcome NoOutput [report FileNotFoundError] None, w)
  | Unreadable e => (mkOutcome NoOutput [report e] None, w)
  | Malformed => (mkOutcome NoOutput [report JSONDecodeError] None, w)
  | Loaded data =>
    let source_data :=
      match data with
      | JObj _ => Ok [data]
      | JArr l => Ok l
      | _ => Raise (ValueError format_error_message)
      end in
    match source_data with
    | Raise e => (mkOutcome NoOutput [report e] None, w)
    | Ok items =>
      let '(st, w') := convert_loop 0 items (mkLoop [] 0 [] None) w in
      match escaped st with
      | Some e => (mkOutcome NoOutput (printed st ++ [report e]) None, w')
      | None =>
        match target_error fs with
        | Some e => (mkOutcome NoOutput (printed st ++ [report e]) None, w')
        | None =>
          if forallb record_encodable (converted_data st) then
            (mkOutcome (Complete (converted_data st))
               (printed st
                ++ [Summary (Z.of_nat (length items))
                            (Z.of_nat (length (converted_data st)))
                            (skipped_count st)])
               None, w')
          else
            (mkOutcome Truncated (printed st ++ [report UnicodeEncodeError]) None, w')
        end
      end
    end
  end.

End WithRuntime.
End NewsConverter.

(** ** Variant 2: [NewsDataConverter] in
       [src/scripts/convert_localization_to_news.py] *)

Module NewsDataConverter.

Definition categories : list pystr :=
  Eval vm_compute in
  map py ["政治"; "经济"; "科技"; "体育"; "娱乐"; "社会"; "国际";
          "军事"; "教育"; "健康"; "环境"; "文化"; "旅游"; "财经"]%string.

Definition additional_tags : list pystr :=
  Eval vm_compute in map py ["热点"; "新闻"; "重要"; "关注"]%string.

Definition year_mark : N := NewsConverter.year_mark.
Definition month_mark : N := NewsConverter.month_mark.
Definition day_mark : N := NewsConverter.day_mark.

Definition script_marker : pystr := Eval vm_compute in py "document.getElementById".

(** [\d{4}年\d{2}月\d{2}日\d{2}:\d{2}], the group of the embedded-date search
    and the reduced format. *)
Definition short_pattern : list Re.elem :=
  [Re.Alt [Re.d4]; Re.Lit year_mark; Re.Alt [Re.d2]; Re.Lit month_mark;
   Re.Alt [Re.d2]; Re.Lit day_mark; Re.Alt [Re.d2]; Re.Lit colon; Re.Alt [Re.d2]].

(** [\d{4}年\d{2}月\d{2}日\d{2}:\d{2}:\d{2}] *)
Definition full_pattern : list Re.elem :=
  short_pattern ++ [Re.Lit colon; Re.Alt [Re.d2]].

(** ['%Y年%m月%d日%H:%M'] and ['%Y年%m月%d日%H:%M:%S'] *)
Definition short_format : list Re.elem :=
  [dir_Y; Re.Lit year_mark; dir_m; Re.Lit month_mark; dir_d; Re.Lit day_mark;
   dir_H; Re.Lit colon; dir_M].
Definition full_format : list Re.elem := short_format ++ [Re.Lit colon; dir_S].

(** ['%Y-%m-%d %H:%M:%S'] *)
Definition canonical_format : list Re.elem :=
  [dir_Y; Re.Lit dash; dir_m; Re.Lit dash; dir_d; Re.Spaces;
   dir_H; Re.Lit colon; dir_M; Re.Lit colon; dir_S].

Definition key_keyword : pystr := Eval vm_compute in py "关键词".
Definition key_title : pystr := NewsConverter.key_title.
Definition key_image : pystr := Eval vm_compute in py "图片".
Definition key_intro : pystr := Eval vm_compute in py "简介".
Definition key_source : pystr := NewsConverter.key_source.
Definition key_time : pystr := NewsConverter.key_time.
Definition key_body : pystr := NewsConverter.key_body.
Definition key_url : pystr := NewsConverter.key_url.
Definition key_sheet : pystr := Eval vm_compute in py "Sheet1".
Definition unknown_source : pystr := NewsConverter.unknown_source.

(** [re.sub(r'\r\n|\r|\n', '\n', s)] *)
Fixpoint unify_newlines (s : pystr) : pystr :=
  match s with
  | [] => []
  | c :: r =>
    if (c =? 13)%N then
      match r with
      | c' :: r' => if (c' =? 10)%N then 10%N :: unify_newlines r'
                    else 10%N :: unify_newlines r
      | [] => [10%N]
      end
    else c :: unify_newlines r
  end.

(** [re.sub(r'\n+', '\n', s)]: of a run of line feeds the last one stays. *)
Fixpoint collapse_newlines (s : pystr) : pystr :=
  match s with
  | [] => []
  | c :: r =>
    if (c =? 10)%N then
      match r with
      | c' :: _ => if (c' =? 10)%N then collapse_newlines r
                   else 10%N :: collapse_newlines r
      | [] => [10%N]
      end
    else c :: collapse_newlines r
  end.

(** [re.sub] rejects a value that is not a [str]. *)
Definition clean_text (text : json) : result pystr :=
  if negb (truthy text) then Ok []
  else
    match text with
    | JStr s => Ok (strip (collapse_newlines (unify_newlines s)))
    | _ => Raise TypeError
    end.

Section WithRuntime.
Context {rt : Runtime}.

Definition py_str (v : json) : pystr := Console.py_str v.

Definition random_past_time : M pystr :=
  days_ago <- randint 1 30 ;;
  t <- now ;;
  t' <- lift (minus_days t days_ago) ;;
  ret (strftime t').

Definition reformat (fmt : list Re.elem) (s : pystr) : M pystr :=
  t <- lift (strptime fmt s) ;; ret (strftime t).

(** The body of the [try] in [parse_datetime]; membership and [re] calls
    raise TypeError on every value that is not a [str]. *)
Definition parse_datetime_try (date_str : json) : M pystr :=
  match date_str with
  | JStr s =>
    let s :=
      if contains script_marker s then
        match Re.re_search short_pattern s with
        | Some (_, whole) => whole
        | None => s
        end
      else s in
    match Re.re_match full_pattern s with
    | Some _ => reformat full_format s
    | None =>
      match Re.re_match short_pattern s with
      | Some _ => reformat short_format s
      | None => random_past_time
      end
    end
  | _ => raise TypeError
  end.

(** [date_str] as the handler finds it: the first [if] may have replaced
    it by the embedded date. *)
Definition shown_date (date_str : json) : json :=
  match date_str with
  | JStr s =>
    if contains script_marker s then
      match Re.re_search short_pattern s with
      | Some (_, whole) => JStr whole
      | None => date_str
      end
    else date_str
  | _ => date_str
  end.

(** The handler prints the date before it draws a random time. *)
Definition parse_datetime (date_str : json) : M pystr :=
  try_except (parse_datetime_try date_str)
    (fun _ =>
       lift (Console.print (py "日期解析错误: " ++ py_str (shown_date date_str)
                            ++ py ", 错误: ")) ;;;
       random_past_time).

Definition generate_guid (title source : json) : M pystr :=
  t <- now ;;
  let content := py_str title ++ py "_" ++ py_str source ++ py "_" ++ isoformat t in
  if utf8_encodable content then ret (md5_hexdigest content)
  else raise UnicodeEncodeError.

(** [int(base_views * factor)] *)
Definition share_of (base_views : Z) (factor : float) : result Z :=
  match float_of_int base_views with
  | Ok b => int_of_float (b * factor)%float
  | Raise e => Raise e
  end.

Definition generate_random_stats : M Stats :=
  base_views <- randint 100 10000 ;;
  like_lo <- lift (share_of base_views 0.01) ;;
  like_hi <- lift (share_of base_views 0.1) ;;
  likes <- randint like_lo like_hi ;;
  comment_hi <- lift (share_of base_views 0.05) ;;
  comments <- randint 0 comment_hi ;;
  share_hi <- lift (share_of base_views 0.02) ;;
  shares <- randint 0 share_hi ;;
  ret (mkStats base_views likes comments shares).

(** [random.random()]: 53 random bits scaled into [0, 1). *)
Definition random_float : M float :=
  k <- randbelow (2 ^ 53) ;;
  ret (of_int k / of_int (2 ^ 53))%float.

(** [random.uniform(a, b)] *)
Definition uniform (a b : float) : M float :=
  r <- random_float ;; ret (a + (b - a) * r)%float.

Definition hotness_try (stats : Stats) (published_at : pystr) : M float :=
  pub_date <- lift (strptime canonical_format published_at) ;;
  t <- now ;;
  let days_old := days_between t pub_date in
  v <- lift (float_of_int (st_view_count stats)) ;;
  l <- lift (float_of_int (st_like_count stats)) ;;
  c <- lift (float_of_int (st_comment_count stats)) ;;
  s <- lift (float_of_int (st_share_count stats)) ;;
  d <- lift (float_of_int days_old) ;;
  let base_score := (v * 1.0 + l * 5.0 + c * 3.0 + s * 10.0)%float in
  let time_factor := py_max 0.1 (1.0 - d * 0.1)%float in
  ret (py_round (base_score * time_factor)%float 2).

Definition calculate_hotness_score (stats : Stats) (published_at : pystr) : M float :=
  try_except (hotness_try stats published_at)
    (fun _ => x <- uniform 10.0 1000.0 ;; ret (py_round x 2)).

(** The [tags] list of [extract_tags] before it is serialized. *)
Definition tag_list (keyword category : json) : M (list json) :=
  let tags := (if truthy keyword then [keyword] else [])
              ++ (if truthy category then [category] else []) in
  k <- randint 0 2 ;;
  extra <- sample [] additional_tags k ;;
  ret (tags ++ map JStr extra).

Definition extract_tags (keyword category : json) : M pystr :=
  tags <- tag_list keyword category ;;
  ret (json_dumps (JArr tags)).

Definition dict_get := @NewsConverter.dict_get.

(** [keyword in self.categories] *)
Definition known_category (keyword : json) : option pystr :=
  match keyword with
  | JStr k => if mem_str k categories then Some k else None
  | _ => None
  end.

Definition convert_news_item (item : json) : M NormalizedRecord :=
  keyword <- lift (dict_get item key_keyword (JStr [])) ;;
  title <- lift (dict_get item key_title (JStr [])) ;;
  image_url <- lift (dict_get item key_image (JStr [])) ;;
  summary <- lift (dict_get item key_intro (JStr [])) ;;
  source <- lift (dict_get item key_source (JStr [])) ;;
  published_time <- lift (dict_get item key_time (JStr [])) ;;
  content <- lift (dict_get item key_body (JStr [])) ;;
  link <- lift (dict_get item key_url (JStr [])) ;;
  stats <- generate_random_stats ;;
  published_at <- parse_datetime published_time ;;
  hotness_score <- calculate_hotness_score stats published_at ;;
  title' <- lift (clean_text title) ;;
  content' <- lift (clean_text content) ;;
  summary' <- lift (clean_text summary) ;;
  description' <- lift (clean_text summary) ;;
  let source' := if truthy source then source else JStr unknown_source in
  category <- match known_category keyword with
              | Some k => ret k
              | None => choice categories
              end ;;
  guid <- generate_guid title source ;;
  tags <- extract_tags keyword keyword ;;
  ret (mkRecord title' content' summary' description' source' category published_at
         JNull true (py "manual") JNull link guid [] image_url tags (py "zh")
         (st_view_count stats) (st_like_count stats) (st_comment_count stats)
         (st_share_count stats) hotness_score (py "published") true).

(** The document [convert_all] writes. *)
Record Envelope := mkEnvelope {
  news_items : list NormalizedRecord;
  total_count : Z;
  conversion_time : pystr
}.

(** The loop over [data["Sheet1"]]: a failed item is reported, the
    exception first and then the item itself, and left out.  When the item
    cannot be printed the exception of [print] leaves the loop; it is the
    last component of the result. *)
Fixpoint convert_loop (items : list json) (acc : list NormalizedRecord)
         (log : list event) (w : World)
  : list NormalizedRecord * list event * World * option exn :=
  match items with
  | [] => (acc, log, w, None)
  | item :: rest =>
    match convert_news_item item w with
    | (Ok r, w') => convert_loop rest (acc ++ [r]) log w'
    | (Raise e, w') =>
      match Console.print (py "问题条目: " ++ py_str item) with
      | Ok _ => convert_loop rest acc (log ++ [FailedItem e item]) w'
      | Raise e' => (acc, log ++ [Failed e], w', Some e')
      end
    end
  end.

(** [if "Sheet1" in data and isinstance(data["Sheet1"], list)]: the items to
    convert, none when the test is false. *)
Definition sheet_items (data : json) : result (list json) :=
  match data with
  | JObj o =>
    match lookup o key_sheet with
    | Some (JArr l) => Ok l
    | _ => Ok []
    end
  | JArr l => if existsb (fun e => json_eq_str e key_sheet) l then Raise TypeError else Ok []
  | JStr s => if contains key_sheet s then Raise TypeError else Ok []
  | _ => Raise TypeError
  end.

(** [len(data.get('Sheet1', []))] in the closing report. *)
Definition sheet_length (data : json) : result Z :=
  match data with
  | JObj o =>
    match lookup o key_sheet with
    | None => Ok 0
    | Some (JArr l) => Ok (Z.of_nat (length l))
    | Some (JStr s) => Ok (len s)
    | Some (JObj o') => Ok (Z.of_nat (length o'))
    | Some _ => Raise TypeError
    end
  | _ => Raise AttributeError
  end.

(** Every exception is reported and raised again. *)
Definition fail {D} (out : output D) (log : list event) (e : exn) : Outcome D :=
  mkOutcome out (log ++ [RunError e]) (Some e).

Definition convert_all (fs : Files) (w : World) : Outcome Envelope * World :=
  match source_state fs with
  | Missing => (fail NoOutput [] FileNotFoundError, w)
  | Unreadable e => (fail NoOutput [] e, w)
  | Malformed => (fail NoOutput [] JSONDecodeError, w)
  | Loaded data =>
    match sheet_items data with
    | Raise e => (fail NoOutput [] e, w)
    | Ok items =>
      let '(news, log, w1, leaving) := convert_loop items [] [] w in
      match leaving with
      | Some e => (fail NoOutput log e, w1)
      | None =>
        match now w1 with
        | (Raise e, w2) => (fail NoOutput log e, w2)
        | (Ok t, w2) =>
          let output_data := mkEnvelope news (Z.of_nat (length news)) (isoformat t) in
          match target_error fs with
          | Some e => (fail NoOutput log e, w2)
          | None =>
            if forallb record_encodable news then
              match sheet_length data with
              | Ok n =>
                (mkOutcome (Complete output_data)
                   (log ++ [Summary n (Z.of_nat (length news)) 0]) None, w2)
              | Raise e => (fail (Complete output_data) log e, w2)
              end
            else (fail Truncated log UnicodeEncodeError, w2)
          end
        end
      end
    end
  end.

(** *** The SQL emitter *)

Definition quote_char : N := 39%N.

Definition escape_sql (value : json) : pystr :=
  match value with
  | JNull => py "NULL"
  | JBool true => py "true"
  | JBool false => py "false"
  | JInt z => str_of_int z
  | JFloat f => float_repr f
  | _ => [quote_char] ++ replace_char quote_char [quote_char; quote_char] (py_str value)
         ++ [quote_char]
  end.

Definition nl : pystr := [10%N].
Definition value_line (v : pystr) : pystr := py "    " ++ v ++ py "," ++ nl.

Definition insert_head : pystr :=
  py "INSERT INTO news (" ++ nl
  ++ py "    title, content, summary, description, source, category, published_at," ++ nl
  ++ py "    created_by, is_active, source_type, rss_source_id, link, guid," ++ nl
  ++ py "    author, image_url, tags, language, view_count, like_count," ++ nl
  ++ py "    comment_count, share_count, hotness_score, status, is_processed," ++ nl
  ++ py "    created_at, updated_at" ++ nl
  ++ py ") VALUES (" ++ nl.

Definition insert_tail : pystr :=
  py "    NOW()," ++ nl ++ py "    NOW()" ++ nl ++ py ");" ++ nl ++ nl.

(** The f-string of one [INSERT] statement. *)
Definition sql_insert (item : NormalizedRecord) : pystr :=
  insert_head
  ++ value_line (escape_sql (JStr (title item)))
  ++ value_line (escape_sql (JStr (content item)))
  ++ value_line (escape_sql (JStr (summary item)))
  ++ value_line (escape_sql (JStr (description item)))
  ++ value_line (escape_sql (source item))
  ++ value_line (escape_sql (JStr (category item)))
  ++ value_line (escape_sql (JStr (published_at item)))
  ++ value_line (escape_sql (created_by item))
  ++ value_line (escape_sql (JBool (is_active item)))
  ++ value_line (escape_sql (JStr (source_type item)))
  ++ value_line (escape_sql (rss_source_id item))
  ++ value_line (escape_sql (link item))
  ++ value_line (escape_sql (JStr (guid item)))
  ++ value_line (escape_sql (JStr (author item)))
  ++ value_line (escape_sql (image_url item))
  ++ value_line (escape_sql (JStr (tags item)))
  ++ value_line (escape_sql (JStr (language item)))
  ++ value_line (str_of_int (view_count item))
  ++ value_line (str_of_int (like_count item))
  ++ value_line (str_of_int (comment_count item))
  ++ value_line (str_of_int (share_count item))
  ++ value_line (float_repr (hotness_score item))
  ++ value_line (escape_sql (JStr (status item)))
  ++ value_line (escape_sql (JBool (is_processed item)))
  ++ insert_tail.

End WithRuntime.
End NewsDataConverter.

(** ** The converted records as JSON, and the SQL stage on the JSON file

    [convert_all] hands its document to [json.dump] and [generate_sql_inserts]
    reads it back with [json.load]; the file is taken to hold the JSON value
    that was written ([json.load] returns what [json.dump] was given, for
    values made of dicts with text keys, lists, text, numbers, booleans and
    null). *)

Definition record_keys : list pystr :=
  Eval vm_compute in
  map py ["title"; "content"; "summary"; "description"; "source"; "category";
          "published_at"; "created_by"; "is_active"; "source_type"; "rss_source_id";
          "link"; "guid"; "author"; "image_url"; "tags"; "language"; "view_count";
          "like_count"; "comment_count"; "share_count"; "hotness_score"; "status";
          "is_processed"]%string.

Definition record_values (r : NormalizedRecord) : list json :=
  [JStr (title r); JStr (content r); JStr (summary r); JStr (description r); source r;
   JStr (category r); JStr (published_at r); created_by r; JBool (is_active r);
   JStr (source_type r); rss_source_id r; link r; JStr (guid r); JStr (author r);
   image_url r; JStr (tags r); JStr (language r); JInt (view_count r);
   JInt (like_count r); JInt (comment_count r); JInt (share_count r);
   JFloat (hotness_score r); JStr (status r); JBool (is_processed r)].

(** The dict that [convert_news_item] builds. *)
Definition record_json (r : NormalizedRecord) : json :=
  JObj (combine record_keys (record_values r)).

Definition key_news_items : pystr := Eval vm_compute in py "news_items".

(** The dict that [convert_all] writes for the input file [input_file]. *)
Definition envelope_json (input_file : pystr) (e : NewsDataConverter.Envelope) : json :=
  JObj [(key_news_items, JArr (map record_json (NewsDataConverter.news_items e)));
        (py "total_count", JInt (NewsDataConverter.total_count e));
        (py "conversion_time", JStr (NewsDataConverter.conversion_time e));
        (py "source_file", JStr input_file)].

(** What a later [open] finds where a run was to write: the file as it was,
    a document cut short, or the document written. *)
Definition file_after {D} (encode : D -> json) (before : file_state) (out : output D)
  : file_state :=
  match out with
  | NoOutput => before
  | Truncated => Malformed
  | Complete d => Loaded (encode d)
  end.

(** What [generate_sql_inserts] prints. *)
Inductive script_event :=
| ScriptWritten (statements : Z)
| ScriptFailed (e : exn).

Record ScriptOutcome := mkScript {
  script : output pystr;
  script_console : list script_event;
  script_raised : option exn
}.

Module SqlFile.
Section WithRuntime.
Context {rt : Runtime}.
Import NewsDataConverter.

(** [item[key]] *)
Definition subscript (item : json) (key : pystr) : result json :=
  match item with
  | JObj o =>
    match lookup o key with
    | Some v => Ok v
    | None => Raise KeyError
    end
  | _ => Raise TypeError
  end.

(** The columns in the order of the f-string, each with whether its value
    goes through [escape_sql]: the four counts and the score do not. *)
Definition columns : list (pystr * bool) :=
  Eval vm_compute in
  combine record_keys
    [true; true; true; true; true; true; true; true; true; true; true; true; true;
     true; true; true; true; false; false; false; false; false; true; true].

(** The replacement fields of the f-string, evaluated from left to right;
    an unescaped value is rendered by [format], that is [str]. *)
Fixpoint values (item : json) (cols : list (pystr * bool)) : result pystr :=
  match cols with
  | [] => Ok []
  | (key, escaped) :: rest =>
    match subscript item key with
    | Raise e => Raise e
    | Ok v =>
      match values item rest with
      | Raise e => Raise e
      | Ok text => Ok (value_line (if escaped then escape_sql v else py_str v) ++ text)
      end
    end
  end.

(** The f-string of one statement, for an item of the document. *)
Definition item_sql (item : json) : result pystr :=
  match values item columns with
  | Ok text => Ok (insert_head ++ text ++ insert_tail)
  | Raise e => Raise e
  end.

(** What [for item in news_items] goes through: the elements of a list,
    the characters of a text, the keys of a dict. *)
Definition iterate (news_items : json) : result (list json) :=
  match news_items with
  | JArr l => Ok l
  | JStr s => Ok (map (fun c => JStr [c]) s)
  | JObj o => Ok (map (fun kv => JStr (fst kv)) o)
  | _ => Raise TypeError
  end.

(** The loop: each statement is built and written in turn; the first
    failure ends it. *)
Fixpoint statements (items : list json) : result pystr :=
  match items with
  | [] => Ok []
  | item :: rest =>
    match item_sql item with
    | Raise e => Raise e
    | Ok sql =>
      if utf8_encodable sql then
        match statements rest with
        | Ok text => Ok (sql ++ text)
        | Raise e => Raise e
        end
      else Raise UnicodeEncodeError
    end
  end.

Definition header (t : datetime) : pystr :=
  py "-- 自动生成的新闻数据插入语句" ++ nl
  ++ py "-- 生成时间: " ++ isoformat t ++ nl ++ nl
  ++ py "BEGIN;" ++ nl ++ nl.

Definition footer : pystr := py "COMMIT;" ++ nl.

(** Every exception is reported and raised again. *)
Definition fail (out : output pystr) (e : exn) : ScriptOutcome :=
  mkScript out [ScriptFailed e] (Some e).

(** [generate_sql_inserts(json_file, sql_file)]: [source_state] is the JSON
    file, [target_error] what opening the SQL file for writing raises.  Once
    the SQL file is open a failure leaves it cut short. *)
Definition generate_sql_inserts (fs : Files) (w : World) : ScriptOutcome * World :=
  match source_state fs with
  | Missing => (fail NoOutput FileNotFoundError, w)
  | Unreadable e => (fail NoOutput e, w)
  | Malformed => (fail NoOutput JSONDecodeError, w)
  | Loaded data =>
    match dict_get data key_news_items (JArr []) with
    | Raise e => (fail NoOutput e, w)
    | Ok news_items =>
      match target_error fs with
      | Some e => (fail NoOutput e, w)
      | None =>
        match now w with
        | (Raise e, w1) => (fail Truncated e, w1)
        | (Ok t, w1) =>
          match iterate news_items with
          | Raise e => (fail Truncated e, w1)
          | Ok items =>
            match statements items with
            | Raise e => (fail Truncated e, w1)
            | Ok body =>
              (mkScript (Complete (header t ++ body ++ footer))
                 [ScriptWritten (Z.of_nat (length items))] None, w1)
            end
          end
        end
      end
    end
  end.

(** What [main] leaves behind: the outcome of the JSON stage, that of the
    SQL stage when it was reached, and the exception that ended it, if any. *)
Record MainOutcome := mkMain {
  json_stage : Outcome Envelope;
  sql_stage : option ScriptOutcome;
  main_raised : option exn
}.

Definition input_file : pystr := Eval vm_compute in py "localization.json".

(** [main()]: [input] is "localization.json" and what opening
    "converted_news_data.json" for writing raises, [json_before] the latter
    file as it was, [sql_error] what opening "insert_news_data.sql" raises.
    The SQL stage reads the file the JSON stage wrote. *)
Definition main (input : Files) (json_before : file_state) (sql_error : option exn)
           (w : World) : MainOutcome * World :=
  let '(o1, w1) := convert_all input w in
  match raised o1 with
  | Some e => (mkMain o1 None (Some e), w1)
  | None =>
    let json_file := file_after (envelope_json input_file) json_before (written o1) in
    let '(o2, w2) := generate_sql_inserts (mkFiles json_file sql_error) w1 in
    (mkMain o1 (Some o2) (script_raised o2), w2)
  end.

End WithRuntime.
End SqlFile.

(** ** Vocabulary of the properties *)

(** [item.get(key, default)] with the empty text as default, on a record
    that is a JSON object. *)
Definition field_of (item : json) (key : pystr) : json :=
  match item with
  | JObj o => match lookup o key with Some v => v | None => JStr [] end
  | _ => JStr []
  end.

Definition stats_of (r : NormalizedRecord) : Stats :=
  mkStats (view_count r) (like_count r) (comment_count r) (share_count r).

(** The shapes variant 1 accepts at the top of the document. *)
Definition object_or_array (data : json) : bool :=
  match data with
  | JObj _ | JArr _ => true
  | _ => false
  end.

(** Empty or made of whitespace only. *)
Definition blank (s : pystr) : bool := str_eqb (strip s) [].


(** The shape [YYYY-MM-DD HH:MM:SS]: nineteen characters, ASCII digits
    around the separators. *)
Definition canonical_timestamp (s : pystr) : bool :=
  match s with
  | [y1; y2; y3; y4; a; m1; m2; b; d1; d2; c; h1; h2; d; n1; n2; e; s1; s2] =>
    forallb is_ascii_digit [y1; y2; y3; y4; m1; m2; d1; d2; h1; h2; n1; n2; s1; s2]
    && (a =? dash)%N && (b =? dash)%N && (c =? space)%N
    && (d =? colon)%N && (e =? colon)%N
  | _ => false
  end.

(** Exactly [n] characters, all of them ASCII digits. *)
Definition ascii_digits (n : nat) (s : pystr) : bool :=
  (length s =? n)%nat && forallb is_ascii_digit s.

(** Text whose decimal digits are all ASCII digits. *)
Definition ascii_digits_only (s : pystr) : Prop :=
  forall c, In c s -> is_digit c = true -> is_ascii_digit c = true.

(** The reading the next call of [datetime.now()] gets is a date that
    [datetime] can represent. *)
Definition clock_in_range (w : World) : Prop :=
  Z.of_N (clock_tape w (clock_pos w)) <= max_datetime.

(** [P] holds of [fuel] consecutive integers from [z] on. *)
Fixpoint all_from (fuel : nat) (z : Z) (P : Z -> bool) : bool :=
  match fuel with
  | O => true
  | S f => if P z then all_from f (z + 1) P else false
  end.

(** The groups a pattern captures when every class of its alternations is
    [\d]: one run of decimal digits per alternation, as long as one of its
    alternatives. *)
Definition digit_classes (ks : list Re.cls) : bool :=
  forallb (fun k => match k with Re.Digit => true | _ => false end) ks.

Fixpoint digit_pattern (p : list Re.elem) : bool :=
  match p with
  | [] => true
  | Re.Alt alts :: p' => forallb digit_classes alts && digit_pattern p'
  | _ :: p' => digit_pattern p'
  end.

Fixpoint digit_groups (p : list Re.elem) (gs : list pystr) : Prop :=
  match p with
  | [] => gs = []
  | Re.Alt alts :: p' =>
    exists g gs',
      gs = g :: gs'
      /\ (exists ks, In ks alts /\ length g = length ks)
      /\ forallb is_digit g = true
      /\ digit_groups p' gs'
  | _ :: p' => digit_groups p' gs
  end.

(** A reading of SQL text: a single quote opens or closes a string literal
    (a doubled quote inside a literal closes and reopens it); outside
    literals parentheses nest and semicolons end statements. *)
Record SqlScan := mkScan {
  in_literal : bool;
  depth : Z;
  semicolons : Z;
  balanced : bool        (* no parenthesis closed before it was opened *)
}.

Definition sql_step (st : SqlScan) (c : N) : SqlScan :=
  if (c =? 39)%N then mkScan (negb (in_literal st)) (depth st) (semicolons st) (balanced st)
  else if in_literal st then st
  else if (c =? 40)%N then mkScan false (depth st + 1) (semicolons st) (balanced st)
  else if (c =? 41)%N then
    mkScan false (depth st - 1) (semicolons st) (balanced st && (1 <=? depth st))
  else if (c =? 59)%N then mkScan false (depth st) (semicolons st + 1) (balanced st)
  else st.

Definition sql_scan (st : SqlScan) (text : pystr) : SqlScan := fold_left sql_step text st.

Definition scan_start : SqlScan := mkScan false 0 0 true.

(** One well-formed statement: every literal is closed, parentheses are
    balanced, and the only semicolon outside literals ends the text (line
    feeds may follow). *)
Definition well_formed_statement (text : pystr) : Prop :=
  sql_scan scan_start text = mkScan false 0 1 true
  /\ exists body, text = body ++ [59; 10; 10]%N.

(** Number of single quotes in a text. *)
Definition quotes_in (s : pystr) : nat := length (filter (N.eqb 39) s).

(** A text with each of its single quotes written twice, and the literal
    made of it: the doubled text between single quotes. *)
Fixpoint double_quotes (s : pystr) : pystr :=
  match s with
  | [] => []
  | c :: r =>
    if (c =? 39)%N then 39%N :: 39%N :: double_quotes r else c :: double_quotes r
  end.

Definition quoted_literal (s : pystr) : pystr := [39%N] ++ double_quotes s ++ [39%N].

(** The text a literal denotes, from what stands between its delimiters:
    two quotes in a row are one quote, a quote on its own is not allowed. *)
Fixpoint sql_literal_value (body : pystr) : option pystr :=
  match body with
  | [] => Some []
  | c :: r =>
    if (c =? 39)%N then
      match r with
      | c' :: r' =>
        if (c' =? 39)%N then option_map (cons 39%N) (sql_literal_value r') else None
      | [] => None
      end
    else option_map (cons c) (sql_literal_value r)
  end.

(** Characters that neither delimit a literal nor structure a statement. *)
Definition sql_plain (c : N) : bool :=
  negb ((c =? 39) || (c =? 40) || (c =? 41) || (c =? 59))%N.

(** *** Vocabulary of the further properties *)

(** The world after [n] more draws from the random generator. *)
Definition after_draws (n : nat) (w : World) : World :=
  mkWorld (rand_tape w) (n + rand_pos w) (clock_tape w) (clock_pos w).

(** The four bounds that variant 2 derives from a view count, against the
    integer quotients. *)
Definition shares_ok (base_views : Z) : bool :=
  match NewsDataConverter.share_of base_views 0.01,
        NewsDataConverter.share_of base_views 0.1,
        NewsDataConverter.share_of base_views 0.05,
        NewsDataConverter.share_of base_views 0.02 with
  | Ok a, Ok b, Ok c, Ok d =>
    (a =? base_views / 100) && (b =? base_views / 10)
    && (c =? base_views / 20) && (d =? base_views / 50)
  | _, _, _, _ => false
  end.

(** No two line feeds in a row. *)
Fixpoint no_blank_line (s : pystr) : bool :=
  match s with
  | [] => true
  | a :: r =>
    match r with
    | b :: _ => negb ((a =? 10) && (b =? 10))%N
    | [] => true
    end && no_blank_line r
  end.

(** Neither the first nor the last character is whitespace. *)
Definition edge_trimmed (s : pystr) : bool :=
  match s with
  | [] => true
  | c :: _ => negb (is_space c) && negb (is_space (last s c))
  end.

(** The first sentence of a body as [generate_summary] sees it: what stands
    before the first terminal mark once whitespace and bracketed notes are
    removed. *)
Definition first_sentence (content : pystr) : pystr :=
  hd [] (NewsConverter.re_split_terminals
           (NewsConverter.re_sub_brackets (NewsConverter.re_sub_spaces content))).

(** The sentences the summary loop appends before it stops. *)
Fixpoint taken (max_length : Z) (summary : pystr) (sentences : list pystr) : list pystr :=
  match sentences with
  | [] => []
  | sentence :: rest =>
    if (len (summary ++ sentence) <=? max_length) && nonempty (strip sentence)
    then sentence :: taken max_length (summary ++ sentence ++ [NewsConverter.full_stop]) rest
    else []
  end.

(** A terminal mark becomes "。", every other character stays. *)
Definition as_full_stop (c : N) : N :=
  if NewsConverter.is_terminal c then NewsConverter.full_stop else c.

(** A sentence with the mark the summary loop appends. *)
Definition closed (sentence : pystr) : pystr := sentence ++ [NewsConverter.full_stop].

(** No "【" with a "】" somewhere after it: nothing for the pattern of the
    bracketed notes to match in a text without line feed. *)
Fixpoint note_free (s : pystr) : bool :=
  match s with
  | [] => true
  | c :: r =>
    negb ((c =? NewsConverter.open_bracket)%N
          && existsb (N.eqb NewsConverter.close_bracket) r)
    && note_free r
  end.

(** Every reading of the clock is a date that [datetime] can represent. *)
Definition clock_ok (w : World) : Prop :=
  forall n, Z.of_N (clock_tape w n) <= max_datetime.

(** A computation that leaves the clock's tape as it is, whatever it
    returns. *)
Definition keeps_clock {A} (m : M A) : Prop :=
  forall w, clock_tape (snd (m w)) = clock_tape w.

(** The integers that [float] converts without overflow, one by one. *)
Definition converts (z : Z) : bool :=
  match float_of_int z with
  | Ok _ => true
  | Raise _ => false
  end.

(** The values [clean_text] accepts: text, and whatever is false in a
    condition. *)
Definition cleanable (v : json) : bool :=
  match v with
  | JStr _ => true
  | other => negb (truthy other)
  end.

Definition is_object (v : json) : bool :=
  match v with
  | JObj _ => true
  | _ => false
  end.




(** The number of records a document holds for variant 1. *)
Definition record_count (data : json) : Z :=
  match data with
  | JArr l => Z.of_nat (length l)
  | _ => 1
  end.

(** The kinds of line the conversion loops print for one item. *)
Definition is_converted (e : event) : bool :=
  match e with Converted _ => true | _ => false end.
Definition is_skipped (e : event) : bool :=
  match e with Skipped _ => true | _ => false end.
Definition is_failure (e : event) : bool :=
  match e with Failed _ | FailedAt _ _ | FailedItem _ _ => true | _ => false end.

Definition count_events (p : event -> bool) (l : list event) : Z :=
  Z.of_nat (length (filter p l)).

(** A value [len] does not accept: null, a boolean or a number. *)
Definition is_scalar (v : json) : bool :=
  match v with
  | JNull | JBool _ | JInt _ | JFloat _ => true
  | _ => false
  end.


(** The scan's statement counter moved by [j]. *)
Definition shift (j : Z) (st : SqlScan) : SqlScan :=
  mkScan (in_literal st) (depth st) (semicolons st + j) (balanced st).

Definition is_number (v : json) : bool :=
  match v with
  | JInt _ | JFloat _ => true
  | _ => false
  end.

(** The columns whose values the f-string does not pass through
    [escape_sql]. *)
Definition plain_columns : list pystr :=
  Eval vm_compute in
  map fst (filter (fun kb => negb (snd kb)) SqlFile.columns).

(** The fields that hold the same value in every converted record. *)
Definition fixed_fields (r : NormalizedRecord) : Prop :=
  created_by r = JNull /\ rss_source_id r = JNull
  /\ source_type r = py "manual" /\ language r = py "zh"
  /\ status r = py "published".

(** The first alternative of [alts] that matches at the head of [g] takes
    all of [g], and the alternatives tried before it are no longer than [g]:
    what a backtracking matcher finds first on [g] followed by any text. *)
Fixpoint first_takes (alts : list (list Re.cls)) (g : pystr) : bool :=
  match alts with
  | [] => false
  | ks :: rest =>
    match Re.match_seq ks g with
    | Some (_, []) => true
    | Some (_, _ :: _) => false
    | None => (length ks <=? length g)%nat && first_takes rest g
    end
  end.

Definition alts_of (e : Re.elem) : list (list Re.cls) :=
  match e with
  | Re.Alt alts => alts
  | _ => []
  end.

(** A field of a date text: [v] printed with [width] digits is taken whole
    by the directive's pattern and by [\d{width}], and [int] reads [v] back. *)
Definition field_ok (width : nat) (directive : Re.elem) (v : Z) : bool :=
  first_takes (alts_of directive) (pad_int width v)
  && first_takes [repeat Re.Digit width] (pad_int width v)
  && match py_int (pad_int width v) with
     | Some z => z =? v
     | None => false
     end.

(** A date and time of day in the source's notation, without and with
    seconds, and as a timestamp. *)
Definition date_text (y m d hh mm : Z) : pystr :=
  pad_int 4 y ++ [NewsConverter.year_mark] ++ pad_int 2 m ++ [NewsConverter.month_mark]
  ++ pad_int 2 d ++ [NewsConverter.day_mark] ++ pad_int 2 hh ++ [colon] ++ pad_int 2 mm.

Definition date_text_seconds (y m d hh mm ss : Z) : pystr :=
  date_text y m d hh mm ++ [colon] ++ pad_int 2 ss.

Definition timestamp_text (y m d hh mm ss : Z) : pystr :=
  pad_int 4 y ++ [dash] ++ pad_int 2 m ++ [dash] ++ pad_int 2 d ++ [space]
  ++ pad_int 2 hh ++ [colon] ++ pad_int 2 mm ++ [colon] ++ pad_int 2 ss.

(** The fields [datetime(...)] accepts. *)
Definition valid_datetime (y m d hh mm ss : Z) : Prop :=
  1 <= y <= 9999 /\ 1 <= m <= 12 /\ 1 <= d <= days_in_month y m
  /\ 0 <= hh <= 23 /\ 0 <= mm <= 59 /\ 0 <= ss <= 59.

(** A group of one or two decimal digits, as [\d{1,2}] captures it. *)
Definition short_field (g : pystr) : bool :=
  forallb is_digit g && ((length g =? 1) || (length g =? 2))%nat.

(** The text does not go on with a decimal digit. *)
Definition no_digit_next (s : pystr) : bool :=
  match s with
  | c :: _ => negb (is_digit c)
  | [] => true
  end.

(** ** A small runtime and world on which the model runs *)

(** The text after [//] up to the next [/], [?] or [#]: the network location
    of a plain absolute URL. *)
Fixpoint until_delimiter (s : pystr) : pystr :=
  match s with
  | [] => []
  | c :: r => if ((c =? 47) || (c =? 63) || (c =? 35))%N then [] else c :: until_delimiter r
  end.

Fixpoint plain_netloc (s : pystr) : pystr :=
  match s with
  | [] => []
  | c :: r => if starts_with [47; 47]%N s then until_delimiter (skipn 1 r) else plain_netloc r
  end.

#[export] Instance plain_runtime : Runtime := {|
  float_repr := fun _ => py "0.0";
  float_repr_chars := fun _ => eq_refl;
  container_str := fun _ => py "[]";
  md5_hexdigest := fun _ => py "d41d8cd98f00b204e9800998ecf8427e";
  urlparse_netloc := fun u => Some (plain_netloc u);
  timestamp_str := fun t => str_of_int (Z.of_N t / 1000000) ++ py ".0";
  strftime_pads_year := true
|}.

(** 2025-07-02 10:00:00, and draws 12345, 13345, 14345, ... *)
Definition sample_world : World :=
  mkWorld (fun n => (12345 + 1000 * N.of_nat n)%N) 0
          (fun _ => Z.to_N ((days_from_civil 2025 7 2 * 86400 + 36000) * 1000000)) 0.

(** A record as the first converter's input has them, one without body
    text, and one whose digits are full-width. *)
Definition sample_item : json :=
  JObj [(py "标题", JStr (py "股市大涨 经济回暖"));
        (py "正文", JStr (py "今日股市全面上涨。 投资者情绪高涨！【编辑：张三】银行板块涨幅居前。"));
        (py "页面网址", JStr (py "https://www.example.com/a/1.html"));
        (py "发布时间", JStr (py "2025年07月01日19:01"))].

Definition blank_fields : list (pystr * json) :=
  [(py "标题", JStr (py "快讯")); (py "正文", JStr (py "  "))].

Definition blank_item : json := JObj blank_fields.


Definition fullwidth_date : pystr := py "２０２５年０７月０１日１９:０１".

(** A document whose records sit under a key other than "Sheet1". *)
Definition other_key_document : json := JObj [(py "news", JArr [sample_item])].

Definition keyword_item : json :=
  JObj [(py "关键词", JStr (py "科技")); (py "标题", JStr (py "芯片新突破"));
        (py "正文", JStr (py "国产芯片取得新突破。"))].

(** A record with a quote in its title and a list as its source. *)
Definition quoted_record : NormalizedRecord :=
  mkRecord (py "O'Brien's day") (py "It's here.") (py "It's here.") (py "It's here.")
           (JArr [JStr (py "a'b")]) (py "社会") (py "2025-07-01 19:01:00")
           JNull true (py "manual") JNull (JStr (py "https://example.com/?q='x'"))
           (py "d41d8cd98f00b204e9800998ecf8427e") [] (JStr [])
           (py "[]") (py "zh") 100 10 5 0 45 (py "published") true.

(** A record whose title ends in a lone surrogate. *)
Definition unencodable_record : NormalizedRecord :=
  mkRecord [120; 0xD800]%N (py "It's here.") (py "It's here.") (py "It's here.")
           (JStr (py "example.com")) (py "社会") (py "2025-07-01 19:01:00")
           JNull true (py "manual") JNull (JStr (py "https://example.com/"))
           (py "d41d8cd98f00b204e9800998ecf8427e") [] (JStr [])
           (py "[]") (py "zh") 100 10 5 0 45 (py "published") true.

(** The dict of [quoted_record] with text in place of its view count. *)
Definition injected_item : json :=
  JObj (map (fun kv : pystr * json =>
               if str_eqb (fst kv) (py "view_count")
               then (fst kv, JStr (py "1); DROP TABLE news; --"))
               else kv)
            (combine record_keys (record_values quoted_record))).

(* ===================================================================== *)
(** * Part II.  Properties                                                *)
(* ===================================================================== *)


(** ** The run-time model on values computed by CPython 3.11 *)

Example text_operations :
  count (py "aaaa") (py "aa") = 2
  /\ count (py "abcabcabc") (py "bcab") = 1
  /\ strip (py "  a b ") = py "a b"
  /\ zfill 2 (py "7") = py "07"
  /\ slice_to (py "abc") (-1) = py "ab"
  /\ NewsConverter.re_sub_brackets (py "a【b【c】d】e【f") = py "ad】e【f"
  /\ NewsConverter.re_split_terminals (py "a。b！？c") = [py "a"; py "b"; []; py "c"]
  /\ NewsDataConverter.clean_text (JStr (py " a
b ")) = Ok (py "a
b").
Proof. repeat split; reflexivity. Qed.

Example float_operations :
  map (fun x => py_round x 2) [2.675; 0.125; 0.375; 1234.5678; 0.005]%float
  = [2.67; 0.12; 0.38; 1234.57; 0.01]%float
  /\ map (fun x => py_round x 1) [0.25; 0.35; 0.05; 5497.95; 549.75]%float
     = [0.2; 0.3; 0.1; 5497.9; 549.8]%float
  /\ map int_of_float [100 * 0.01; 100 * 0.1; 9999 * 0.05; -7.9]%float
     = map Ok [1; 10; 499; -7].
Proof. repeat split; vm_compute; reflexivity. Qed.

Example date_operations :
  make_datetime 2025 7 1 19 1 0 = Ok 1751396460000000
  /\ strftime (rt := plain_runtime) 1751396460000000 = py "2025-07-01 19:01:00"
  /\ isoformat 1751396460000123 = py "2025-07-01T19:01:00.000123"
  /\ days_between 1751450400000000 1751396460000000 = 0
  /\ strptime NewsDataConverter.short_format (py "2025年02月30日10:00")
     = Raise (ValueError (py "date value out of range"))
  /\ strptime NewsDataConverter.short_format (py "2025年07月01日19:01x")
     = Raise (ValueError (py "unconverted data remains")).
Proof. repeat split; vm_compute; reflexivity. Qed.

(** ** Text *)

Lemma str_eqb_spec (a b : pystr) : str_eqb a b = true <-> a = b.
Proof.
  revert b; induction a as [|x a IH]; intros [|y b]; simpl; split; intros H;
    try reflexivity; try discriminate.
  - apply andb_true_iff in H as [Hx Hr]. apply N.eqb_eq in Hx.
    apply IH in Hr. now subst.
  - injection H as -> ->. rewrite N.eqb_refl. now apply IH.
Qed.

Lemma str_eqb_refl (a : pystr) : str_eqb a a = true.
Proof. now apply str_eqb_spec. Qed.

Lemma mem_str_In (x : pystr) (l : list pystr) : mem_str x l = true <-> In x l.
Proof.
  unfold mem_str. rewrite existsb_exists. split.
  - intros (y & Hy & E). apply str_eqb_spec in E. now subst.
  - intros H. exists x. split; [assumption | apply str_eqb_refl].
Qed.

Lemma utf8_encodable_app (a b : pystr) :
  utf8_encodable (a ++ b) = utf8_encodable a && utf8_encodable b.
Proof. apply forallb_app. Qed.

(** [print] of a value between two fixed texts fails with the value. *)
Lemma print_framed (a x b : pystr) :
  utf8_encodable a = true -> utf8_encodable b = true ->
  Console.print (a ++ x ++ b)
  = if utf8_encodable x then Ok tt else Raise UnicodeEncodeError.
Proof.
  intros Ha Hb. unfold Console.print.
  now rewrite !utf8_encodable_app, Ha, Hb, andb_true_r.
Qed.

Lemma print_after (a x : pystr) :
  utf8_encodable a = true ->
  Console.print (a ++ x) = if utf8_encodable x then Ok tt else Raise UnicodeEncodeError.
Proof.
  intros Ha. unfold Console.print. now rewrite utf8_encodable_app, Ha.
Qed.

Lemma len_app (a b : pystr) : len (a ++ b) = len a + len b.
Proof. unfold len. rewrite length_app. lia. Qed.

Lemma len_nonneg (a : pystr) : 0 <= len a.
Proof. unfold len. lia. Qed.

Lemma drop_while_id (p : N -> bool) (s : pystr) :
  (forall c, In c s -> p c = false) -> drop_while p s = s.
Proof.
  destruct s as [|c r]; simpl; intros H; [reflexivity|].
  now rewrite (H c (or_introl eq_refl)).
Qed.

(** Text without whitespace is left alone by [strip]. *)
Lemma strip_id (s : pystr) :
  (forall c, In c s -> is_space c = false) -> strip s = s.
Proof.
  intros H. unfold strip, rstrip, lstrip.
  rewrite (drop_while_id _ s H).
  rewrite drop_while_id; [apply rev_involutive|].
  intros c Hc. apply H. now apply in_rev.
Qed.

Lemma drop_while_length (p : N -> bool) (s : pystr) :
  (length (drop_while p s) <= length s)%nat.
Proof.
  induction s as [|c r IH]; simpl; [lia|]. destruct (p c); simpl; lia.
Qed.

Lemma strip_length (s : pystr) : (length (strip s) <= length s)%nat.
Proof.
  unfold strip, rstrip, lstrip. rewrite length_rev.
  etransitivity; [apply drop_while_length|]. rewrite length_rev.
  apply drop_while_length.
Qed.

Lemma blank_nil : blank [] = true.
Proof. reflexivity. Qed.


(** ** The monad *)

Lemma bind_inv {A B} (m : M A) (k : A -> M B) (w w' : World) (b : B) :
  bind m k w = (Ok b, w') ->
  exists a w1, m w = (Ok a, w1) /\ k a w1 = (Ok b, w').
Proof.
  unfold bind. destruct (m w) as [[a|e] w1]; intros H; [eauto | discriminate].
Qed.

Lemma ret_inv {A} (a b : A) (w w' : World) : ret a w = (Ok b, w') -> a = b /\ w = w'.
Proof. unfold ret. intros H. now injection H. Qed.

Lemma lift_inv {A} (r : result A) (b : A) (w w' : World) :
  lift r w = (Ok b, w') -> r = Ok b /\ w = w'.
Proof. unfold lift. intros H. now injection H. Qed.

Lemma raise_inv {A} (e : exn) (b : A) (w w' : World) : raise e w = (Ok b, w') -> False.
Proof. unfold raise. discriminate. Qed.

(** From the result of a run to the run itself. *)
Lemma run_result {A} (m : M A) (w : World) (a : A) :
  fst (m w) = Ok a -> m w = (Ok a, snd (m w)).
Proof. destruct (m w) as [r w']. simpl. now intros ->. Qed.

Lemma dict_get_inv (item : json) (key : pystr) (d v : json) :
  NewsConverter.dict_get item key d = Ok v ->
  exists o, item = JObj o /\ v = match lookup o key with Some x => x | None => d end.
Proof.
  destruct item; simpl; try discriminate. intros H. injection H as <-. eauto.
Qed.

Ltac bind_step H :=
  apply bind_inv in H;
  let a := fresh "a" in let w := fresh "w" in let E := fresh "E" in
  destruct H as (a & w & E & H).

Tactic Notation "bind_open" hyp(H) "as" ident(a) ident(w) ident(E) :=
  apply bind_inv in H; destruct H as (a & w & E & H).

Lemma randbelow_range (n : Z) (w w' : World) (r : Z) :
  0 < n -> randbelow n w = (Ok r, w') -> 0 <= r < n.
Proof.
  unfold randbelow. intros Hn H. injection H as <- _. now apply Z.mod_pos_bound.
Qed.

Lemma choice_In {A} (seq : list A) (w w' : World) (x : A) :
  choice seq w = (Ok x, w') -> In x seq.
Proof.
  destruct seq as [|y l]; [intros H; now apply raise_inv in H|].
  unfold choice. intros H. bind_step H. apply ret_inv in H as [<- _].
  apply randbelow_range in E; [|simpl length; lia].
  apply nth_In. lia.
Qed.

(** ** Variant 1: what a converted record is made of *)

Section Variant1.
Context {rt : Runtime}.
Import NewsConverter.

Lemma v1_get_inv (item : json) (key : pystr) (v : json) (w w' : World) :
  lift (dict_get item key (JStr [])) w = (Ok v, w') ->
  (exists o, item = JObj o) /\ v = field_of item key /\ w = w'.
Proof.
  intros H. apply lift_inv in H as [H ->].
  apply dict_get_inv in H as (o & -> & ->). simpl. eauto.
Qed.

Lemma v1_convert_inv (item : json) (w w' : World) (r : NormalizedRecord) :
  convert_news_item item w = (Ok r, w') ->
  exists (o : list (pystr * json)) (u : pystr),
    item = JObj o
    /\ field_of item key_body = JStr (content r)
    /\ blank (content r) = false
    /\ field_of item key_title = JStr (title r)
    /\ field_of item key_url = JStr u
    /\ link r = JStr u
    /\ category r = analyze_category_with_ai (title r) (content r)
    /\ summary r = generate_summary (content r) 200
    /\ description r = summary r
    /\ source r = (if negb (truthy (field_of item key_source))
                   then JStr (extract_domain_name (field_of item key_url))
                   else field_of item key_source)
    /\ calculate_hotness_score (stats_of r) = Ok (hotness_score r)
    /\ tags r = json_dumps (JArr [JStr (category r); JStr (category r); JStr hot_tag])
    /\ In (author r) default_authors.
Proof.
  unfold convert_news_item. intros H.
  bind_step H. apply v1_get_inv in E as ((o & ->) & -> & <-).
  bind_step H. apply v1_get_inv in E as (_ & -> & <-).
  bind_step H. apply v1_get_inv in E as (_ & -> & <-).
  bind_step H. apply v1_get_inv in E as (_ & -> & <-).
  bind_step H. apply v1_get_inv in E as (_ & -> & <-).
  bind_step H.
  destruct (field_of (JObj o) key_body) as [| | | |s| |] eqn:Eb;
    try (destruct (negb (truthy _)) in E; now apply raise_inv in E).
  destruct (negb (nonempty s) || str_eqb (strip s) []) eqn:Ebl;
    [now apply raise_inv in E|].
  apply ret_inv in E as [<- <-].
  bind_step H.
  destruct (field_of (JObj o) key_title) as [| | | |t| |] eqn:Et;
    try now apply raise_inv in E.
  apply ret_inv in E as [<- <-].
  bind_step H. bind_step H. apply lift_inv in E0 as [Eh <-].
  bind_step H. bind_step H.
  unfold generate_guid in E1.
  destruct (field_of (JObj o) key_url) as [| | | |u| |] eqn:Eu;
    try now apply raise_inv in E1.
  bind_step H. apply choice_In in E2.
  apply ret_inv in H as [<- _].
  cbn [title content summary description source category link tags author
       hotness_score stats_of view_count like_count comment_count share_count].
  exists o, u. repeat split; auto.
  apply orb_false_iff in Ebl as [_ Hb]. exact Hb.
Qed.

End Variant1.

(** ** Variant 1: the classifier *)

Section Classifier.
Import NewsConverter.

Lemma max_by_score_In (x : pystr * Z) (l : list (pystr * Z)) :
  In (max_by_score x l) (x :: l).
Proof.
  revert x; induction l as [|y l IH]; intros x; simpl; [now left|].
  destruct (IH (if snd x <? snd y then y else x)) as [E|HIn].
  - rewrite <- E. destruct (snd x <? snd y); auto.
  - auto.
Qed.

(** The first maximum: nothing in the list scores higher, and nothing
    before the chosen item scores as high. *)
Lemma max_by_score_max (x : pystr * Z) (l : list (pystr * Z)) :
  forall y, In y (x :: l) -> snd y <= snd (max_by_score x l).
Proof.
  revert x; induction l as [|z l IH]; intros x y; simpl.
  - intros [<-|[]]. lia.
  - intros H.
    assert (Hb : snd x <= snd (if snd x <? snd z then z else x))
      by (destruct (Z.ltb_spec (snd x) (snd z)); simpl; lia).
    assert (Hz : snd z <= snd (if snd x <? snd z then z else x))
      by (destruct (Z.ltb_spec (snd x) (snd z)); simpl; lia).
    pose proof (IH (if snd x <? snd z then z else x)) as IH'.
    destruct H as [<-|[<-|H]].
    + etransitivity; [exact Hb|]. apply IH'. now left.
    + etransitivity; [exact Hz|]. apply IH'. now left.
    + apply IH'. now right.
Qed.

Lemma category_scores_keys (text : pystr) (c : pystr) (n : Z) :
  In (c, n) (category_scores text) -> In c (map fst keyword_category_map) /\ 0 < n.
Proof.
  unfold category_scores. intros H. apply filter_In in H as [H Hpos].
  simpl in Hpos. apply Z.ltb_lt in Hpos. split; [|assumption].
  apply in_map_iff in H as (ck & E & Hck). injection E as <- _.
  now apply in_map.
Qed.

Lemma table_keys_are_categories (c : pystr) :
  In c (map fst keyword_category_map) -> In c categories.
Proof.
  intros H. apply mem_str_In.
  assert (A : forallb (fun k => mem_str k categories) (map fst keyword_category_map) = true)
    by reflexivity.
  rewrite forallb_forall in A. now apply A.
Qed.

Lemma analyze_category_in_set (title content : pystr) :
  In (analyze_category_with_ai title content) categories.
Proof.
  unfold analyze_category_with_ai.
  destruct (category_scores _) as [|x l] eqn:E.
  - apply mem_str_In. reflexivity.
  - pose proof (max_by_score_In x l) as H. rewrite <- E in H.
    destruct (max_by_score x l) as [c n]. simpl.
    apply category_scores_keys in H as [H _].
    now apply table_keys_are_categories.
Qed.

Lemma keyword_score_zero (text : pystr) (keywords : list pystr) :
  (forall kw, In kw keywords -> count text kw = 0) -> keyword_score text keywords = 0.
Proof.
  unfold keyword_score. generalize 0 at 2 3.
  induction keywords as [|kw r IH]; intros acc H; simpl; [reflexivity|].
  rewrite (H kw (or_introl eq_refl)), Z.add_0_r. apply IH.
  intros k Hk. apply H. now right.
Qed.

(** No keyword of the table in the text: no category has a score. *)
Lemma no_keyword_no_scores (text : pystr) :
  (forall c kws kw, In (c, kws) keyword_category_map -> In kw kws -> count text kw = 0) ->
  category_scores text = [].
Proof.
  unfold category_scores. generalize keyword_category_map.
  induction l as [|[c kws] l IH]; intros H; simpl; [reflexivity|].
  rewrite keyword_score_zero by (intros kw Hk; eapply H; [now left | exact Hk]).
  simpl. apply IH. intros c' kws' kw Hc Hk. eapply H; [right; exact Hc | exact Hk].
Qed.

Lemma analyze_category_default (title content : pystr) :
  category_scores (title ++ py " " ++ slice_to content 500) = [] ->
  analyze_category_with_ai title content = default_category.
Proof. unfold analyze_category_with_ai. now intros ->. Qed.

End Classifier.

(** ** Variant 2: what a converted record is made of *)

Section Variant2.
Context {rt : Runtime}.
Import NewsDataConverter.

Lemma known_category_In (keyword : json) (k : pystr) :
  known_category keyword = Some k -> keyword = JStr k /\ In k categories.
Proof.
  unfold known_category. destruct keyword; try discriminate.
  destruct (mem_str s categories) eqn:E; [|discriminate].
  intros H. injection H as <-. split; [reflexivity | now apply mem_str_In].
Qed.

Lemma v2_convert_inv (item : json) (w w' : World) (r : NormalizedRecord) :
  convert_news_item item w = (Ok r, w') ->
  exists (o : list (pystr * json)) (tl : list json) (w1 w2 : World),
    item = JObj o
    /\ clean_text (field_of item key_title) = Ok (title r)
    /\ clean_text (field_of item key_body) = Ok (content r)
    /\ clean_text (field_of item key_intro) = Ok (summary r)
    /\ description r = summary r
    /\ source r = (if truthy (field_of item key_source)
                   then field_of item key_source else JStr unknown_source)
    /\ link r = field_of item key_url
    /\ In (category r) categories
    /\ (known_category (field_of item key_keyword) = Some (category r)
        \/ known_category (field_of item key_keyword) = None)
    /\ tag_list (field_of item key_keyword) (field_of item key_keyword) w1 = (Ok tl, w2)
    /\ tags r = json_dumps (JArr tl).
Proof.
  unfold convert_news_item, dict_get. intros H.
  bind_step H. apply v1_get_inv in E as ((o & ->) & -> & <-).
  do 7 (bind_step H; apply v1_get_inv in E as (_ & -> & <-)).
  bind_open H as stats ws Est.
  bind_open H as pub wp Epub.
  bind_open H as hot wh Ehot.
  bind_open H as t1 wt1 Et. apply lift_inv in Et as [Et <-].
  bind_open H as t2 wt2 Eb. apply lift_inv in Eb as [Eb <-].
  bind_open H as t3 wt3 Es. apply lift_inv in Es as [Es <-].
  bind_open H as t4 wt4 Es'. apply lift_inv in Es' as [Es' <-].
  bind_open H as cat wc Ecat.
  bind_open H as g wg Eg.
  bind_open H as tg wtg Etg.
  unfold extract_tags in Etg. bind_open Etg as tl wtl Etl.
  apply ret_inv in Etg as [<- _].
  apply ret_inv in H as [<- _]. simpl.
  exists o, tl, wg, wtl. repeat split; auto.
  - congruence.
  - destruct (known_category _) as [k|] eqn:Ek.
    + apply ret_inv in Ecat as [<- _]. now apply known_category_In in Ek.
    + now apply choice_In in Ecat.
  - destruct (known_category _) as [k|] eqn:Ek; [|now right].
    apply ret_inv in Ecat as [<- _]. now left.
Qed.

End Variant2.

(** ** Empty bodies (C1) *)

Section EmptyBody.
Context {rt : Runtime}.
Import NewsConverter.






End EmptyBody.




(** ** Categories (C2) *)

(** C2.  The [category] of every record either converter produces is one of
    that converter's fixed categories.  For variant 1 the classifier returns
    a member of the set on every title and body, and 社会 when no keyword
    occurs in the analysed text; for variant 2 the category is the keyword
    when the keyword is a category and otherwise an element drawn from the
    category list. *)
Theorem category_in_fixed_set (rt : Runtime) :
  (forall title content,
      In (NewsConverter.analyze_category_with_ai title content)
         NewsConverter.categories)
  /\ (forall title content,
      NewsConverter.category_scores (title ++ py " " ++ slice_to content 500) = [] ->
      NewsConverter.analyze_category_with_ai title content = py "社会")
  /\ (forall title content,
      (forall c kws kw,
          In (c, kws) NewsConverter.keyword_category_map -> In kw kws ->
          count (title ++ py " " ++ slice_to content 500) kw = 0) ->
      NewsConverter.analyze_category_with_ai title content = py "社会")
  /\ (forall item w r w',
      NewsConverter.convert_news_item item w = (Ok r, w') ->
      In (category r) NewsConverter.categories)
  /\ (forall item w r w',
      NewsDataConverter.convert_news_item item w = (Ok r, w') ->
      In (category r) NewsDataConverter.categories).
Proof.
  split; [|split; [|split; [|split]]].
  - apply analyze_category_in_set.
  - intros title content H. now apply analyze_category_default.
  - intros title content H. apply analyze_category_default.
    now apply no_keyword_no_scores.
  - intros item w r w' H.
    apply v1_convert_inv in H as (o & u & _ & _ & _ & _ & _ & _ & -> & _).
    apply analyze_category_in_set.
  - intros item w r w' H.
    apply v2_convert_inv in H as (o & tl & w1 & w2 & H).
    apply H.
Qed.

Lemma category_in_fixed_set_witness :
  (exists r,
      fst (NewsConverter.convert_news_item (rt := plain_runtime) sample_item sample_world)
      = Ok r
      /\ category r = py "经济" /\ In (category r) NewsConverter.categories)
  /\ (exists r,
      fst (NewsDataConverter.convert_news_item (rt := plain_runtime) sample_item
             sample_world) = Ok r
      /\ category r = py "军事" /\ In (category r) NewsDataConverter.categories)
  /\ NewsConverter.analyze_category_with_ai (py "无题") (py "今天天气很好。") = py "社会".
Proof.
  destruct (category_in_fixed_set plain_runtime) as (_ & H2 & _ & H3 & H4).
  split; [|split].
  - eexists. split; [vm_compute; reflexivity|]. split; [reflexivity|].
    refine (H3 sample_item sample_world _ _ (run_result _ _ _ _)).
    vm_compute. reflexivity.
  - eexists. split; [vm_compute; reflexivity|]. split; [reflexivity|].
    refine (H4 sample_item sample_world _ _ (run_result _ _ _ _)).
    vm_compute. reflexivity.
  - apply H2. reflexivity.
Defined.

(** ** The hotness score of variant 1 (C5) *)

(** C5.  For the stats view 100, like 10, comment 5, share 0 variant 1's
    [calculate_hotness_score] returns 45.0; the score is a function of the
    four counts alone, and the score stored in a converted record is the one
    computed from that record's counts, whatever its publication time. *)
Theorem hotness_score_45 (rt : Runtime) :
  NewsConverter.calculate_hotness_score (mkStats 100 10 5 0) = Ok 45%float
  /\ (forall item w r w',
      NewsConverter.convert_news_item item w = (Ok r, w') ->
      NewsConverter.calculate_hotness_score (stats_of r) = Ok (hotness_score r)).
Proof.
  split.
  - vm_compute. reflexivity.
  - intros item w r w' H.
    apply v1_convert_inv in H as (o & u & H). apply H.
Qed.

Lemma hotness_score_45_witness :
  exists r,
    fst (NewsConverter.convert_news_item (rt := plain_runtime) sample_item sample_world)
    = Ok r
    /\ stats_of r = mkStats 2544 472 462 69
    /\ NewsConverter.calculate_hotness_score (stats_of r) = Ok (hotness_score r).
Proof.
  eexists. split; [vm_compute; reflexivity|]. split; [reflexivity|].
  refine (proj2 (hotness_score_45 plain_runtime) sample_item sample_world _ _
            (run_result _ _ _ _)).
  vm_compute. reflexivity.
Defined.

(** ** The source field (C7) *)

(** C7 (as amended).  When the source field 来源 of a record is present and
    true in a condition, both variants copy it unchanged.  When it is absent
    or empty, variant 1 stores [extract_domain_name] of the URL field: the
    network location found by [urlparse] without a leading "www.", or
    "未知来源" when the URL is not a string or cannot be parsed; variant 2
    stores the fixed text "未知来源" and never looks at the URL. *)
Theorem source_field_fallback (rt : Runtime) :
  (forall item w r w',
      NewsConverter.convert_news_item item w = (Ok r, w') ->
      source r
      = (if truthy (field_of item NewsConverter.key_source)
         then field_of item NewsConverter.key_source
         else JStr (NewsConverter.extract_domain_name
                      (field_of item NewsConverter.key_url))))
  /\ (forall u d,
      urlparse_netloc u = Some (py "www." ++ d) ->
      NewsConverter.extract_domain_name (JStr u) = d)
  /\ (forall u d,
      urlparse_netloc u = Some d -> starts_with (py "www.") d = false ->
      NewsConverter.extract_domain_name (JStr u) = d)
  /\ (forall u,
      urlparse_netloc u = None ->
      NewsConverter.extract_domain_name (JStr u) = py "未知来源")
  /\ (forall item w r w',
      NewsDataConverter.convert_news_item item w = (Ok r, w') ->
      source r
      = (if truthy (field_of item NewsDataConverter.key_source)
         then field_of item NewsDataConverter.key_source
         else JStr (py "未知来源"))).
Proof.
  split; [|split; [|split; [|split]]].
  - intros item w r w' H.
    apply v1_convert_inv in H as (o & u & _ & _ & _ & _ & _ & _ & _ & _ & _ & -> & _).
    now destruct (truthy _).
  - intros u d H. unfold NewsConverter.extract_domain_name. rewrite H.
    reflexivity.
  - intros u d H Hw. unfold NewsConverter.extract_domain_name. rewrite H.
    change NewsConverter.www_prefix with (py "www."). now rewrite Hw.
  - intros u H. unfold NewsConverter.extract_domain_name. now rewrite H.
  - intros item w r w' H.
    apply v2_convert_inv in H as (o & tl & w1 & w2 & _ & _ & _ & _ & _ & -> & _).
    reflexivity.
Qed.

Lemma source_field_fallback_witness :
  (exists r,
      fst (NewsConverter.convert_news_item (rt := plain_runtime) sample_item sample_world)
      = Ok r
      /\ source r
         = (if truthy (field_of sample_item NewsConverter.key_source)
            then field_of sample_item NewsConverter.key_source
            else JStr (NewsConverter.extract_domain_name
                         (field_of sample_item NewsConverter.key_url)))
      /\ source r = JStr (py "example.com"))
  /\ NewsConverter.extract_domain_name (rt := plain_runtime)
       (JStr (py "https://www.example.com/a/1.html")) = py "example.com"
  /\ NewsConverter.extract_domain_name (rt := plain_runtime)
       (JStr (py "https://news.example.com/a/1.html")) = py "news.example.com".
Proof.
  destruct (source_field_fallback plain_runtime) as (H1 & H2 & H3 & _ & _).
  split; [|split].
  - eexists. split; [vm_compute; reflexivity|]. split; [|reflexivity].
    refine (H1 sample_item sample_world _ _ (run_result _ _ _ _)).
    vm_compute. reflexivity.
  - apply H2. reflexivity.
  - apply H3; reflexivity.
Defined.

(** C7, the claim as stated fails for variant 2: without a source field the
    record gets "未知来源", not the host of its URL. *)
Lemma variant2_source_not_from_url :
  exists r,
    fst (NewsDataConverter.convert_news_item (rt := plain_runtime) sample_item sample_world)
    = Ok r
    /\ field_of sample_item (py "来源") = JStr []
    /\ field_of sample_item (py "页面网址") = JStr (py "https://www.example.com/a/1.html")
    /\ source r = JStr (py "未知来源")
    /\ source r <> JStr (py "example.com").
Proof.
  eexists. split; [vm_compute; reflexivity|].
  repeat split; try reflexivity. discriminate.
Qed.

(** ** Tags (C10) *)

Lemma set_nth_length {A} (n : nat) (x : A) (l : list A) :
  length (set_nth n x l) = length l.
Proof.
  revert n; induction l as [|y l IH]; intros [|n]; simpl; auto.
Qed.

Lemma set_nth_In {A} (n : nat) (x y : A) (l : list A) :
  In y (set_nth n x l) -> y = x \/ In y l.
Proof.
  revert n; induction l as [|z l IH]; intros [|n]; simpl; auto.
  - intros [<-|H]; auto.
  - intros [<-|H]; auto. destruct (IH _ H); auto.
Qed.

(** [random.sample] returns members of the population. *)
Lemma sample_loop_In {A} (d : A) (k : nat) :
  forall (pool : list A) (n : nat) (w w' : World) (res : list A),
    (n <= length pool)%nat -> (k <= n)%nat ->
    sample_loop d pool n k w = (Ok res, w') ->
    forall x, In x res -> In x pool.
Proof.
  induction k as [|k IH]; intros pool n w w' res Hn Hk H x Hx; simpl in H.
  - apply ret_inv in H as [<- _]. destruct Hx.
  - bind_open H as j wj Ej. bind_open H as rest wr Er.
    apply ret_inv in H as [<- _].
    apply randbelow_range in Ej; [|lia].
    destruct Hx as [<-|Hx].
    + apply nth_In. lia.
    + eapply IH in Er; [| rewrite set_nth_length; lia | lia | exact Hx].
      apply set_nth_In in Er as [->|Er]; [|exact Er].
      apply nth_In. lia.
Qed.

Lemma sample_In {A} (d : A) (population : list A) (k : Z) (w w' : World) (res : list A) :
  sample d population k w = (Ok res, w') -> forall x, In x res -> In x population.
Proof.
  unfold sample.
  destruct ((k <? 0) || (Z.of_nat (length population) <? k)) eqn:E;
    [intros H; now apply raise_inv in H|].
  apply orb_false_iff in E as [E1 E2].
  apply Z.ltb_ge in E1, E2.
  intros H. eapply sample_loop_In; [| |exact H]; lia.
Qed.

Section Tags.
Context {rt : Runtime}.
Import NewsDataConverter.

Lemma tag_list_members (keyword category : json) (w w' : World) (tl : list json) :
  tag_list keyword category w = (Ok tl, w') ->
  forall t, In t tl ->
    t = keyword \/ t = category \/ exists e, t = JStr e /\ In e additional_tags.
Proof.
  unfold tag_list. intros H t Ht.
  bind_open H as k wk Ek. bind_open H as extra we Ee.
  apply ret_inv in H as [<- _].
  apply in_app_or in Ht as [Ht|Ht].
  - apply in_app_or in Ht as [Ht|Ht].
    + destruct (truthy keyword); [|destruct Ht]. destruct Ht as [<-|[]]. now left.
    + destruct (truthy category); [|destruct Ht]. destruct Ht as [<-|[]]. auto.
  - apply in_map_iff in Ht as (e & <- & He). right. right. exists e. split; auto.
    eapply sample_In; eauto.
Qed.

Lemma categories_are_not_extra_tags (c : pystr) :
  In c categories -> In c additional_tags -> False.
Proof.
  intros Hc Ha. apply mem_str_In in Ha.
  assert (A : forallb (fun k => negb (mem_str k additional_tags)) categories = true)
    by reflexivity.
  rewrite forallb_forall in A. apply A in Hc. now rewrite Ha in Hc.
Qed.

End Tags.

Lemma v1_categories_need_no_escape (c : pystr) :
  In c NewsConverter.categories -> quote c = [34%N] ++ c ++ [34%N].
Proof.
  intros H. simpl in H.
  repeat (destruct H as [<-|H]; [reflexivity|]). destruct H.
Qed.

(** C10.  In variant 2 the tags are serialized from the list that
    [extract_tags] builds when called with the keyword field as both of its
    arguments, and that list holds the record's category only if the keyword
    field is that category.  In variant 1 the tags field is the JSON text of
    the list [category, category, "热点"]. *)
Theorem tags_of_converted_records (rt : Runtime) :
  (forall item w r w',
      NewsDataConverter.convert_news_item item w = (Ok r, w') ->
      exists tl w1 w2,
        NewsDataConverter.tag_list (field_of item NewsDataConverter.key_keyword)
          (field_of item NewsDataConverter.key_keyword) w1 = (Ok tl, w2)
        /\ NewsDataConverter.extract_tags (field_of item NewsDataConverter.key_keyword)
             (field_of item NewsDataConverter.key_keyword) w1 = (Ok (tags r), w2)
        /\ tags r = json_dumps (JArr tl)
        /\ (In (JStr (category r)) tl ->
            field_of item NewsDataConverter.key_keyword = JStr (category r)))
  /\ (forall item w r w',
      NewsConverter.convert_news_item item w = (Ok r, w') ->
      tags r = json_dumps (JArr [JStr (category r); JStr (category r); JStr (py "热点")])
      /\ tags r = py "[" ++ [34%N] ++ category r ++ [34%N] ++ py ", "
                  ++ [34%N] ++ category r ++ [34%N] ++ py ", "
                  ++ [34%N] ++ py "热点" ++ [34%N] ++ py "]").
Proof.
  split.
  - intros item w r w' H.
    apply v2_convert_inv in H
      as (o & tl & w1 & w2 & _ & _ & _ & _ & _ & _ & _ & Hc & _ & Htl & Ht).
    exists tl, w1, w2. repeat split; auto.
    + unfold NewsDataConverter.extract_tags, bind. rewrite Htl, Ht. reflexivity.
    + intros HIn.
      destruct (tag_list_members _ _ _ _ _ Htl _ HIn) as [E|[E|(e & E & He)]]; auto.
      injection E as <-. exfalso. eapply categories_are_not_extra_tags; eauto.
  - intros item w r w' H.
    apply v1_convert_inv in H
      as (o & u & _ & _ & _ & _ & _ & _ & Hc & _ & _ & _ & _ & Ht & _).
    split; [exact Ht|]. rewrite Ht.
    assert (Hq : quote (category r) = [34%N] ++ category r ++ [34%N]).
    { apply v1_categories_need_no_escape. rewrite Hc. apply analyze_category_in_set. }
    cbn [json_dumps map join]. rewrite Hq.
    change (quote NewsConverter.hot_tag) with ([34%N] ++ py "热点" ++ [34%N]).
    repeat rewrite <- app_assoc. reflexivity.
Qed.

Lemma tags_of_converted_records_witness :
  (exists r,
      fst (NewsDataConverter.convert_news_item (rt := plain_runtime) keyword_item
             sample_world) = Ok r
      /\ category r = py "科技"
      /\ exists tl w1 w2,
          NewsDataConverter.tag_list (field_of keyword_item NewsDataConverter.key_keyword)
            (field_of keyword_item NewsDataConverter.key_keyword) w1 = (Ok tl, w2)
          /\ NewsDataConverter.extract_tags
               (field_of keyword_item NewsDataConverter.key_keyword)
               (field_of keyword_item NewsDataConverter.key_keyword) w1 = (Ok (tags r), w2)
          /\ tags r = json_dumps (JArr tl)
          /\ (In (JStr (category r)) tl ->
              field_of keyword_item NewsDataConverter.key_keyword = JStr (category r)))
  /\ (exists r,
      fst (NewsConverter.convert_news_item (rt := plain_runtime) sample_item sample_world)
      = Ok r
      /\ tags r = json_dumps (JArr [JStr (category r); JStr (category r); JStr (py "热点")])).
Proof.
  destruct (tags_of_converted_records plain_runtime) as (H1 & H2).
  split.
  - eexists. split; [vm_compute; reflexivity|]. split; [reflexivity|].
    refine (H1 keyword_item sample_world _ _ (run_result _ _ _ _)).
    vm_compute. reflexivity.
  - eexists. split; [vm_compute; reflexivity|].
    refine (proj1 (H2 sample_item sample_world _ _ (run_result _ _ _ _))).
    vm_compute. reflexivity.
Defined.

(** ** The summary generator (C4, C8) *)

Section Summary.
Import NewsConverter.

Lemma terminal_cases (t : N) :
  is_terminal t = true -> t = chr "。" \/ t = chr "！" \/ t = chr "？".
Proof.
  unfold is_terminal, terminals. simpl. rewrite !orb_true_iff, !N.eqb_eq.
  intros [H|[H|[H|H]]]; auto. discriminate.
Qed.

Lemma terminal_plain (t : N) :
  is_terminal t = true ->
  is_space t = false /\ t <> open_bracket /\ t <> close_bracket.
Proof.
  intros H. destruct (terminal_cases t H) as [-> | [-> | ->]];
    repeat split; try reflexivity; discriminate.
Qed.

Lemma close_at_app_last (x : pystr) (t : N) :
  t <> close_bracket -> close_at (x ++ [t]) = close_at x.
Proof.
  intros Ht. induction x as [|c x IH]; simpl.
  - apply N.eqb_neq in Ht. rewrite Ht. now destruct (t =? 10)%N.
  - destruct (c =? close_bracket)%N; [reflexivity|].
    destruct (c =? 10)%N; [reflexivity|]. now rewrite IH.
Qed.

Lemma close_at_le (x : pystr) (k : nat) : close_at x = Some k -> (k <= length x)%nat.
Proof.
  revert k; induction x as [|c x IH]; intros k; simpl; [discriminate|].
  destruct (c =? close_bracket)%N; [intros H; injection H as <-; lia|].
  destruct (c =? 10)%N; [discriminate|].
  destruct (close_at x) as [j|]; simpl; [|discriminate].
  intros H. injection H as <-. specialize (IH j eq_refl). lia.
Qed.

Lemma sub_brackets_app_last (x : pystr) (t : N) :
  t <> open_bracket -> t <> close_bracket ->
  forall skip, (skip <= length x)%nat ->
    sub_brackets skip (x ++ [t]) = sub_brackets skip x ++ [t].
Proof.
  intros Ho Hc. induction x as [|c x IH]; intros skip Hs; simpl in *.
  - assert (skip = 0%nat) as -> by lia.
    apply N.eqb_neq in Ho. now rewrite Ho.
  - destruct skip as [|k]; [|apply IH; lia].
    destruct (c =? open_bracket)%N.
    + rewrite close_at_app_last by assumption.
      destruct (close_at x) as [k|] eqn:E.
      * apply IH. now apply close_at_le.
      * simpl. f_equal. apply IH. lia.
    + simpl. f_equal. apply IH. lia.
Qed.

Lemma sub_brackets_subset (x : pystr) :
  forall skip c, In c (sub_brackets skip x) -> In c x.
Proof.
  induction x as [|a x IH]; intros skip c; simpl; [auto|].
  destruct skip as [|k]; [|intros H; right; eapply IH; eauto].
  destruct (a =? open_bracket)%N.
  - destruct (close_at x).
    + intros H; right; eapply IH; eauto.
    + intros [<-|H]; [now left | right; eapply IH; eauto].
  - intros [<-|H]; [now left | right; eapply IH; eauto].
Qed.

Lemma sub_brackets_no_open (x : pystr) :
  (forall c, In c x -> c <> open_bracket) -> sub_brackets 0 x = x.
Proof.
  induction x as [|a x IH]; intros H; simpl; [reflexivity|].
  assert (Ha : (a =? open_bracket)%N = false)
    by (apply N.eqb_neq, H; now left).
  rewrite Ha. f_equal. apply IH. intros c Hc. apply H. now right.
Qed.

Lemma clean_subset (s : pystr) (c : N) :
  In c (re_sub_brackets (re_sub_spaces s)) -> In c s /\ is_space c = false.
Proof.
  intros H. apply sub_brackets_subset in H. unfold re_sub_spaces in H.
  apply filter_In in H as [H1 H2]. split; [assumption|].
  now apply negb_true_iff in H2.
Qed.

Lemma clean_app_terminal (s : pystr) (t : N) :
  is_terminal t = true ->
  re_sub_brackets (re_sub_spaces (s ++ [t])) = re_sub_brackets (re_sub_spaces s) ++ [t].
Proof.
  intros Ht. destruct (terminal_plain t Ht) as (Hs & Ho & Hc).
  unfold re_sub_spaces, re_sub_brackets. rewrite filter_app. simpl.
  rewrite Hs. simpl. apply sub_brackets_app_last; auto. lia.
Qed.

Lemma split_no_terminal (x : pystr) :
  (forall c, In c x -> is_terminal c = false) -> re_split_terminals x = [x].
Proof.
  induction x as [|a x IH]; intros H; simpl; [reflexivity|].
  rewrite (H a (or_introl eq_refl)). rewrite IH; [reflexivity|].
  intros c Hc. apply H. now right.
Qed.

Lemma split_app_terminal (x : pystr) (t : N) :
  (forall c, In c x -> is_terminal c = false) -> is_terminal t = true ->
  re_split_terminals (x ++ [t]) = [x; []].
Proof.
  induction x as [|a x IH]; intros H Ht; simpl.
  - now rewrite Ht.
  - rewrite (H a (or_introl eq_refl)). rewrite IH; [reflexivity| |assumption].
    intros c Hc. apply H. now right.
Qed.

Lemma nonempty_true (s : pystr) : s <> [] -> nonempty s = true.
Proof. destruct s; [congruence | reflexivity]. Qed.

(** The accumulator never grows past the budget plus one terminal marker. *)
Lemma summary_loop_bound (max_length : Z) (sentences : list pystr) :
  forall summary,
    len summary <= max_length + 1 ->
    len (summary_loop max_length summary sentences) <= max_length + 1.
Proof.
  induction sentences as [|s rest IH]; intros summary H; simpl; [assumption|].
  destruct (len (summary ++ s) <=? max_length) eqn:E; simpl; [|assumption].
  destruct (nonempty (strip s)); [|assumption].
  apply IH. apply Z.leb_le in E. rewrite app_assoc, len_app. unfold len at 2.
  simpl. lia.
Qed.

Lemma summary_loop_empty_budget (max_length : Z) (sentences : list pystr) :
  max_length < 0 -> summary_loop max_length [] sentences = [].
Proof.
  intros H. destruct sentences as [|s rest]; simpl; [reflexivity|].
  pose proof (len_nonneg s).
  destruct (Z.leb_spec (len s) max_length); [lia | reflexivity].
Qed.

Lemma slice_to_len (s : pystr) (n : Z) : 0 <= n -> len (slice_to s n) <= n.
Proof.
  intros H. unfold slice_to, len.
  destruct (Z.leb_spec 0 n); [|lia]. rewrite length_firstn. lia.
Qed.

(** What does hold of the length: at most the budget plus one when the
    summary is built from sentences, at most the budget plus three in the
    raw-prefix case. *)
Lemma generate_summary_length (content : pystr) (max_length : Z) :
  0 <= max_length ->
  len (generate_summary content max_length) <= max_length + 3
  /\ (summary_loop max_length []
        (re_split_terminals (re_sub_brackets (re_sub_spaces content))) <> [] ->
      len (generate_summary content max_length) <= max_length + 1).
Proof.
  intros H0. unfold generate_summary.
  set (summary := summary_loop max_length [] _).
  assert (Hb : len summary <= max_length + 1)
    by (apply summary_loop_bound; unfold len; simpl; lia).
  assert (Hs : len (strip summary) <= len summary)
    by (unfold len; pose proof (strip_length summary); lia).
  destruct summary as [|c r] eqn:E; simpl nonempty; cbv iota.
  - split; [|congruence]. rewrite len_app.
    pose proof (slice_to_len content max_length H0).
    change (len ellipsis) with 3. lia.
  - split; [lia|]. intros _. lia.
Qed.

Lemma single_sentence_loop (sentence : pystr) (rest : list pystr) (max_length : Z) :
  sentence <> [] ->
  (forall c, In c sentence -> is_space c = false) ->
  len sentence <= max_length ->
  (rest = [] \/ rest = [[]]) ->
  summary_loop max_length [] (sentence :: rest) = sentence ++ [full_stop].
Proof.
  intros Hne Hws Hlen Hrest. cbn [summary_loop app].
  apply Z.leb_le in Hlen. rewrite Hlen. rewrite strip_id by assumption.
  rewrite nonempty_true by assumption. cbn [andb].
  destruct Hrest as [-> | ->]; cbn [summary_loop]; [reflexivity|].
  change (nonempty (strip [])) with false. now rewrite andb_false_r.
Qed.

End Summary.

(** C8 (as amended).  When the body is one sentence, that is text without
    sentence-terminal punctuation optionally followed by one terminal mark,
    and the sentence, once whitespace and bracketed annotations are removed,
    is not empty and no longer than the budget, [generate_summary] returns
    that cleaned sentence followed by "。" and no truncation marker.  When the
    sentence holds neither whitespace nor "【" it is returned as it is. *)
Theorem single_sentence_summary (s tail : pystr) (max_length : Z) :
  (forall c, In c s -> NewsConverter.is_terminal c = false) ->
  (tail = [] \/ exists t, NewsConverter.is_terminal t = true /\ tail = [t]) ->
  NewsConverter.re_sub_brackets (NewsConverter.re_sub_spaces s) <> [] ->
  len (NewsConverter.re_sub_brackets (NewsConverter.re_sub_spaces s)) <= max_length ->
  NewsConverter.generate_summary (s ++ tail) max_length
  = NewsConverter.re_sub_brackets (NewsConverter.re_sub_spaces s) ++ py "。"
  /\ (forall p, NewsConverter.generate_summary (s ++ tail) max_length <> p ++ py "...")
  /\ ((forall c, In c s -> is_space c = false /\ c <> chr "【") ->
      NewsConverter.generate_summary (s ++ tail) max_length = s ++ py "。").
Proof.
  intros Hterm Htail Hne Hlen.
  set (sentence := NewsConverter.re_sub_brackets (NewsConverter.re_sub_spaces s)) in *.
  assert (Hws : forall c, In c sentence -> is_space c = false)
    by (intros c Hc; now apply clean_subset in Hc).
  assert (Hnt : forall c, In c sentence -> NewsConverter.is_terminal c = false)
    by (intros c Hc; apply clean_subset in Hc as [Hc _]; now apply Hterm).
  assert (Hloop : NewsConverter.summary_loop max_length []
            (NewsConverter.re_split_terminals
               (NewsConverter.re_sub_brackets (NewsConverter.re_sub_spaces (s ++ tail))))
          = sentence ++ [NewsConverter.full_stop]).
  { destruct Htail as [-> | (t & Ht & ->)].
    - rewrite app_nil_r. fold sentence. rewrite split_no_terminal by assumption.
      apply single_sentence_loop; auto.
    - rewrite clean_app_terminal by assumption. fold sentence.
      rewrite split_app_terminal by assumption.
      apply single_sentence_loop; auto. }
  assert (Hres : NewsConverter.generate_summary (s ++ tail) max_length
                 = sentence ++ [NewsConverter.full_stop]).
  { unfold NewsConverter.generate_summary. rewrite Hloop.
    rewrite nonempty_true by (destruct sentence; discriminate).
    apply strip_id. intros c Hc. apply in_app_or in Hc as [Hc|[<-|[]]]; auto. }
  split; [exact Hres|]. split.
  - intros p Hp. rewrite Hres in Hp.
    change (p ++ py "...") with (p ++ [46; 46] ++ [46])%N in Hp.
    rewrite app_assoc in Hp. apply app_inj_tail in Hp as [_ Hp]. discriminate.
  - intros Hplain. rewrite Hres. f_equal. unfold sentence.
    unfold NewsConverter.re_sub_spaces, NewsConverter.re_sub_brackets.
    assert (Hf : filter (fun c => negb (is_space c)) s = s).
    { apply forallb_filter_id. apply forallb_forall. intros c Hc.
      now rewrite (proj1 (Hplain c Hc)). }
    rewrite Hf. apply sub_brackets_no_open. intros c Hc. now apply Hplain.
Qed.

Lemma single_sentence_summary_witness :
  NewsConverter.generate_summary (py "今天天气很好【记者：李四】" ++ py "！") 200
  = py "今天天气很好" ++ py "。"
  /\ NewsConverter.generate_summary (py "今天天气很好" ++ []) 200 = py "今天天气很好" ++ py "。".
Proof.
  split.
  - refine (proj1 (single_sentence_summary (py "今天天气很好【记者：李四】") (py "！") 200 _ _ _ _)).
    + intros c Hc. vm_compute in Hc.
      repeat (destruct Hc as [<-|Hc]; [reflexivity|]). destruct Hc.
    + right. exists (chr "！"). split; reflexivity.
    + vm_compute. discriminate.
    + vm_compute. discriminate.
  - refine (proj2 (proj2 (single_sentence_summary (py "今天天气很好") [] 200 _ _ _ _)) _).
    + intros c Hc. vm_compute in Hc.
      repeat (destruct Hc as [<-|Hc]; [reflexivity|]). destruct Hc.
    + now left.
    + vm_compute. discriminate.
    + vm_compute. discriminate.
    + intros c Hc. vm_compute in Hc.
      repeat (destruct Hc as [<-|Hc]; [split; [reflexivity | discriminate]|]).
      destruct Hc.
Defined.

(** C8, the claim as stated fails: the summary of a one-sentence body that
    contains a space is not that sentence followed by the terminal mark. *)
Lemma summary_drops_inner_space :
  NewsConverter.generate_summary (py "AI 技术发展迅速。") 200 = py "AI技术发展迅速。"
  /\ NewsConverter.generate_summary (py "AI 技术发展迅速。") 200
     <> py "AI 技术发展迅速" ++ py "。".
Proof. split; [reflexivity | discriminate]. Qed.

(** C4.  The body of two hundred characters and a full stop is one sentence
    that passes the test [len(summary + sentence) <= 200]; the terminal
    mark is appended after the test, so the summary built from sentences has
    201 characters, one more than the budget. *)
Theorem summary_exceeds_budget :
  NewsConverter.generate_summary (repeat (chr "好") 200 ++ py "。") 200
  = repeat (chr "好") 200 ++ py "。"
  /\ len (NewsConverter.generate_summary (repeat (chr "好") 200 ++ py "。") 200) = 201
  /\ NewsConverter.summary_loop 200 []
       (NewsConverter.re_split_terminals
          (NewsConverter.re_sub_brackets
             (NewsConverter.re_sub_spaces (repeat (chr "好") 200 ++ py "。"))))
     <> [].
Proof. split; [|split]; [vm_compute; reflexivity | vm_compute; reflexivity |]. vm_compute. discriminate. Qed.

(** ** The SQL emitter (C9) *)

Lemma sql_scan_app (st : SqlScan) (a b : pystr) :
  sql_scan st (a ++ b) = sql_scan (sql_scan st a) b.
Proof. apply fold_left_app. Qed.

Lemma sql_step_plain (st : SqlScan) (c : N) : sql_plain c = true -> sql_step st c = st.
Proof.
  unfold sql_plain, sql_step. intros H. apply negb_true_iff in H.
  apply orb_false_iff in H as [H H4]. apply orb_false_iff in H as [H H3].
  apply orb_false_iff in H as [H1 H2]. rewrite H1, H2, H3, H4.
  now destruct (in_literal st).
Qed.

Lemma sql_scan_plain (s : pystr) (st : SqlScan) :
  forallb sql_plain s = true -> sql_scan st s = st.
Proof.
  induction s as [|c r IH]; simpl; [reflexivity|]. intros H.
  apply andb_true_iff in H as [Hc Hr]. rewrite sql_step_plain by assumption. now apply IH.
Qed.

(** Inside a literal the escaped text leaves the reader inside the literal. *)
Lemma sql_scan_escaped (s : pystr) (d k : Z) (b : bool) :
  sql_scan (mkScan true d k b) (replace_char 39 [39; 39]%N s) = mkScan true d k b.
Proof.
  induction s as [|c r IH]; simpl; [reflexivity|].
  unfold replace_char in *. destruct (c =? 39)%N eqn:E.
  - simpl. unfold sql_scan in *. simpl. exact IH.
  - unfold sql_scan in *. simpl. unfold sql_step at 2. rewrite E. simpl. exact IH.
Qed.

Lemma sql_scan_literal (s : pystr) (d k : Z) (b : bool) :
  sql_scan (mkScan false d k b) ([39%N] ++ replace_char 39 [39; 39]%N s ++ [39%N])
  = mkScan false d k b.
Proof.
  rewrite !sql_scan_app.
  change (sql_scan (mkScan false d k b) [39%N]) with (mkScan true d k b).
  rewrite sql_scan_escaped. reflexivity.
Qed.

Lemma digit_char_plain (n : N) : sql_plain (48 + n mod 10) = true.
Proof.
  unfold sql_plain. apply negb_true_iff.
  pose proof (N.mod_upper_bound n 10 ltac:(discriminate)) as H.
  generalize dependent (n mod 10)%N. intros x H.
  repeat (apply orb_false_iff; split); apply N.eqb_neq; lia.
Qed.

Lemma digits_fuel_plain (fuel : nat) :
  forall n acc, forallb sql_plain acc = true ->
    forallb sql_plain (digits_fuel fuel n acc) = true.
Proof.
  induction fuel as [|f IH]; intros n acc H; cbn [digits_fuel]; [assumption|].
  destruct (n <? 10)%N.
  - cbn [forallb]. now rewrite digit_char_plain.
  - apply IH. cbn [forallb]. now rewrite digit_char_plain.
Qed.

Lemma str_of_int_plain (z : Z) : forallb sql_plain (str_of_int z) = true.
Proof.
  unfold str_of_int, str_of_N.
  destruct (z <? 0); [cbn [forallb]; change (sql_plain 45) with true; cbn [andb]|];
    now apply digits_fuel_plain.
Qed.

Lemma float_char_plain (c : N) : float_char c = true -> sql_plain c = true.
Proof.
  unfold float_char. rewrite existsb_exists. intros (x & Hx & E).
  apply N.eqb_eq in E. subst x. vm_compute in Hx.
  repeat (destruct Hx as [<-|Hx]; [reflexivity|]). destruct Hx.
Qed.

Section Sql.
Context {rt : Runtime}.
Import NewsDataConverter.

Lemma float_repr_plain (f : float) : forallb sql_plain (float_repr f) = true.
Proof.
  pose proof (float_repr_chars f) as H. rewrite forallb_forall in *.
  intros c Hc. apply float_char_plain. now apply H.
Qed.

Lemma sql_scan_escape_sql (v : json) (d k : Z) (b : bool) :
  sql_scan (mkScan false d k b) (escape_sql v) = mkScan false d k b.
Proof.
  destruct v as [|[|]|z|f|s|l|o]; unfold escape_sql;
    try apply sql_scan_literal; apply sql_scan_plain;
    try reflexivity; [apply str_of_int_plain | apply float_repr_plain].
Qed.

Lemma sql_scan_value_line (v : pystr) (st : SqlScan) :
  sql_scan st v = st -> sql_scan st (value_line v) = st.
Proof.
  intros H. unfold value_line. rewrite !sql_scan_app.
  rewrite (sql_scan_plain (py "    ")) by reflexivity. rewrite H.
  rewrite (sql_scan_plain (py ",")) by reflexivity.
  now rewrite (sql_scan_plain nl) by reflexivity.
Qed.

Lemma sql_insert_scan (item : NormalizedRecord) :
  sql_scan scan_start (sql_insert item) = mkScan false 0 1 true.
Proof.
  unfold sql_insert. rewrite !sql_scan_app.
  change (sql_scan scan_start insert_head) with (mkScan false 1 0 true).
  repeat rewrite (sql_scan_value_line _ (mkScan false 1 0 true))
    by first [ apply sql_scan_escape_sql
             | apply sql_scan_plain, str_of_int_plain
             | apply sql_scan_plain, float_repr_plain ].
  reflexivity.
Qed.

Lemma sql_insert_ends (item : NormalizedRecord) :
  exists body, sql_insert item = body ++ [59; 10; 10]%N.
Proof.
  unfold sql_insert.
  change insert_tail
    with ((py "    NOW()," ++ nl ++ py "    NOW()" ++ nl ++ py ")") ++ [59; 10; 10]%N).
  rewrite !app_assoc. eexists. reflexivity.
Qed.

End Sql.

Lemma quotes_doubled (s : pystr) :
  quotes_in (replace_char 39 [39; 39]%N s) = (2 * quotes_in s)%nat.
Proof.
  unfold quotes_in, replace_char.
  induction s as [|c r IH]; [reflexivity|].
  cbn [flat_map filter]. rewrite filter_app, length_app, IH.
  rewrite (N.eqb_sym 39 c). destruct (c =? 39)%N eqn:E.
  - change (filter (N.eqb 39) [39%N; 39%N]) with [39%N; 39%N]. cbn [length]. lia.
  - cbn [filter]. rewrite (N.eqb_sym 39 c), E. cbn [length]. lia.
Qed.

Lemma literal_reads_back (s : pystr) :
  sql_literal_value (replace_char 39 [39; 39]%N s) = Some s.
Proof.
  unfold replace_char.
  induction s as [|c r IH]; [reflexivity|].
  cbn [flat_map]. destruct (c =? 39)%N eqn:E.
  - apply N.eqb_eq in E. subst c. cbn [app sql_literal_value].
    change (39 =? 39)%N with true. cbv iota. now rewrite IH.
  - cbn [app sql_literal_value]. rewrite E. now rewrite IH.
Qed.

Lemma replace_doubles (s : pystr) : replace_char 39 [39; 39]%N s = double_quotes s.
Proof.
  unfold replace_char. induction s as [|c r IH]; [reflexivity|].
  cbn [flat_map double_quotes]. rewrite IH. now destruct (c =? 39)%N.
Qed.

Section SqlColumns.
Context {rt : Runtime}.
Import NewsDataConverter.

(** The values of the statement, in the order of the columns. *)
Lemma sql_insert_values (item : NormalizedRecord) :
  sql_insert item
  = insert_head
    ++ flat_map value_line
         [escape_sql (JStr (title item)); escape_sql (JStr (content item));
          escape_sql (JStr (summary item)); escape_sql (JStr (description item));
          escape_sql (source item); escape_sql (JStr (category item));
          escape_sql (JStr (published_at item)); escape_sql (created_by item);
          escape_sql (JBool (is_active item)); escape_sql (JStr (source_type item));
          escape_sql (rss_source_id item); escape_sql (link item);
          escape_sql (JStr (guid item)); escape_sql (JStr (author item));
          escape_sql (image_url item); escape_sql (JStr (tags item));
          escape_sql (JStr (language item)); str_of_int (view_count item);
          str_of_int (like_count item); str_of_int (comment_count item);
          str_of_int (share_count item); float_repr (hotness_score item);
          escape_sql (JStr (status item)); escape_sql (JBool (is_processed item))]
    ++ insert_tail.
Proof.
  unfold sql_insert. cbn [flat_map]. rewrite app_nil_r.
  repeat rewrite <- app_assoc. reflexivity.
Qed.

Lemma escape_sql_text (s : pystr) : escape_sql (JStr s) = quoted_literal s.
Proof.
  unfold escape_sql, quoted_literal, quote_char, py_str. cbn [Console.py_str].
  now rewrite replace_doubles.
Qed.

End SqlColumns.

(** C9.  [escape_sql] renders a text between single quotes with every
    single quote of the text doubled, so that the literal reads back as the
    text; the INSERT statement emitted for any record is well formed: all
    literals are closed, parentheses are balanced, and the one semicolon
    outside the literals ends the statement; and the statement is made of its
    24 values in column order, where the value of every field of the record
    that is text, the title and any other, is that literal. *)
Theorem sql_insert_well_formed (rt : Runtime) (item : NormalizedRecord) :
  well_formed_statement (NewsDataConverter.sql_insert item)
  /\ (forall s,
      NewsDataConverter.escape_sql (JStr s)
      = [39%N] ++ replace_char 39 [39; 39]%N s ++ [39%N]
      /\ quotes_in (replace_char 39 [39; 39]%N s) = (2 * quotes_in s)%nat
      /\ sql_literal_value (replace_char 39 [39; 39]%N s) = Some s)
  /\ (exists pre post,
      NewsDataConverter.sql_insert item
      = pre ++ NewsDataConverter.value_line
                 (NewsDataConverter.escape_sql (JStr (title item))) ++ post)
  /\ (exists vals,
      NewsDataConverter.sql_insert item
      = NewsDataConverter.insert_head
        ++ flat_map NewsDataConverter.value_line vals
        ++ NewsDataConverter.insert_tail
      /\ length vals = length (record_values item)
      /\ forall i s,
          nth_error (record_values item) i = Some (JStr s) ->
          nth_error vals i = Some (quoted_literal s)
          /\ quotes_in (double_quotes s) = (2 * quotes_in s)%nat
          /\ sql_literal_value (double_quotes s) = Some s).
Proof.
  split; [|split; [|split]].
  - split; [apply sql_insert_scan | apply sql_insert_ends].
  - intros s. split; [reflexivity|]. split; [apply quotes_doubled | apply literal_reads_back].
  - unfold NewsDataConverter.sql_insert. eexists. eexists. reflexivity.
  - eexists. split; [apply sql_insert_values|]. split; [reflexivity|].
    intros i s H.
    split; [|rewrite <- replace_doubles;
             split; [apply quotes_doubled | apply literal_reads_back]].
    unfold record_values in H.
    do 24 (destruct i as [|i];
           [cbn [nth_error] in H |- *;
            first [discriminate H
                  | injection H as H; first [subst s | rewrite H];
                    now rewrite escape_sql_text]
           | cbn [nth_error] in H |- *]).
    destruct i; discriminate H.
Qed.

Example escape_sql_quote (rt : Runtime) :
  NewsDataConverter.escape_sql (JStr (py "O'Brien")) = py "'O''Brien'"
  /\ NewsDataConverter.escape_sql JNull = py "NULL"
  /\ NewsDataConverter.escape_sql (JBool true) = py "true"
  /\ NewsDataConverter.escape_sql (JInt (-12)) = py "-12".
Proof. repeat split; reflexivity. Qed.

(** ** Batch-fatal failures (C6) *)

Section Batch.
Context {rt : Runtime}.

Lemma v1_convert_file_never_raises (fs : Files) (w : World) :
  raised (fst (NewsConverter.convert_file fs w)) = None.
Proof.
  unfold NewsConverter.convert_file.
  destruct (source_state fs) as [| e | | data]; try reflexivity.
  destruct (match data with JObj _ => Ok [data] | JArr l => Ok l | _ => Raise _ end)
    as [items|e]; [|reflexivity].
  destruct (NewsConverter.convert_loop 0 items _ w) as [st w1].
  destruct (NewsConverter.escaped st); [reflexivity|].
  destruct (target_error fs); [reflexivity|].
  now destruct (forallb record_encodable _).
Qed.

Lemma v2_no_sheet_runs_empty (fs : Files) (o : list (pystr * json)) (w w' : World)
      (t : datetime) :
  source_state fs = Loaded (JObj o) ->
  lookup o NewsDataConverter.key_sheet = None ->
  target_error fs = None ->
  now w = (Ok t, w') ->
  NewsDataConverter.convert_all fs w
  = (mkOutcome (Complete (NewsDataConverter.mkEnvelope [] 0 (isoformat t)))
       [Summary 0 0 0] None, w').
Proof.
  intros Hs Hl Ht Hn. unfold NewsDataConverter.convert_all.
  rewrite Hs. unfold NewsDataConverter.sheet_items, NewsDataConverter.sheet_length.
  rewrite Hl. cbn [NewsDataConverter.convert_loop]. rewrite Hn, Ht. reflexivity.
Qed.

End Batch.

(** C6 (as amended).  Variant 1's [convert_file] raises a format error (a
    ValueError) when the loaded document is neither an object nor an array,
    and meets FileNotFoundError and JSONDecodeError for a missing and a
    malformed input; it catches each, reports it, writes no output and
    raises nothing to its caller.  Variant 2's [convert_all] reports and
    raises again FileNotFoundError and JSONDecodeError without writing
    output, but it has no format check: for a JSON object without the key
    "Sheet1" it completes normally and writes a document whose [news_items]
    is empty. *)
Theorem batch_failures (rt : Runtime) (fs : Files) (w : World) :
  (source_state fs = Missing ->
   NewsConverter.convert_file fs w = (mkOutcome NoOutput [SourceNotFound] None, w)
   /\ NewsDataConverter.convert_all fs w
      = (mkOutcome NoOutput [RunError FileNotFoundError] (Some FileNotFoundError), w))
  /\ (source_state fs = Malformed ->
      NewsConverter.convert_file fs w = (mkOutcome NoOutput [SourceNotJson] None, w)
      /\ NewsDataConverter.convert_all fs w
         = (mkOutcome NoOutput [RunError JSONDecodeError] (Some JSONDecodeError), w))
  /\ (forall data,
      source_state fs = Loaded data -> object_or_array data = false ->
      NewsConverter.convert_file fs w
      = (mkOutcome NoOutput
           [RunError (ValueError (py "源数据格式不正确，应该是JSON对象或数组"))] None, w))
  /\ raised (fst (NewsConverter.convert_file fs w)) = None
  /\ (forall o t w',
      source_state fs = Loaded (JObj o) ->
      lookup o (py "Sheet1") = None ->
      target_error fs = None ->
      now w = (Ok t, w') ->
      NewsDataConverter.convert_all fs w
      = (mkOutcome (Complete (NewsDataConverter.mkEnvelope [] 0 (isoformat t)))
           [Summary 0 0 0] None, w')).
Proof.
  split; [|split; [|split; [|split]]].
  - intros H. unfold NewsConverter.convert_file, NewsDataConverter.convert_all.
    rewrite H. split; reflexivity.
  - intros H. unfold NewsConverter.convert_file, NewsDataConverter.convert_all.
    rewrite H. split; reflexivity.
  - intros data H Hd. unfold NewsConverter.convert_file. rewrite H.
    destruct data; try discriminate; reflexivity.
  - apply v1_convert_file_never_raises.
  - intros o t w' Hs Hl Ht Hn. now apply (v2_no_sheet_runs_empty fs o w w' t).
Qed.

Lemma batch_failures_witness :
  NewsConverter.convert_file (rt := plain_runtime) (mkFiles Missing None) sample_world
  = (mkOutcome NoOutput [SourceNotFound] None, sample_world)
  /\ NewsDataConverter.convert_all (rt := plain_runtime) (mkFiles Malformed None) sample_world
     = (mkOutcome NoOutput [RunError JSONDecodeError] (Some JSONDecodeError), sample_world)
  /\ NewsConverter.convert_file (rt := plain_runtime)
       (mkFiles (Loaded (JStr (py "news"))) None) sample_world
     = (mkOutcome NoOutput
          [RunError (ValueError (py "源数据格式不正确，应该是JSON对象或数组"))] None,
        sample_world)
  /\ written (fst (NewsDataConverter.convert_all (rt := plain_runtime)
                     (mkFiles (Loaded (JObj [])) None) sample_world))
     = Complete (NewsDataConverter.mkEnvelope [] 0 (py "2025-07-02T10:00:00")).
Proof.
  split; [|split; [|split]].
  - destruct (batch_failures plain_runtime (mkFiles Missing None) sample_world)
      as (H & _).
    apply H. reflexivity.
  - destruct (batch_failures plain_runtime (mkFiles Malformed None) sample_world)
      as (_ & H & _).
    apply H. reflexivity.
  - destruct (batch_failures plain_runtime (mkFiles (Loaded (JStr (py "news"))) None)
                sample_world) as (_ & _ & H & _).
    apply (H (JStr (py "news"))); reflexivity.
  - destruct (batch_failures plain_runtime (mkFiles (Loaded (JObj [])) None) sample_world)
      as (_ & _ & _ & _ & H).
    rewrite (H [] ((days_from_civil 2025 7 2 * 86400 + 36000) * 1000000)
               (mkWorld (rand_tape sample_world) 0 (clock_tape sample_world) 1));
      reflexivity.
Defined.

(** C6, the claim as stated fails for variant 2: a document whose records
    sit under another key than "Sheet1" is not refused; the run completes
    without error and writes an empty collection. *)
Lemma variant2_accepts_unknown_shape :
  fst (NewsDataConverter.convert_all (rt := plain_runtime)
         (mkFiles (Loaded other_key_document) None) sample_world)
  = mkOutcome (Complete (NewsDataConverter.mkEnvelope [] 0 (py "2025-07-02T10:00:00")))
      [Summary 0 0 0] None.
Proof. vm_compute. reflexivity. Qed.

(** ** Calendar arithmetic *)

Lemma civil_from_days_bounds (z : Z) :
  -719162 <= z <= 2932896 ->
  let '(y, m, d) := civil_from_days z in
  1 <= y <= 9999 /\ 1 <= m <= 12 /\ 1 <= d <= 31.
Proof.
  intros Hz. unfold civil_from_days.
  set (z' := z + 719468).
  set (era := z' / 146097).
  set (doe := z' - era * 146097).
  set (yoe := (doe - doe / 1460 + doe / 36524 - doe / 146096) / 365).
  set (doy := doe - (365 * yoe + yoe / 4 - yoe / 100)).
  set (mp := (5 * doy + 2) / 153).
  assert (Hdoe : 0 <= doe < 146097) by (unfold doe, era; Z.div_mod_to_equations; lia).
  assert (Hera : 0 <= era <= 24) by (unfold era, z'; Z.div_mod_to_equations; lia).
  assert (Hyoe : 0 <= yoe <= 399) by (unfold yoe; Z.div_mod_to_equations; lia).
  assert (Hdoy : 0 <= doy <= 365) by (unfold doy, yoe; Z.div_mod_to_equations; lia).
  assert (Hmp : 0 <= mp <= 11) by (unfold mp; Z.div_mod_to_equations; lia).
  assert (Hd : 1 <= doy - (153 * mp + 2) / 5 + 1 <= 31)
    by (unfold mp; Z.div_mod_to_equations; lia).
  destruct (Z.ltb_spec mp 10) as [Hlt|Hge].
  - destruct (Z.leb_spec (mp + 3) 2); [lia|]. repeat split; try lia.
    unfold mp, doy, yoe, doe, era, z' in *. Z.div_mod_to_equations. lia.
  - destruct (Z.leb_spec (mp - 9) 2); [|lia]. repeat split; try lia.
    unfold mp, doy, yoe, doe, era, z' in *. Z.div_mod_to_equations. lia.
Qed.

Lemma time_of_day_bounds (t : Z) :
  0 <= hour_of t <= 23 /\ 0 <= minute_of t <= 59 /\ 0 <= second_of t <= 59.
Proof.
  unfold hour_of, minute_of, second_of, us_per_day, us_per_second.
  repeat split; Z.div_mod_to_equations; lia.
Qed.

Lemma day_of_range (t : Z) :
  min_datetime <= t <= max_datetime -> -719162 <= t / us_per_day <= 2932896.
Proof.
  change min_datetime with (-719162 * us_per_day).
  change max_datetime with (2932897 * us_per_day - 1).
  unfold us_per_day, us_per_second. intros H. Z.div_mod_to_equations. lia.
Qed.

Lemma days_from_civil_range (y m d : Z) :
  1 <= y <= 9999 -> 1 <= m <= 12 -> 1 <= d <= 31 ->
  -719162 <= days_from_civil y m d <= 2932896.
Proof.
  intros Hy Hm Hd. unfold days_from_civil.
  destruct (Z.leb_spec m 2); Z.div_mod_to_equations; lia.
Qed.

Lemma days_in_month_le (y m : Z) : days_in_month y m <= 31.
Proof.
  unfold days_in_month.
  destruct (m =? 2); [destruct (is_leap y); lia|].
  destruct ((m =? 4) || (m =? 6) || (m =? 9) || (m =? 11)); lia.
Qed.

(** A date-time that [datetime(...)] accepts lies in the representable range. *)
Lemma make_datetime_range (y m d hh mm ss : Z) (t : datetime) :
  make_datetime y m d hh mm ss = Ok t -> min_datetime <= t <= max_datetime.
Proof.
  unfold make_datetime.
  destruct (_ && _) eqn:E; [|discriminate].
  repeat (apply andb_true_iff in E as [E ?]).
  repeat match goal with H : (_ <=? _) = true |- _ => apply Z.leb_le in H end.
  intros Heq. injection Heq as <-.
  pose proof (days_in_month_le y m).
  pose proof (days_from_civil_range y m d ltac:(lia) ltac:(lia) ltac:(lia)).
  change min_datetime with (-719162 * us_per_day).
  change max_datetime with (2932897 * us_per_day - 1).
  unfold us_per_day, us_per_second. lia.
Qed.

(** ** Timestamps *)

Lemma all_from_spec (P : Z -> bool) (fuel : nat) :
  forall z, all_from fuel z P = true ->
    forall x, z <= x < z + Z.of_nat fuel -> P x = true.
Proof.
  induction fuel as [|f IH]; intros z H x Hx; [lia|].
  cbn [all_from] in H. destruct (P z) eqn:Ez; [|discriminate].
  destruct (Z.eq_dec x z) as [->|Hne]; [exact Ez|].
  apply (IH (z + 1) H). lia.
Qed.

Lemma pad_int_2_digits (x : Z) : 0 <= x <= 99 -> ascii_digits 2 (pad_int 2 x) = true.
Proof.
  intros H.
  apply (all_from_spec (fun x => ascii_digits 2 (pad_int 2 x)) (Z.to_nat 100) 0);
    [vm_compute; reflexivity | rewrite Z2Nat.id; lia].
Qed.

Lemma pad_int_4_digits (x : Z) : 0 <= x <= 9999 -> ascii_digits 4 (pad_int 4 x) = true.
Proof.
  intros H.
  apply (all_from_spec (fun x => ascii_digits 4 (pad_int 4 x)) (Z.to_nat 10000) 0);
    [vm_compute; reflexivity | rewrite Z2Nat.id; lia].
Qed.

Lemma ascii_digits_inv (n : nat) (s : pystr) :
  ascii_digits n s = true -> length s = n /\ forallb is_ascii_digit s = true.
Proof.
  unfold ascii_digits. intros H. apply andb_true_iff in H as [H1 H2].
  apply Nat.eqb_eq in H1. auto.
Qed.

(** Six groups of ASCII digits joined by the separators make a timestamp of
    the canonical shape. *)
Lemma canonical_of_parts (Y M D h m s : pystr) :
  ascii_digits 4 Y = true -> ascii_digits 2 M = true -> ascii_digits 2 D = true ->
  ascii_digits 2 h = true -> ascii_digits 2 m = true -> ascii_digits 2 s = true ->
  canonical_timestamp
    (Y ++ [dash] ++ M ++ [dash] ++ D ++ [space] ++ h ++ [colon] ++ m ++ [colon] ++ s)
  = true.
Proof.
  intros HY HM HD Hh Hm Hs.
  apply ascii_digits_inv in HY as [LY HY], HM as [LM HM], HD as [LD HD],
      Hh as [Lh Hh], Hm as [Lm Hm], Hs as [Ls Hs].
  destruct Y as [|y1 [|y2 [|y3 [|y4 [|]]]]]; try discriminate.
  destruct M as [|m1 [|m2 [|]]]; try discriminate.
  destruct D as [|d1 [|d2 [|]]]; try discriminate.
  destruct h as [|h1 [|h2 [|]]]; try discriminate.
  destruct m as [|n1 [|n2 [|]]]; try discriminate.
  destruct s as [|s1 [|s2 [|]]]; try discriminate.
  cbn [forallb] in *.
  repeat match goal with H : _ && _ = true |- _ => apply andb_true_iff in H as [? H] end.
  cbn [app canonical_timestamp forallb].
  repeat match goal with H : is_ascii_digit _ = true |- _ => rewrite H; clear H end.
  reflexivity.
Qed.

Section Strftime.
Context {rt : Runtime}.

Lemma strftime_canonical (t : datetime) :
  strftime_pads_year = true ->
  min_datetime <= t <= max_datetime ->
  canonical_timestamp (strftime t) = true.
Proof.
  intros Hpad Ht. unfold strftime, date_of. rewrite Hpad.
  pose proof (civil_from_days_bounds _ (day_of_range t Ht)) as Hc.
  destruct (civil_from_days (t / us_per_day)) as [[y m] d].
  destruct Hc as (Hy & Hm & Hd).
  destruct (time_of_day_bounds t) as (Hh & Hn & Hs).
  apply canonical_of_parts;
    first [apply pad_int_4_digits | apply pad_int_2_digits]; lia.
Qed.

End Strftime.

(** ** Patterns *)

Lemma match_seq_spec (ks : list Re.cls) :
  forall s g rest,
    Re.match_seq ks s = Some (g, rest) ->
    s = g ++ rest /\ length g = length ks
    /\ (digit_classes ks = true -> forallb is_digit g = true).
Proof.
  induction ks as [|k ks IH]; intros s g rest H; simpl in H.
  - injection H as <- <-. auto.
  - destruct s as [|c r]; [discriminate|].
    destruct (Re.cls_match k c) eqn:Ek; [|discriminate].
    destruct (Re.match_seq ks r) as [[m rest']|] eqn:Em; [|discriminate].
    injection H as <- <-. destruct (IH _ _ _ Em) as (-> & Hl & Hd).
    split; [reflexivity|]. split; [simpl; congruence|].
    intros Hk. cbn [digit_classes forallb] in *.
    apply andb_true_iff in Hk as [Hk1 Hk2].
    destruct k; try discriminate. simpl in Ek. rewrite Ek. now apply Hd.
Qed.

Lemma after_spaces_suffix (s r : pystr) :
  In r (Re.after_spaces s) -> exists pre, s = pre ++ r.
Proof.
  revert r; induction s as [|c s IH]; intros r; simpl; [intros []|].
  destruct (is_space c); [|intros []].
  intros H. apply in_app_or in H as [H|[<-|[]]].
  - destruct (IH _ H) as (pre & ->). now exists (c :: pre).
  - now exists [c].
Qed.

(** What a match of a digit pattern captures, and where it comes from. *)
Lemma matches_spec (p : list Re.elem) :
  digit_pattern p = true ->
  forall s gs rest,
    In (gs, rest) (Re.matches p s) ->
    digit_groups p gs /\ (forall g c, In g gs -> In c g -> In c s).
Proof.
  induction p as [|e p IH]; intros Hp s gs rest H.
  - simpl in H. destruct H as [H|[]]. injection H as <- _.
    split; [reflexivity|]. intros g c [].
  - destruct e as [c0| |alts].
    + cbn [digit_pattern] in Hp. cbn [Re.matches] in H.
      destruct s as [|x r]; [destruct H|].
      destruct (x =? c0)%N; [|destruct H].
      destruct (IH Hp _ _ _ H) as (Hg & Hc). split; [exact Hg|].
      intros g c Hi Hj. right. eauto.
    + cbn [digit_pattern] in Hp. cbn [Re.matches] in H.
      apply in_flat_map in H as (r & Hr & H).
      destruct (IH Hp _ _ _ H) as (Hg & Hc). split; [exact Hg|].
      intros g c Hi Hj. apply after_spaces_suffix in Hr as (pre & ->).
      apply in_or_app. right. eauto.
    + cbn [digit_pattern] in Hp. apply andb_true_iff in Hp as [Ha Hp].
      cbn [Re.matches] in H. apply in_flat_map in H as (ks & Hks & H).
      destruct (Re.match_seq ks s) as [[g r]|] eqn:Em; [|destruct H].
      apply in_map_iff in H as ([gs' rest'] & E & H). simpl in E.
      injection E as <- <-.
      destruct (match_seq_spec _ _ _ _ Em) as (-> & Hl & Hd).
      destruct (IH Hp _ _ _ H) as (Hg & Hc).
      rewrite forallb_forall in Ha.
      split.
      * cbn [digit_groups]. exists g, gs'. repeat split; eauto.
      * intros g0 c [<-|Hi] Hj; apply in_or_app; [now left | right; eauto].
Qed.

Lemma hd_error_In {A} (l : list A) (x : A) : hd_error l = Some x -> In x l.
Proof. destruct l; simpl; [discriminate|]. intros H. injection H as <-. now left. Qed.

Lemma re_search_spec (p : list Re.elem) :
  digit_pattern p = true ->
  forall s gs whole,
    Re.re_search p s = Some (gs, whole) ->
    digit_groups p gs /\ (forall g c, In g gs -> In c g -> In c s).
Proof.
  intros Hp. induction s as [|x s IH]; intros gs whole H; simpl in H.
  - destruct (Re.re_match p []) as [[gs' rest]|] eqn:Em; [|discriminate].
    injection H as <- _. apply hd_error_In in Em.
    now apply (matches_spec p Hp) in Em.
  - destruct (Re.re_match p (x :: s)) as [[gs' rest]|] eqn:Em.
    + injection H as <- _. apply hd_error_In in Em.
      now apply (matches_spec p Hp) in Em.
    + destruct (IH _ _ H) as (Hg & Hc). split; [exact Hg|].
      intros g c Hi Hj. right. eauto.
Qed.

Lemma ascii_digit_not_sign (c : N) :
  is_ascii_digit c = true -> ((c =? 43) || (c =? 45))%N = false.
Proof.
  unfold is_ascii_digit. intros H. apply andb_true_iff in H as [H _].
  apply N.leb_le in H. apply orb_false_iff. split; apply N.eqb_neq; lia.
Qed.

Lemma zfill_2_digits (g : pystr) :
  (length g = 2 \/ length g = 1)%nat -> forallb is_ascii_digit g = true ->
  ascii_digits 2 (zfill 2 g) = true.
Proof.
  intros [Hl|Hl] Hd.
  - destruct g as [|a [|b [|]]]; try discriminate.
    cbn [forallb] in Hd. apply andb_true_iff in Hd as [Ha Hb].
    unfold zfill. rewrite (ascii_digit_not_sign a Ha).
    unfold ascii_digits. cbn. now rewrite Ha, Hb.
  - destruct g as [|a [|]]; try discriminate.
    cbn [forallb] in Hd. apply andb_true_iff in Hd as [Ha _].
    unfold zfill. rewrite (ascii_digit_not_sign a Ha).
    unfold ascii_digits. cbn. now rewrite Ha.
Qed.

Lemma ascii_group (s g : pystr) :
  ascii_digits_only s -> (forall c, In c g -> In c s) ->
  forallb is_digit g = true -> forallb is_ascii_digit g = true.
Proof.
  intros Hs Hin Hd. rewrite forallb_forall in *. intros c Hc.
  apply Hs; auto.
Qed.

(** ** Date normalization in general *)

Section ParseDatetime.
Context {rt : Runtime}.
Hypothesis pads : strftime_pads_year = true.

Lemma current_time_text_ok (w : World) :
  clock_in_range w ->
  exists out w',
    NewsConverter.current_time_text w = (Ok out, w')
    /\ canonical_timestamp out = true.
Proof.
  unfold clock_in_range. intros Hc.
  unfold NewsConverter.current_time_text, bind, now, bind, clock_read, ret.
  apply Z.leb_le in Hc. rewrite Hc. do 2 eexists. split; [reflexivity|].
  apply strftime_canonical; [exact pads|].
  apply Z.leb_le in Hc. split; [|exact Hc].
  change min_datetime with (-719162 * us_per_day). unfold us_per_day, us_per_second. lia.
Qed.

Lemma random_past_time_ok (w : World) :
  clock_in_range w ->
  exists out w',
    NewsDataConverter.random_past_time w = (Ok out, w')
    /\ canonical_timestamp out = true.
Proof.
  unfold clock_in_range. intros Hc.
  unfold NewsDataConverter.random_past_time, randint.
  change (30 - 1 + 1 <=? 0) with false. cbv iota.
  unfold bind, randbelow, now, bind, clock_read, ret, lift.
  cbn [clock_tape clock_pos].
  set (c := Z.of_N (clock_tape w (clock_pos w))) in *.
  set (r := Z.of_N (rand_tape w (rand_pos w)) mod (30 - 1 + 1)).
  assert (Hr : 0 <= r < 30) by (apply Z.mod_pos_bound; lia).
  assert (H0 : 0 <= c) by apply N2Z.is_nonneg.
  apply Z.leb_le in Hc. rewrite Hc. apply Z.leb_le in Hc.
  assert (Hrange : min_datetime <= c - (1 + r) * us_per_day <= max_datetime).
  { change min_datetime with (-719162 * us_per_day).
    unfold us_per_day, us_per_second in *. lia. }
  unfold minus_days.
  destruct Hrange as [Hlo Hhi].
  apply Z.leb_le in Hlo, Hhi. rewrite Hlo, Hhi. cbn [andb].
  do 2 eexists. split; [reflexivity|].
  apply strftime_canonical; [exact pads|].
  apply Z.leb_le in Hlo, Hhi. auto.
Qed.

Lemma strptime_range (fmt : list Re.elem) (s : pystr) (t : datetime) :
  strptime fmt s = Ok t -> min_datetime <= t <= max_datetime.
Proof.
  unfold strptime.
  destruct (Re.re_match fmt s) as [[gs [|c rest]]|]; try discriminate.
  destruct (ints_of gs) as [[|y [|m [|d [|hh [|mm [|ss [|]]]]]]]|]; try discriminate;
    apply make_datetime_range.
Qed.

Lemma reformat_cases (fmt : list Re.elem) (s : pystr) (w : World) :
  (exists out, NewsDataConverter.reformat fmt s w = (Ok out, w)
               /\ canonical_timestamp out = true)
  \/ (exists e, NewsDataConverter.reformat fmt s w = (Raise e, w)).
Proof.
  unfold NewsDataConverter.reformat, bind, lift, ret.
  destruct (strptime fmt s) as [t|e] eqn:E; [left | right; eauto].
  eexists. split; [reflexivity|].
  apply strftime_canonical; [exact pads|]. eapply strptime_range; eauto.
Qed.

Lemma v2_parse_try_cases (v : json) (w : World) :
  clock_in_range w ->
  (exists out w', NewsDataConverter.parse_datetime_try v w = (Ok out, w')
                  /\ canonical_timestamp out = true)
  \/ (exists e, NewsDataConverter.parse_datetime_try v w = (Raise e, w)).
Proof.
  intros Hc. unfold NewsDataConverter.parse_datetime_try.
  destruct v as [| | | |s| |]; try (right; eexists; reflexivity).
  set (s' := if contains NewsDataConverter.script_marker s then _ else s).
  destruct (Re.re_match NewsDataConverter.full_pattern s').
  - destruct (reformat_cases NewsDataConverter.full_format s' w) as [(out & E & H)|(e & E)];
      [left | right]; eauto.
  - destruct (Re.re_match NewsDataConverter.short_pattern s').
    + destruct (reformat_cases NewsDataConverter.short_format s' w)
        as [(out & E & H)|(e & E)]; [left | right]; eauto.
    + left. now apply random_past_time_ok.
Qed.

Lemma forallb_firstn {A} (P : A -> bool) (n : nat) :
  forall l, forallb P l = true -> forallb P (firstn n l) = true.
Proof.
  induction n as [|n IH]; intros [|x l] H; try reflexivity.
  cbn [firstn forallb] in *. apply andb_true_iff in H as [Hx Hl].
  now rewrite Hx, IH.
Qed.

(** What [re.search] returns is part of the text searched. *)
Lemma re_search_part (P : N -> bool) (p : list Re.elem) :
  forall s gs whole,
    Re.re_search p s = Some (gs, whole) ->
    forallb P s = true -> forallb P whole = true.
Proof.
  induction s as [|c r IH]; intros gs whole H Hs.
  - cbn [Re.re_search] in H.
    destruct (Re.re_match p []) as [[gs' rest]|]; [|discriminate].
    injection H as _ <-. exact Hs.
  - cbn [Re.re_search] in H.
    destruct (Re.re_match p (c :: r)) as [[gs' rest]|].
    + injection H as _ <-. now apply forallb_firstn.
    + cbn [forallb] in Hs. apply andb_true_iff in Hs as [_ Hs]. eauto.
Qed.

(** The date the handler prints is the date given or a part of it. *)
Lemma shown_date_printable (v : json) :
  utf8_encodable (NewsDataConverter.py_str v) = true ->
  utf8_encodable (NewsDataConverter.py_str (NewsDataConverter.shown_date v)) = true.
Proof.
  destruct v as [| | | |s| |]; try (intros H; exact H).
  cbn [NewsDataConverter.shown_date]. intros H.
  destruct (contains NewsDataConverter.script_marker s); [|exact H].
  destruct (Re.re_search NewsDataConverter.short_pattern s) as [[gs whole]|] eqn:E;
    [|exact H].
  exact (re_search_part _ _ _ _ _ E H).
Qed.

(** Variant 2 returns a canonical timestamp when the date its handler would
    print can be printed; when it cannot and the handler is entered,
    [parse_datetime] raises. *)
Lemma v2_parse_datetime_canonical (v : json) (w : World) :
  clock_in_range w ->
  utf8_encodable (NewsDataConverter.py_str (NewsDataConverter.shown_date v)) = true ->
  exists out w',
    NewsDataConverter.parse_datetime v w = (Ok out, w')
    /\ canonical_timestamp out = true.
Proof.
  intros Hc Hp. unfold NewsDataConverter.parse_datetime, try_except.
  destruct (v2_parse_try_cases v w Hc) as [(out & w' & E & H)|(e & E)]; rewrite E.
  - eauto.
  - unfold bind, lift. rewrite print_framed, Hp by reflexivity.
    now apply random_past_time_ok.
Qed.

Lemma v2_parse_datetime_unprintable (v : json) (w w' : World) (e : exn) :
  NewsDataConverter.parse_datetime_try v w = (Raise e, w') ->
  utf8_encodable (NewsDataConverter.py_str (NewsDataConverter.shown_date v)) = false ->
  NewsDataConverter.parse_datetime v w = (Raise UnicodeEncodeError, w').
Proof.
  intros E Hp. unfold NewsDataConverter.parse_datetime, try_except. rewrite E.
  unfold bind, lift. now rewrite print_framed, Hp by reflexivity.
Qed.

Lemma v1_date_groups (s : pystr) (gs : list pystr) (whole : pystr) :
  Re.re_search NewsConverter.date_pattern s = Some (gs, whole) ->
  ascii_digits_only s ->
  exists year month day hour minute,
    gs = [year; month; day; hour; minute]
    /\ ascii_digits 4 year = true
    /\ ascii_digits 2 (zfill 2 month) = true
    /\ ascii_digits 2 (zfill 2 day) = true
    /\ ascii_digits 2 (zfill 2 hour) = true
    /\ ascii_digits 2 (zfill 2 minute) = true.
Proof.
  intros H Hs.
  apply (re_search_spec NewsConverter.date_pattern eq_refl) in H as (Hg & Hin).
  cbn [digit_groups NewsConverter.date_pattern] in Hg.
  destruct Hg as (y & gs1 & -> & (ky & Hky & Ly) & Dy & Hg).
  destruct Hg as (mo & gs2 & -> & (kmo & Hkmo & Lmo) & Dmo & Hg).
  destruct Hg as (d & gs3 & -> & (kd & Hkd & Ld) & Dd & Hg).
  destruct Hg as (h & gs4 & -> & (kh & Hkh & Lh) & Dh & Hg).
  destruct Hg as (mi & gs5 & -> & (kmi & Hkmi & Lmi) & Dmi & ->).
  exists y, mo, d, h, mi. split; [reflexivity|].
  assert (Hlen : forall (g : pystr) ks, In ks [Re.d2; Re.d1] -> length g = length ks ->
                              (length g = 2 \/ length g = 1)%nat).
  { intros g ks [<-|[<-|[]]] ->; auto. }
  assert (Ha : forall g, In g [y; mo; d; h; mi] -> forallb is_digit g = true ->
                         forallb is_ascii_digit g = true).
  { intros g Hi. apply (ascii_group s); auto. intros c Hc. eapply Hin; eauto. }
  split.
  - unfold ascii_digits. destruct Hky as [<-|[]]. rewrite Ly.
    rewrite Ha; simpl; tauto.
  - repeat split; apply zfill_2_digits; eauto; apply Ha; simpl; tauto.
Qed.

(** Variant 1 returns a canonical timestamp when the decimal digits of its
    input are ASCII digits. *)
Lemma v1_parse_datetime_canonical (v : json) (w : World) :
  clock_in_range w ->
  (forall s, v = JStr s -> ascii_digits_only s) ->
  exists out w',
    NewsConverter.parse_datetime v w = (Ok out, w')
    /\ canonical_timestamp out = true.
Proof.
  intros Hc Hv. unfold NewsConverter.parse_datetime, try_except.
  assert (Hnow := current_time_text_ok w Hc).
  unfold NewsConverter.parse_datetime_try.
  destruct (NewsConverter.json_has v NewsConverter.year_mark) as [hy|];
    [|exact Hnow].
  destruct (NewsConverter.json_has v NewsConverter.month_mark) as [hm|];
    [|exact Hnow].
  destruct (NewsConverter.json_has v NewsConverter.day_mark) as [hd|];
    [|exact Hnow].
  destruct (hy && hm && hd).
  - destruct v as [| | | |s| |]; try exact Hnow.
    destruct (Re.re_search NewsConverter.date_pattern s) as [[gs whole]|] eqn:E.
    + destruct (v1_date_groups s gs whole E (Hv s eq_refl))
        as (y & mo & d & h & mi & -> & Hy & Hmo & Hd & Hh & Hmi).
      unfold ret. do 2 eexists. split; [reflexivity|].
      change (py ":00") with ([colon] ++ py "00").
      now apply canonical_of_parts.
    + destruct Hnow as (out & w' & E' & H). rewrite E'. eauto.
  - destruct Hnow as (out & w' & E' & H). rewrite E'. eauto.
Qed.

End ParseDatetime.

(** The date of the specification's example, in both variants. *)
Lemma v1_parse_datetime_example (rt : Runtime) (w : World) :
  NewsConverter.parse_datetime (JStr (py "2025年07月01日19:01")) w
  = (Ok (py "2025-07-01 19:01:00"), w).
Proof. reflexivity. Qed.

Lemma v2_parse_datetime_example (rt : Runtime) (w : World) :
  NewsDataConverter.parse_datetime (JStr (py "2025年07月01日19:01")) w
  = (Ok (py "2025-07-01 19:01:00"), w).
Proof.
  destruct rt as [f1 f2 f3 f4 f5 f6 pad]. destruct pad; reflexivity.
Qed.

(** Text without a date falls back to a time taken from the clock. *)
Lemma parse_datetime_garbage :
  fst (NewsConverter.parse_datetime (rt := plain_runtime) (JStr (py "garbage")) sample_world)
  = Ok (py "2025-07-02 10:00:00")
  /\ fst (NewsDataConverter.parse_datetime (rt := plain_runtime) (JStr (py "garbage"))
            sample_world)
     = Ok (py "2025-06-16 10:00:00").
Proof. split; vm_compute; reflexivity. Qed.

(** Variant 2 on dates with digits that are not ASCII: a full-width year is
    read with its value, full-width months are refused by [strptime] and the
    fallback applies. *)
Lemma v2_parse_datetime_unicode_digits :
  fst (NewsDataConverter.parse_datetime (rt := plain_runtime)
         (JStr (py "２０２５年07月01日19:01")) sample_world)
  = Ok (py "2025-07-01 19:01:00")
  /\ fst (NewsDataConverter.parse_datetime (rt := plain_runtime) (JStr fullwidth_date)
            sample_world)
     = Ok (py "2025-06-16 10:00:00").
Proof. split; vm_compute; reflexivity. Qed.

(** Variant 2 on a date followed by a lone surrogate: [strptime] refuses the
    text, and the handler fails to print it. *)
Lemma v2_parse_datetime_raises (rt : Runtime) (w : World) :
  NewsDataConverter.parse_datetime (JStr (py "2025年07月01日19:01" ++ [0xD800%N])) w
  = (Raise UnicodeEncodeError, w).
Proof. reflexivity. Qed.

(** Where the C library does not pad [%Y], variant 2 loses the leading zero
    of a year before 1000. *)
Lemma v2_year_before_1000 (rt : Runtime) (w : World) :
  strftime_pads_year = false ->
  NewsDataConverter.parse_datetime (JStr (py "0999年01月01日00:00")) w
  = (Ok (py "999-01-01 00:00:00"), w)
  /\ canonical_timestamp (py "999-01-01 00:00:00") = false.
Proof.
  destruct rt as [f1 f2 f3 f4 f5 f6 pad]. simpl. intros ->. split; reflexivity.
Qed.

(** ** Date normalization (C3) *)

(** C3.  Variant 1's [parse_datetime] matches the date with [\d], which
    accepts every Unicode decimal digit, and copies the matched text: for
    the full-width date "２０２５年０７月０１日１９:０１" it returns
    "２０２５-０７-０１ １９:０１:00", which is not a timestamp of the form
    YYYY-MM-DD HH:MM:SS. *)
Theorem variant1_keeps_fullwidth_digits (rt : Runtime) (w : World) :
  NewsConverter.parse_datetime (JStr fullwidth_date) w
  = (Ok (py "２０２５-０７-０１ １９:０１:00"), w)
  /\ canonical_timestamp (py "２０２５-０７-０１ １９:０１:00") = false.
Proof. split; reflexivity. Qed.

(* ===================================================================== *)
(** * Part III.  Further properties of the converters                     *)
(* ===================================================================== *)

(** ** Random engagement counts *)

Lemma randint_run (a b : Z) (w : World) :
  a <= b ->
  exists r, randint a b w = (Ok r, after_draws 1 w) /\ a <= r <= b.
Proof.
  intros H. unfold randint.
  destruct (Z.leb_spec (b - a + 1) 0) as [Hle|Hgt]; [lia|].
  unfold bind, randbelow, ret. eexists. split; [reflexivity|].
  pose proof (Z.mod_pos_bound (Z.of_N (rand_tape w (rand_pos w))) (b - a + 1) Hgt). lia.
Qed.

Lemma after_draws_add (n m : nat) (w : World) :
  after_draws n (after_draws m w) = after_draws (n + m) w.
Proof. unfold after_draws. simpl. f_equal. lia. Qed.

Lemma v1_random_stats_run (w : World) :
  exists s,
    NewsConverter.generate_random_stats w = (Ok s, after_draws 4 w)
    /\ 100 <= st_view_count s <= 10000
    /\ 10 <= st_like_count s <= 1000
    /\ 5 <= st_comment_count s <= 500
    /\ 0 <= st_share_count s <= 200.
Proof.
  unfold NewsConverter.generate_random_stats.
  destruct (randint_run 100 10000 w ltac:(lia)) as (v & Ev & Hv).
  destruct (randint_run 10 1000 (after_draws 1 w) ltac:(lia)) as (l & El & Hl).
  destruct (randint_run 5 500 (after_draws 1 (after_draws 1 w)) ltac:(lia)) as (c & Ec & Hc).
  destruct (randint_run 0 200 (after_draws 1 (after_draws 1 (after_draws 1 w))) ltac:(lia))
    as (s & Es & Hs).
  exists (mkStats v l c s).
  unfold bind at 1. rewrite Ev. unfold bind at 1. rewrite El.
  unfold bind at 1. rewrite Ec. unfold bind at 1. rewrite Es.
  unfold ret. rewrite !after_draws_add. simpl. auto.
Qed.

(** For every view count that can be drawn, [int(base_views * 0.01)] and the
    other three products are the integer quotients by 100, 10, 20 and 50:
    checked on all 9901 values. *)
Lemma shares_checked : all_from (Z.to_nat 9901) 100 shares_ok = true.
Proof. vm_compute. reflexivity. Qed.

Lemma share_of_quotients (bv : Z) :
  100 <= bv <= 10000 ->
  NewsDataConverter.share_of bv 0.01 = Ok (bv / 100)
  /\ NewsDataConverter.share_of bv 0.1 = Ok (bv / 10)
  /\ NewsDataConverter.share_of bv 0.05 = Ok (bv / 20)
  /\ NewsDataConverter.share_of bv 0.02 = Ok (bv / 50).
Proof.
  intros H.
  assert (Hs : shares_ok bv = true).
  { apply (all_from_spec shares_ok (Z.to_nat 9901) 100 shares_checked).
    rewrite Z2Nat.id; lia. }
  unfold shares_ok in Hs.
  destruct (NewsDataConverter.share_of bv 0.01) as [a|]; [|discriminate].
  destruct (NewsDataConverter.share_of bv 0.1) as [b|]; [|discriminate].
  destruct (NewsDataConverter.share_of bv 0.05) as [c|]; [|discriminate].
  destruct (NewsDataConverter.share_of bv 0.02) as [d|]; [|discriminate].
  repeat (apply andb_true_iff in Hs as [Hs ?]).
  repeat match goal with E : (_ =? _) = true |- _ => apply Z.eqb_eq in E end.
  subst. auto.
Qed.

Lemma v2_random_stats_run (w : World) :
  exists s,
    NewsDataConverter.generate_random_stats w = (Ok s, after_draws 4 w)
    /\ 100 <= st_view_count s <= 10000
    /\ st_view_count s / 100 <= st_like_count s <= st_view_count s / 10
    /\ 0 <= st_comment_count s <= st_view_count s / 20
    /\ 0 <= st_share_count s <= st_view_count s / 50.
Proof.
  unfold NewsDataConverter.generate_random_stats.
  destruct (randint_run 100 10000 w ltac:(lia)) as (v & Ev & Hv).
  destruct (share_of_quotients v Hv) as (E1 & E2 & E3 & E4).
  assert (H1 : v / 100 <= v / 10) by (Z.div_mod_to_equations; lia).
  assert (H2 : 0 <= v / 20) by (Z.div_mod_to_equations; lia).
  assert (H3 : 0 <= v / 50) by (Z.div_mod_to_equations; lia).
  destruct (randint_run (v / 100) (v / 10) (after_draws 1 w) H1) as (l & El & Hl).
  destruct (randint_run 0 (v / 20) (after_draws 1 (after_draws 1 w)) H2) as (c & Ec & Hc).
  destruct (randint_run 0 (v / 50) (after_draws 1 (after_draws 1 (after_draws 1 w))) H3)
    as (s & Es & Hs).
  exists (mkStats v l c s).
  unfold bind at 1. rewrite Ev.
  unfold bind at 1. rewrite E1. unfold lift at 1.
  unfold bind at 1. rewrite E2. unfold lift at 1.
  unfold bind at 1. rewrite El.
  unfold bind at 1. rewrite E3. unfold lift at 1.
  unfold bind at 1. rewrite Ec.
  unfold bind at 1. rewrite E4. unfold lift at 1.
  unfold bind at 1. rewrite Es.
  unfold ret. rewrite !after_draws_add. simpl. auto.
Qed.

(** ** The runs inside [convert_news_item] *)

Section ConvertRuns.
Context {rt : Runtime}.

Lemma v1_convert_runs (item : json) (w w' : World) (r : NormalizedRecord) :
  NewsConverter.convert_news_item item w = (Ok r, w') ->
  exists w1 w2 w3,
    NewsConverter.generate_random_stats w = (Ok (stats_of r), w1)
    /\ NewsConverter.parse_datetime (field_of item NewsConverter.key_time) w1
       = (Ok (published_at r), w2)
    /\ NewsConverter.generate_guid (field_of item NewsConverter.key_url)
         (field_of item NewsConverter.key_title) w2 = (Ok (guid r), w3)
    /\ choice NewsConverter.default_authors w3 = (Ok (author r), w')
    /\ created_by r = JNull /\ is_active r = true
    /\ source_type r = py "manual" /\ rss_source_id r = JNull
    /\ image_url r = JStr [] /\ language r = py "zh"
    /\ status r = py "published" /\ is_processed r = true.
Proof.
  unfold NewsConverter.convert_news_item. intros H.
  bind_step H. apply v1_get_inv in E as ((o & ->) & -> & <-).
  do 4 (bind_step H; apply v1_get_inv in E as (_ & -> & <-)).
  bind_open H as body wb Eb.
  assert (wb = w) as ->.
  { destruct (field_of (JObj o) NewsConverter.key_body) as [| | | |s| |];
      try (destruct (negb (truthy _)) in Eb; now apply raise_inv in Eb).
    destruct (negb (nonempty s) || str_eqb (strip s) []);
      [now apply raise_inv in Eb | now apply ret_inv in Eb as [_ <-]]. }
  bind_open H as head wh Eh.
  assert (wh = w) as ->.
  { destruct (field_of (JObj o) NewsConverter.key_title);
      try now apply raise_inv in Eh. now apply ret_inv in Eh as [_ <-]. }
  bind_open H as stats w1 Es.
  bind_open H as hot w1' Ehot. apply lift_inv in Ehot as [_ <-].
  bind_open H as pub w2 Ep.
  bind_open H as g w3 Eg.
  bind_open H as a w4 Ea.
  apply ret_inv in H as [<- <-].
  exists w1, w2, w3.
  cbn [stats_of view_count like_count comment_count share_count published_at guid author
       created_by is_active source_type rss_source_id image_url language status
       is_processed].
  destruct stats. repeat split; assumption.
Qed.

Lemma v2_convert_runs (item : json) (w w' : World) (r : NormalizedRecord) :
  NewsDataConverter.convert_news_item item w = (Ok r, w') ->
  exists w1 w2 w3 w4 w5,
    NewsDataConverter.generate_random_stats w = (Ok (stats_of r), w1)
    /\ NewsDataConverter.parse_datetime (field_of item NewsDataConverter.key_time) w1
       = (Ok (published_at r), w2)
    /\ NewsDataConverter.calculate_hotness_score (stats_of r) (published_at r) w2
       = (Ok (hotness_score r), w3)
    /\ (match NewsDataConverter.known_category (field_of item NewsDataConverter.key_keyword) with
        | Some k => ret k
        | None => choice NewsDataConverter.categories
        end) w3 = (Ok (category r), w4)
    /\ NewsDataConverter.generate_guid (field_of item NewsDataConverter.key_title)
         (field_of item NewsDataConverter.key_source) w4 = (Ok (guid r), w5)
    /\ NewsDataConverter.extract_tags (field_of item NewsDataConverter.key_keyword)
         (field_of item NewsDataConverter.key_keyword) w5 = (Ok (tags r), w')
    /\ created_by r = JNull /\ is_active r = true
    /\ source_type r = py "manual" /\ rss_source_id r = JNull
    /\ author r = [] /\ image_url r = field_of item NewsDataConverter.key_image
    /\ language r = py "zh"
    /\ status r = py "published" /\ is_processed r = true.
Proof.
  unfold NewsDataConverter.convert_news_item, NewsDataConverter.dict_get. intros H.
  bind_step H. apply v1_get_inv in E as ((o & ->) & -> & <-).
  do 7 (bind_step H; apply v1_get_inv in E as (_ & -> & <-)).
  bind_open H as stats w1 Est.
  bind_open H as pub w2 Epub.
  bind_open H as hot w3 Ehot.
  bind_open H as t1 wt1 Et. apply lift_inv in Et as [Et <-].
  bind_open H as t2 wt2 Eb. apply lift_inv in Eb as [Eb <-].
  bind_open H as t3 wt3 Es. apply lift_inv in Es as [Es <-].
  bind_open H as t4 wt4 Es'. apply lift_inv in Es' as [Es' <-].
  bind_open H as cat w4 Ecat.
  bind_open H as g w5 Eg.
  bind_open H as tg w6 Etg.
  apply ret_inv in H as [<- <-].
  exists w1, w2, w3, w4, w5.
  cbn [stats_of view_count like_count comment_count share_count published_at guid author
       created_by is_active source_type rss_source_id image_url language status
       is_processed hotness_score category tags].
  destruct stats. repeat split; assumption.
Qed.

End ConvertRuns.

Lemma run_deterministic {A} (m : M A) (w w1 w2 : World) (a b : A) :
  m w = (Ok a, w1) -> m w = (Ok b, w2) -> a = b /\ w1 = w2.
Proof. intros H1 H2. rewrite H1 in H2. now injection H2. Qed.

(** X1.  Variant 1's [generate_random_stats] never fails and uses four draws
    of the random generator: views lie in 100..10000, likes in 10..1000,
    comments in 5..500 and shares in 0..200; the four counts of every
    converted record lie in these ranges. *)
Theorem v1_counts_in_range (rt : Runtime) :
  (forall w, exists s,
      NewsConverter.generate_random_stats w = (Ok s, after_draws 4 w)
      /\ 100 <= st_view_count s <= 10000 /\ 10 <= st_like_count s <= 1000
      /\ 5 <= st_comment_count s <= 500 /\ 0 <= st_share_count s <= 200)
  /\ (forall item w r w',
      NewsConverter.convert_news_item item w = (Ok r, w') ->
      100 <= view_count r <= 10000 /\ 10 <= like_count r <= 1000
      /\ 5 <= comment_count r <= 500 /\ 0 <= share_count r <= 200).
Proof.
  split; [exact v1_random_stats_run|].
  intros item w r w' H.
  apply v1_convert_runs in H as (w1 & w2 & w3 & Hs & _).
  destruct (v1_random_stats_run w) as (s & Es & Hr).
  destruct (run_deterministic _ _ _ _ _ _ Hs Es) as [<- _]. exact Hr.
Qed.

Lemma v1_counts_in_range_witness :
  exists r,
    fst (NewsConverter.convert_news_item (rt := plain_runtime) sample_item sample_world)
    = Ok r
    /\ 100 <= view_count r <= 10000 /\ 10 <= like_count r <= 1000
    /\ 5 <= comment_count r <= 500 /\ 0 <= share_count r <= 200.
Proof.
  eexists. split; [vm_compute; reflexivity|].
  refine (proj2 (v1_counts_in_range plain_runtime) sample_item sample_world _ _
            (run_result _ _ _ _)).
  vm_compute. reflexivity.
Defined.

(** X2.  Variant 2's [generate_random_stats] never fails (none of its three
    dependent ranges is empty) and uses four draws: views lie in 100..10000,
    likes between a hundredth and a tenth of the views, comments at most a
    twentieth and shares at most a fiftieth of the views, each bound rounded
    down; the counts of every converted record satisfy the same bounds. *)
Theorem v2_counts_in_range (rt : Runtime) :
  (forall w, exists s,
      NewsDataConverter.generate_random_stats w = (Ok s, after_draws 4 w)
      /\ 100 <= st_view_count s <= 10000
      /\ st_view_count s / 100 <= st_like_count s <= st_view_count s / 10
      /\ 0 <= st_comment_count s <= st_view_count s / 20
      /\ 0 <= st_share_count s <= st_view_count s / 50)
  /\ (forall item w r w',
      NewsDataConverter.convert_news_item item w = (Ok r, w') ->
      100 <= view_count r <= 10000
      /\ view_count r / 100 <= like_count r <= view_count r / 10
      /\ 0 <= comment_count r <= view_count r / 20
      /\ 0 <= share_count r <= view_count r / 50).
Proof.
  split; [exact v2_random_stats_run|].
  intros item w r w' H.
  apply v2_convert_runs in H as (w1 & w2 & w3 & w4 & w5 & Hs & _).
  destruct (v2_random_stats_run w) as (s & Es & Hr).
  destruct (run_deterministic _ _ _ _ _ _ Hs Es) as [<- _]. exact Hr.
Qed.

Lemma v2_counts_in_range_witness :
  exists r,
    fst (NewsDataConverter.convert_news_item (rt := plain_runtime) keyword_item sample_world)
    = Ok r
    /\ 100 <= view_count r <= 10000
    /\ view_count r / 100 <= like_count r <= view_count r / 10
    /\ 0 <= comment_count r <= view_count r / 20
    /\ 0 <= share_count r <= view_count r / 50.
Proof.
  eexists. split; [vm_compute; reflexivity|].
  refine (proj2 (v2_counts_in_range plain_runtime) keyword_item sample_world _ _
            (run_result _ _ _ _)).
  vm_compute. reflexivity.
Defined.

(** ** [clean_text] *)

Section CleanText.
Import NewsDataConverter.

Lemma unify_newlines_cons (c : N) (r : pystr) :
  unify_newlines (c :: r)
  = if (c =? 13)%N then
      match r with
      | c' :: r' => if (c' =? 10)%N then 10%N :: unify_newlines r'
                    else 10%N :: unify_newlines r
      | [] => [10%N]
      end
    else c :: unify_newlines r.
Proof. reflexivity. Qed.

Lemma unify_newlines_spec (s : pystr) :
  (~ In 13%N (unify_newlines s) /\ (length (unify_newlines s) <= length s)%nat)
  /\ forall c, ~ In 13%N (unify_newlines (c :: s))
               /\ (length (unify_newlines (c :: s)) <= S (length s))%nat.
Proof.
  induction s as [|a s [IH1 IH2]].
  - split; [simpl; split; [tauto | lia]|].
    intros c. simpl. destruct (N.eqb_spec c 13); simpl; (split; [|lia]);
      intros [H|[]]; congruence.
  - split; [apply IH2|].
    intros c. rewrite (unify_newlines_cons c (a :: s)).
    destruct (N.eqb_spec c 13) as [->|Hc].
    + destruct (N.eqb_spec a 10) as [->|Ha].
      * destruct IH1 as [H1 H2]. cbn [length]. split; [|lia].
        intros [H|H]; [discriminate | tauto].
      * destruct (IH2 a) as [H1 H2]. cbn [length] in *. split; [|lia].
        intros [H|H]; [discriminate | tauto].
    + destruct (IH2 a) as [H1 H2]. cbn [length] in *. split; [|lia].
      intros [H|H]; [congruence | tauto].
Qed.

Lemma unify_newlines_id (s : pystr) : ~ In 13%N s -> unify_newlines s = s.
Proof.
  induction s as [|c r IH]; intros H; [reflexivity|].
  rewrite unify_newlines_cons.
  destruct (N.eqb_spec c 13) as [->|Hc]; [exfalso; apply H; now left|].
  f_equal. apply IH. intros Hr. apply H. now right.
Qed.

Lemma collapse_newlines_head (b : N) (s : pystr) :
  b <> 10%N -> collapse_newlines (b :: s) = b :: collapse_newlines s.
Proof.
  intros Hb. cbn [collapse_newlines].
  destruct (N.eqb_spec b 10); [congruence | reflexivity].
Qed.

Lemma collapse_newlines_normal (s : pystr) :
  no_blank_line (collapse_newlines s) = true.
Proof.
  induction s as [|a s IH]; [reflexivity|].
  destruct (N.eqb_spec a 10) as [->|Ha].
  - destruct s as [|b s']; [reflexivity|].
    destruct (N.eqb_spec b 10) as [->|Hb].
    + exact IH.
    + change (collapse_newlines (10%N :: b :: s'))
        with (if (b =? 10)%N then collapse_newlines (b :: s')
              else 10%N :: collapse_newlines (b :: s')).
      destruct (N.eqb_spec b 10) as [|_]; [congruence|].
      rewrite (collapse_newlines_head b s' Hb) in *.
      cbn [no_blank_line] in *. rewrite IH.
      destruct (N.eqb_spec b 10); [congruence | reflexivity].
  - rewrite (collapse_newlines_head a s Ha).
    cbn [no_blank_line]. rewrite IH.
    destruct (collapse_newlines s); [reflexivity|].
    destruct (N.eqb_spec a 10); [congruence | reflexivity].
Qed.

Lemma collapse_newlines_cons (c : N) (r : pystr) :
  collapse_newlines (c :: r)
  = if (c =? 10)%N then
      match r with
      | c' :: _ => if (c' =? 10)%N then collapse_newlines r
                   else 10%N :: collapse_newlines r
      | [] => [10%N]
      end
    else c :: collapse_newlines r.
Proof. reflexivity. Qed.

Lemma collapse_newlines_subset (s : pystr) :
  (forall c, In c (collapse_newlines s) -> In c s)
  /\ (length (collapse_newlines s) <= length s)%nat.
Proof.
  induction s as [|a s [IH1 IH2]]; [simpl; auto|].
  rewrite collapse_newlines_cons.
  destruct (N.eqb_spec a 10) as [->|Ha].
  - destruct s as [|b s'].
    + split; [intros c [<-|[]]; now left | simpl; lia].
    + destruct (b =? 10)%N.
      * split; [intros c Hc; right; now apply IH1 | cbn [length] in *; lia].
      * split; [intros c [<-|Hc]; [now left | right; now apply IH1]
               | cbn [length] in *; lia].
  - split; [intros c [<-|Hc]; [now left | right; now apply IH1] | cbn [length] in *; lia].
Qed.

Lemma collapse_newlines_id (s : pystr) : no_blank_line s = true -> collapse_newlines s = s.
Proof.
  induction s as [|c r IH]; intros H; [reflexivity|].
  cbn [no_blank_line] in H. apply andb_true_iff in H as [H1 H2].
  rewrite collapse_newlines_cons, (IH H2).
  destruct (N.eqb_spec c 10) as [->|Hc]; [|reflexivity].
  destruct r as [|b r']; [reflexivity|].
  destruct (N.eqb_spec b 10) as [->|Hb]; [discriminate | reflexivity].
Qed.

Lemma drop_while_split (p : N -> bool) (s : pystr) :
  exists pre, s = pre ++ drop_while p s.
Proof.
  induction s as [|c r [pre IH]]; [now exists []|].
  simpl. destruct (p c); [|now exists []].
  exists (c :: pre). simpl. now f_equal.
Qed.

Lemma drop_while_head (p : N -> bool) (s : pystr) (c : N) (r : pystr) :
  drop_while p s = c :: r -> p c = false.
Proof.
  induction s as [|a s IH]; simpl; [discriminate|].
  destruct (p a) eqn:E; [exact IH|].
  intros H. injection H as <- _. exact E.
Qed.

Lemma strip_split (s : pystr) : exists pre post, s = pre ++ strip s ++ post.
Proof.
  unfold strip, rstrip, lstrip.
  destruct (drop_while_split is_space s) as [pre E].
  destruct (drop_while_split is_space (rev (drop_while is_space s))) as [post E'].
  exists pre, (rev post).
  rewrite <- rev_app_distr, <- E', rev_involutive. exact E.
Qed.

Lemma no_blank_line_app (a b : pystr) :
  no_blank_line (a ++ b) = true -> no_blank_line a = true /\ no_blank_line b = true.
Proof.
  induction a as [|x a IH]; [simpl; auto|].
  change ((x :: a) ++ b) with (x :: (a ++ b)). cbn [no_blank_line].
  intros H. apply andb_true_iff in H as [H1 H2].
  destruct (IH H2) as [Ha Hb]. split; [|exact Hb].
  rewrite Ha, andb_true_r. destruct a as [|y a']; [reflexivity | exact H1].
Qed.

Lemma strip_edge (s : pystr) : edge_trimmed (strip s) = true.
Proof.
  unfold strip, rstrip, lstrip.
  set (u := drop_while is_space s).
  destruct (drop_while is_space (rev u)) as [|c r] eqn:E; [reflexivity|].
  pose proof (drop_while_head _ _ _ _ E) as Hc.
  destruct (drop_while_split is_space (rev u)) as [post E'].
  rewrite E in E'.
  assert (Hu : u = rev r ++ [c] ++ rev post).
  { rewrite <- (rev_involutive u), E', rev_app_distr. simpl.
    now rewrite <- app_assoc. }
  cbn [rev]. unfold edge_trimmed.
  destruct (rev r ++ [c]) as [|x t] eqn:Et; [reflexivity|].
  rewrite <- Et at 1. rewrite last_last, Hc.
  assert (Hx : is_space x = false).
  { apply (drop_while_head is_space s x (t ++ rev post)). fold u.
    rewrite Hu. change ([c] ++ rev post) with ([c] ++ rev post).
    rewrite app_assoc, Et. reflexivity. }
  now rewrite Hx.
Qed.

Lemma strip_fixed (t : pystr) : edge_trimmed t = true -> strip t = t.
Proof.
  destruct t as [|c r]; [reflexivity|].
  unfold edge_trimmed. intros H. apply andb_true_iff in H as [H1 H2].
  apply negb_true_iff in H1, H2.
  unfold strip, rstrip, lstrip.
  cbn [drop_while]. rewrite H1.
  destruct (exists_last (l := c :: r) ltac:(discriminate)) as (body & z & E).
  rewrite E in *. rewrite last_last in H2.
  rewrite rev_app_distr. cbn [rev app drop_while]. rewrite H2.
  change (z :: rev body) with (rev [z] ++ rev body).
  now rewrite <- rev_app_distr, rev_involutive.
Qed.

Lemma clean_text_fixed (t : pystr) :
  ~ In 13%N t -> no_blank_line t = true -> edge_trimmed t = true ->
  clean_text (JStr t) = Ok t.
Proof.
  intros H1 H2 H3. unfold clean_text. cbn [truthy].
  destruct t as [|c r]; [reflexivity|]. cbn [nonempty negb].
  now rewrite (unify_newlines_id _ H1), (collapse_newlines_id _ H2), (strip_fixed _ H3).
Qed.

Lemma clean_text_cleaned (s : pystr) :
  exists t,
    clean_text (JStr s) = Ok t
    /\ ~ In 13%N t /\ no_blank_line t = true /\ edge_trimmed t = true
    /\ (length t <= length s)%nat.
Proof.
  unfold clean_text. cbn [truthy].
  destruct (nonempty s) eqn:En; cbn [negb].
  - eexists. split; [reflexivity|].
    destruct (unify_newlines_spec s) as [[Hu Hl] _].
    destruct (collapse_newlines_subset (unify_newlines s)) as [Hc Hl'].
    pose proof (collapse_newlines_normal (unify_newlines s)) as Hn.
    destruct (strip_split (collapse_newlines (unify_newlines s))) as (pre & post & E).
    repeat split.
    + intros Hi. apply Hu, Hc. rewrite E. apply in_or_app. right.
      apply in_or_app. now left.
    + rewrite E in Hn. apply no_blank_line_app in Hn as [_ Hn].
      now apply no_blank_line_app in Hn as [Hn _].
    + apply strip_edge.
    + pose proof (strip_length (collapse_newlines (unify_newlines s))). lia.
  - exists []. repeat split; auto. simpl. lia.
Qed.

End CleanText.

(** X3.  [clean_text] succeeds on every text and its result holds no
    carriage return, no two line feeds in a row and no whitespace at either
    end; it is never longer than the input. *)
Theorem clean_text_normal_form (s : pystr) :
  exists t,
    NewsDataConverter.clean_text (JStr s) = Ok t
    /\ ~ In 13%N t /\ no_blank_line t = true /\ edge_trimmed t = true
    /\ (length t <= length s)%nat.
Proof. apply clean_text_cleaned. Qed.

(** X4.  [clean_text] is idempotent: cleaning a cleaned text changes
    nothing. *)
Theorem clean_text_idempotent (s : pystr) :
  exists t,
    NewsDataConverter.clean_text (JStr s) = Ok t
    /\ NewsDataConverter.clean_text (JStr t) = Ok t.
Proof.
  destruct (clean_text_cleaned s) as (t & E & H1 & H2 & H3 & _).
  exists t. split; [exact E|]. now apply clean_text_fixed.
Qed.

(** ** The hotness score of variant 2 *)

Lemma uniform_run (a b : float) (w : World) :
  exists x, NewsDataConverter.uniform a b w = (Ok x, after_draws 1 w).
Proof.
  unfold NewsDataConverter.uniform, NewsDataConverter.random_float, bind, randbelow, ret.
  eexists. reflexivity.
Qed.

Section Hotness2.
Import NewsDataConverter.

Lemma v2_hotness_total (stats : Stats) (published_at : pystr) (w : World) :
  exists x w', calculate_hotness_score stats published_at w = (Ok x, w').
Proof.
  unfold calculate_hotness_score, try_except.
  destruct (hotness_try stats published_at w) as [[x|e] w1]; [eauto|].
  unfold bind. destruct (uniform_run 10 1000 w1) as [x E]. rewrite E.
  unfold ret. eauto.
Qed.

Lemma v2_hotness_fallback (stats : Stats) (published_at : pystr) (w : World) (e : exn) :
  strptime canonical_format published_at = Raise e ->
  calculate_hotness_score stats published_at w
  = (x <- uniform 10 1000 ;; ret (py_round x 2)) w.
Proof.
  intros H. unfold calculate_hotness_score, try_except, hotness_try.
  unfold bind at 1. unfold lift at 1. rewrite H. reflexivity.
Qed.

End Hotness2.

(** X5.  Variant 2's [calculate_hotness_score] never raises.  When
    [published_at] is not a timestamp that [strptime] accepts, the score is
    [round(random.uniform(10.0, 1000.0), 2)], taken from one draw of the
    random generator, and does not depend on the engagement counts. *)
Theorem v2_hotness_never_raises (published_at : pystr) (w : World) :
  (forall stats, exists x w',
      NewsDataConverter.calculate_hotness_score stats published_at w = (Ok x, w'))
  /\ (forall e, strptime NewsDataConverter.canonical_format published_at = Raise e ->
      exists x,
        (forall stats,
            NewsDataConverter.calculate_hotness_score stats published_at w
            = (Ok x, after_draws 1 w))
        /\ exists u, NewsDataConverter.uniform 10 1000 w = (Ok u, after_draws 1 w)
                     /\ x = py_round u 2).
Proof.
  split; [intros stats; apply v2_hotness_total|].
  intros e H.
  destruct (uniform_run 10 1000 w) as [u E].
  exists (py_round u 2). split; [|eauto].
  intros stats. rewrite (v2_hotness_fallback stats published_at w e H).
  unfold bind. rewrite E. reflexivity.
Qed.

Lemma v2_hotness_never_raises_witness :
  strptime NewsDataConverter.canonical_format (py "2025/07/01")
  = Raise (ValueError (py "time data does not match format"))
  /\ exists x,
      (forall stats,
          NewsDataConverter.calculate_hotness_score stats (py "2025/07/01") sample_world
          = (Ok x, after_draws 1 sample_world))
      /\ exists u, NewsDataConverter.uniform 10 1000 sample_world
                   = (Ok u, after_draws 1 sample_world)
                   /\ x = py_round u 2.
Proof.
  split; [vm_compute; reflexivity|].
  refine (proj2 (v2_hotness_never_raises (py "2025/07/01") sample_world) _ _).
  vm_compute. reflexivity.
Defined.

(** ** The classifier: the first best score wins *)

Section TopScore.
Import NewsConverter.

Lemma max_by_score_first (l : list (pystr * Z)) :
  forall x, exists pre post,
    x :: l = pre ++ max_by_score x l :: post
    /\ (forall y, In y pre -> snd y < snd (max_by_score x l))
    /\ (forall y, In y post -> snd y <= snd (max_by_score x l)).
Proof.
  induction l as [|z l IH]; intros x.
  - exists [], []. simpl. repeat split; auto; intros y [].
  - cbn [max_by_score].
    destruct (Z.ltb_spec (snd x) (snd z)) as [Hlt|Hge].
    + destruct (IH z) as (pre & post & E & Hpre & Hpost).
      exists (x :: pre), post. repeat split.
      * simpl. f_equal. exact E.
      * intros y [<-|Hy]; [|now apply Hpre].
        pose proof (max_by_score_max z l z (or_introl eq_refl)). lia.
      * exact Hpost.
    + destruct (IH x) as (pre & post & E & Hpre & Hpost).
      destruct pre as [|x' pre2].
      * simpl in E. injection E as Ex El.
        exists [], (z :: l). repeat split.
        -- simpl. now rewrite <- Ex.
        -- intros y [].
        -- intros y [<-|Hy]; [rewrite <- Ex; lia|].
           apply (max_by_score_max x l y). now right.
      * simpl in E. injection E as <- El.
        exists (x :: z :: pre2), post. repeat split.
        -- simpl. do 2 f_equal. exact El.
        -- intros y [<-|[<-|Hy]].
           ++ apply Hpre. now left.
           ++ pose proof (Hpre x (or_introl eq_refl)). lia.
           ++ apply Hpre. now right.
        -- exact Hpost.
Qed.

Lemma filter_split {A} (p : A -> bool) (l : list A) :
  forall a m b, filter p l = a ++ m :: b ->
    exists l1 l2, l = l1 ++ m :: l2 /\ filter p l1 = a /\ filter p l2 = b.
Proof.
  induction l as [|x l IH]; intros a m b H.
  - destruct a; discriminate.
  - simpl in H. destruct (p x) eqn:Ex.
    + destruct a as [|y a].
      * simpl in H. injection H as -> Hb.
        exists [], l. now repeat split.
      * simpl in H. injection H as -> H.
        destruct (IH a m b H) as (l1 & l2 & -> & E1 & E2).
        exists (y :: l1), l2. repeat split; auto. simpl. now rewrite Ex, E1.
    + destruct (IH a m b H) as (l1 & l2 & -> & E1 & E2).
      exists (x :: l1), l2. repeat split; auto. simpl. now rewrite Ex.
Qed.

Lemma count_from_nonneg (sub : pystr) (s : pystr) :
  forall skip, 0 <= count_from sub skip s.
Proof.
  induction s as [|c r IH]; intros skip; cbn [count_from]; [lia|].
  destruct skip; [|apply IH].
  destruct (starts_with sub (c :: r)); [|apply IH].
  pose proof (IH (length sub - 1)%nat). lia.
Qed.

Lemma count_nonneg (s sub : pystr) : 0 <= count s sub.
Proof.
  unfold count. destruct sub; [pose proof (len_nonneg s); lia | apply count_from_nonneg].
Qed.

Lemma keyword_score_nonneg (text : pystr) (keywords : list pystr) :
  0 <= keyword_score text keywords.
Proof.
  unfold keyword_score.
  assert (G : forall acc, 0 <= acc ->
            0 <= fold_left (fun score keyword => score + count text keyword) keywords acc).
  { induction keywords as [|k r IH]; intros acc Ha; simpl; [exact Ha|].
    apply IH. pose proof (count_nonneg text k). lia. }
  apply G. lia.
Qed.

Lemma top_score (title content : pystr) :
  exists pre kws post,
    keyword_category_map
    = pre ++ (analyze_category_with_ai title content, kws) :: post
    /\ (forall c k, In (c, k) keyword_category_map ->
        keyword_score (title ++ py " " ++ slice_to content 500) k
        <= keyword_score (title ++ py " " ++ slice_to content 500) kws)
    /\ (0 < keyword_score (title ++ py " " ++ slice_to content 500) kws ->
        forall c k, In (c, k) pre ->
          keyword_score (title ++ py " " ++ slice_to content 500) k
          < keyword_score (title ++ py " " ++ slice_to content 500) kws).
Proof.
  unfold analyze_category_with_ai.
  set (text := title ++ py " " ++ slice_to content 500).
  set (g := fun ck : pystr * list pystr => (fst ck, keyword_score text (snd ck))).
  assert (Hall : forall c k, In (c, k) keyword_category_map ->
            ~ In (c, keyword_score text k) (category_scores text) ->
            keyword_score text k <= 0).
  { intros c k Hin Hn. destruct (Z.ltb_spec 0 (keyword_score text k)) as [Hp|]; [|assumption].
    exfalso. apply Hn. unfold category_scores. apply filter_In. split.
    - apply (in_map g keyword_category_map (c, k) Hin).
    - simpl. now apply Z.ltb_lt. }
  destruct (category_scores text) as [|x l] eqn:E.
  - (* no positive score: the default, whose own score is zero *)
    assert (Hz : forall c k, In (c, k) keyword_category_map -> keyword_score text k = 0).
    { intros c k Hin. pose proof (Hall c k Hin (fun f => f)).
      pose proof (keyword_score_nonneg text k). lia. }
    set (kws := snd (nth 3 keyword_category_map ([], []))).
    assert (Hin0 : In (default_category, kws) keyword_category_map)
      by (do 3 right; left; reflexivity).
    exists (firstn 3 keyword_category_map), kws, (skipn 4 keyword_category_map).
    split; [reflexivity|]. split.
    + intros c k Hin. rewrite (Hz c k Hin), (Hz _ _ Hin0). lia.
    + intros Hp. rewrite (Hz _ _ Hin0) in Hp. lia.
  - destruct (max_by_score_first l x) as (a & b & Hs & Ha & Hb).
    rewrite <- E in Hs. unfold category_scores in Hs.
    apply filter_split in Hs as (l1 & l2 & Hm & F1 & F2).
    apply map_eq_app in Hm as (t1 & t2' & Ht & M1 & M2).
    apply map_eq_cons in M2 as (ck & t2 & -> & Hck & M2).
    destruct ck as [c0 kws]. unfold g in Hck. simpl in Hck.
    assert (Hpos : 0 < snd (max_by_score x l)).
    { pose proof (max_by_score_In x l) as Hi. rewrite <- E in Hi.
      destruct (max_by_score x l) as [cm nm].
      now apply category_scores_keys in Hi as [_ Hi]. }
    rewrite <- Hck in *. cbn [fst snd] in *.
    exists t1, kws, t2. split; [exact Ht|]. split.
    + intros c k Hin.
      destruct (Z.ltb_spec 0 (keyword_score text k)) as [Hp|Hn]; [|lia].
      assert (Hi : In (c, keyword_score text k) (x :: l)).
      { rewrite <- E. unfold category_scores. apply filter_In. split.
        - apply (in_map g keyword_category_map (c, k) Hin).
        - simpl. now apply Z.ltb_lt. }
      pose proof (max_by_score_max x l _ Hi) as Hle. rewrite <- Hck in Hle. exact Hle.
    + intros _ c k Hin.
      destruct (Z.ltb_spec 0 (keyword_score text k)) as [Hp|Hn]; [|lia].
      assert (Hi : In (c, keyword_score text k) a).
      { rewrite <- F1, <- M1. apply filter_In. split.
        - apply (in_map g t1 (c, k) Hin).
        - simpl. now apply Z.ltb_lt. }
      exact (Ha _ Hi).
Qed.

End TopScore.

Lemma table_keys_distinct : NoDup (map fst NewsConverter.keyword_category_map).
Proof.
  assert (H : forall (l : list pystr),
             (fix distinct (l : list pystr) : bool :=
                match l with
                | [] => true
                | x :: r => negb (mem_str x r) && distinct r
                end) l = true -> NoDup l).
  { induction l as [|x r IH]; intros H; constructor.
    - apply andb_true_iff in H as [H _]. apply negb_true_iff in H.
      intros Hin. apply mem_str_In in Hin. congruence.
    - apply IH. now apply andb_true_iff in H as [_ H]. }
  apply H. vm_compute. reflexivity.
Qed.

(** X6.  [analyze_category_with_ai] returns a category whose keywords occur
    at least as often as those of any other category in the title, a space and
    the first 500 characters of the body; when some keyword occurs, every
    category that stands earlier in the keyword table scores strictly lower,
    so of several categories with the best score the first in the table is
    returned. *)
Theorem category_has_top_score (title content c : pystr) (kws k : list pystr) (i j : nat) :
  nth_error NewsConverter.keyword_category_map i
  = Some (NewsConverter.analyze_category_with_ai title content, kws) ->
  nth_error NewsConverter.keyword_category_map j = Some (c, k) ->
  NewsConverter.keyword_score (title ++ py " " ++ slice_to content 500) k
  <= NewsConverter.keyword_score (title ++ py " " ++ slice_to content 500) kws
  /\ (0 < NewsConverter.keyword_score (title ++ py " " ++ slice_to content 500) kws ->
      (j < i)%nat ->
      NewsConverter.keyword_score (title ++ py " " ++ slice_to content 500) k
      < NewsConverter.keyword_score (title ++ py " " ++ slice_to content 500) kws).
Proof.
  intros Hi Hj.
  destruct (top_score title content) as (pre & kws' & post & E & Hmax & Hfirst).
  assert (Hi' : nth_error NewsConverter.keyword_category_map (length pre)
                = Some (NewsConverter.analyze_category_with_ai title content, kws')).
  { rewrite E, nth_error_app2, Nat.sub_diag by lia. reflexivity. }
  assert (Hlen : i = length pre).
  { pose proof table_keys_distinct as Hd.
    rewrite NoDup_nth_error in Hd. apply Hd.
    - rewrite length_map. apply nth_error_Some. congruence.
    - rewrite !nth_error_map, Hi, Hi'. reflexivity. }
  subst i. rewrite Hi' in Hi. injection Hi as <-.
  split.
  - apply (Hmax c). eapply nth_error_In. exact Hj.
  - intros Hp Hlt. apply (Hfirst Hp c).
    rewrite E, nth_error_app1 in Hj by exact Hlt.
    eapply nth_error_In. exact Hj.
Qed.

Lemma category_has_top_score_witness :
  NewsConverter.analyze_category_with_ai (py "股市大涨 经济回暖") (py "银行板块涨幅居前。")
  = py "经济"
  /\ NewsConverter.keyword_score
       (py "股市大涨 经济回暖" ++ py " " ++ slice_to (py "银行板块涨幅居前。") 500)
       (map py ["政治"; "政府"; "政策"; "领导"; "党"; "国家"; "外交"; "会议"; "决策";
                "治理"]%string)
     < NewsConverter.keyword_score
         (py "股市大涨 经济回暖" ++ py " " ++ slice_to (py "银行板块涨幅居前。") 500)
         (map py ["经济"; "股市"; "股指"; "金融"; "投资"; "贸易"; "GDP"; "通胀"; "银行";
                  "企业"; "上市"; "板块"; "涨幅"; "交易"]%string).
Proof.
  split; [vm_compute; reflexivity|].
  refine (proj2 (category_has_top_score (py "股市大涨 经济回暖") (py "银行板块涨幅居前。")
                   (py "政治") _ _ 1%nat 0%nat _ _) _ _).
  - vm_compute. reflexivity.
  - vm_compute. reflexivity.
  - vm_compute. reflexivity.
  - apply Nat.lt_0_1.
Defined.

(** ** The summary: its shape, the fallback, idempotence *)

Section SummaryShape.
Import NewsConverter.

Lemma loop_taken (max_length : Z) (sentences : list pystr) :
  forall summary,
    summary_loop max_length summary sentences
    = summary ++ flat_map closed (taken max_length summary sentences).
Proof.
  induction sentences as [|s rest IH]; intros summary; cbn [summary_loop taken].
  - simpl. now rewrite app_nil_r.
  - destruct ((len (summary ++ s) <=? max_length) && nonempty (strip s)).
    + rewrite IH. cbn [flat_map]. unfold closed at 2. now rewrite <- !app_assoc.
    + simpl. now rewrite app_nil_r.
Qed.

Lemma taken_replay (max_length : Z) (sentences tl : list pystr) :
  forall summary,
    summary_loop max_length summary (taken max_length summary sentences ++ [] :: tl)
    = summary_loop max_length summary sentences.
Proof.
  induction sentences as [|s rest IH]; intros summary; cbn [taken].
  - cbn [app summary_loop]. change (strip []) with (@nil N). cbn [nonempty].
    now rewrite andb_false_r.
  - destruct ((len (summary ++ s) <=? max_length) && nonempty (strip s)) eqn:E.
    + cbn [app summary_loop]. rewrite E. apply IH.
    + cbn [app summary_loop]. change (strip []) with (@nil N). cbn [nonempty].
      now rewrite andb_false_r, E.
Qed.

Lemma taken_prefix (max_length : Z) (sentences : list pystr) :
  forall summary, exists rest, sentences = taken max_length summary sentences ++ rest.
Proof.
  induction sentences as [|s tl IH]; intros summary; cbn [taken]; [now exists []|].
  destruct ((len (summary ++ s) <=? max_length) && nonempty (strip s)).
  - destruct (IH (summary ++ s ++ [full_stop])) as [rest E].
    exists rest. simpl. now f_equal.
  - now exists (s :: tl).
Qed.

Lemma taken_nonempty (max_length : Z) (sentences : list pystr) :
  forall summary s, In s (taken max_length summary sentences) -> s <> [].
Proof.
  induction sentences as [|x tl IH]; intros summary s; cbn [taken]; [intros []|].
  destruct ((len (summary ++ x) <=? max_length) && nonempty (strip x)) eqn:E; [|intros []].
  intros [<-|H]; [|now apply (IH _ _ H)].
  apply andb_true_iff in E as [_ E]. intros ->. discriminate.
Qed.

Lemma split_cons_plain (c : N) (r : pystr) :
  is_terminal c = false ->
  re_split_terminals (c :: r)
  = (c :: hd [] (re_split_terminals r)) :: tl (re_split_terminals r).
Proof.
  intros H. cbn [re_split_terminals]. rewrite H.
  destruct (re_split_terminals r) eqn:E; [|reflexivity].
  destruct r; simpl in E; [discriminate|].
  destruct (is_terminal n); [discriminate|].
  destruct (re_split_terminals r); discriminate.
Qed.

Lemma split_nonempty (s : pystr) : re_split_terminals s <> [].
Proof.
  destruct s as [|c r]; simpl; [discriminate|].
  destruct (is_terminal c); [discriminate|].
  destruct (re_split_terminals r); discriminate.
Qed.

Lemma split_sentence_then (x : pystr) (t : N) (r : pystr) :
  (forall c, In c x -> is_terminal c = false) -> is_terminal t = true ->
  re_split_terminals (x ++ t :: r) = x :: re_split_terminals r.
Proof.
  induction x as [|c x IH]; intros Hx Ht.
  - cbn [app re_split_terminals]. now rewrite Ht.
  - change ((c :: x) ++ t :: r) with (c :: (x ++ t :: r)).
    rewrite split_cons_plain by (apply Hx; now left).
    rewrite IH by (auto; intros d Hd; apply Hx; now right). reflexivity.
Qed.

(** The sentences hold no terminal mark, and only characters of the text. *)
Lemma split_sentences_plain (s : pystr) :
  forall x, In x (re_split_terminals s) ->
    forall c, In c x -> is_terminal c = false /\ In c s.
Proof.
  induction s as [|a s IH]; intros x Hx c Hc.
  - simpl in Hx. destruct Hx as [<-|[]]. destruct Hc.
  - destruct (is_terminal a) eqn:Ea.
    + cbn [re_split_terminals] in Hx. rewrite Ea in Hx.
      destruct Hx as [<-|Hx]; [destruct Hc|].
      destruct (IH x Hx c Hc). split; [assumption | now right].
    + rewrite (split_cons_plain a s Ea) in Hx.
      pose proof (split_nonempty s) as Hn.
      destruct (re_split_terminals s) as [|h t] eqn:E; [congruence|].
      cbn [hd tl] in Hx. destruct Hx as [<-|Hx].
      * destruct Hc as [<-|Hc]; [split; [assumption | now left]|].
        destruct (IH h (or_introl eq_refl) c Hc). split; [assumption | now right].
      * destruct (IH x (or_intror Hx) c Hc). split; [assumption | now right].
Qed.

Lemma split_closed (ts : list pystr) :
  (forall x, In x ts -> forall c, In c x -> is_terminal c = false) ->
  re_split_terminals (flat_map closed ts) = ts ++ [[]].
Proof.
  induction ts as [|x ts IH]; intros H; [reflexivity|].
  cbn [flat_map]. unfold closed at 1. rewrite <- app_assoc. cbn [app].
  rewrite split_sentence_then.
  - rewrite IH by (intros y Hy; apply H; now right). reflexivity.
  - apply H. now left.
  - reflexivity.
Qed.

Lemma close_at_none (s : pystr) : ~ In close_bracket s -> close_at s = None.
Proof.
  induction s as [|c r IH]; intros H; [reflexivity|].
  cbn [close_at].
  destruct (N.eqb_spec c close_bracket) as [->|_]; [exfalso; apply H; now left|].
  destruct (c =? 10)%N; [reflexivity|].
  rewrite IH; [reflexivity|]. intros Hr. apply H. now right.
Qed.

Lemma close_at_found (s : pystr) :
  (forall c, In c s -> c <> 10%N) -> close_at s = None -> ~ In close_bracket s.
Proof.
  induction s as [|c r IH]; intros Hn H; [intros []|].
  cbn [close_at] in H.
  destruct (N.eqb_spec c close_bracket) as [->|Hc]; [discriminate|].
  destruct (N.eqb_spec c 10) as [->|_]; [exfalso; apply (Hn 10%N); [now left | reflexivity]|].
  destruct (close_at r) eqn:E; [discriminate|].
  intros [->|Hr]; [congruence|].
  apply IH; auto. intros d Hd. apply Hn. now right.
Qed.

Lemma existsb_close (s : pystr) :
  existsb (N.eqb close_bracket) s = false <-> ~ In close_bracket s.
Proof.
  split.
  - intros H Hin.
    assert (existsb (N.eqb close_bracket) s = true)
      by (apply existsb_exists; exists close_bracket; split; [assumption | apply N.eqb_refl]).
    congruence.
  - intros H. destruct (existsb (N.eqb close_bracket) s) eqn:E; [|reflexivity].
    apply existsb_exists in E as (x & Hx & Ex). apply N.eqb_eq in Ex. subst x. contradiction.
Qed.

Lemma sub_brackets_fixed (s : pystr) : note_free s = true -> sub_brackets 0 s = s.
Proof.
  induction s as [|c r IH]; intros H; [reflexivity|].
  cbn [note_free] in H. apply andb_true_iff in H as [H1 H2].
  cbn [sub_brackets]. rewrite (IH H2).
  destruct (N.eqb_spec c open_bracket) as [->|_]; [|reflexivity].
  cbn [andb] in H1. apply negb_true_iff in H1.
  apply existsb_close in H1. now rewrite (close_at_none r H1).
Qed.

Lemma sub_brackets_note_free (s : pystr) :
  (forall c, In c s -> c <> 10%N) ->
  forall skip, note_free (sub_brackets skip s) = true.
Proof.
  induction s as [|c r IH]; intros Hn skip; [destruct skip; reflexivity|].
  assert (Hr : forall d, In d r -> d <> 10%N) by (intros d Hd; apply Hn; now right).
  cbn [sub_brackets]. destruct skip as [|k]; [|now apply IH].
  destruct (N.eqb_spec c open_bracket) as [->|Hc].
  - destruct (close_at r) as [k|] eqn:E; [now apply IH|].
    cbn [note_free]. rewrite (IH Hr 0%nat), andb_true_r.
    apply negb_true_iff. apply andb_false_iff. right.
    apply existsb_close. intros Hin.
    apply sub_brackets_subset in Hin. now apply (close_at_found r Hr E).
  - cbn [note_free]. rewrite (IH Hr 0%nat), andb_true_r.
    destruct (N.eqb_spec c open_bracket); [congruence | reflexivity].
Qed.

Lemma note_free_app (a b : pystr) : note_free (a ++ b) = true -> note_free a = true.
Proof.
  induction a as [|c a IH]; [reflexivity|].
  change ((c :: a) ++ b) with (c :: (a ++ b)). cbn [note_free].
  intros H. apply andb_true_iff in H as [H1 H2].
  rewrite (IH H2), andb_true_r.
  destruct (c =? open_bracket)%N; [|reflexivity].
  cbn [andb] in *. apply negb_true_iff in H1. apply negb_true_iff.
  rewrite existsb_app in H1. now apply orb_false_iff in H1 as [H1 _].
Qed.

Lemma note_free_snoc (s : pystr) (x : N) :
  x <> close_bracket -> x <> open_bracket ->
  note_free s = true -> note_free (s ++ [x]) = true.
Proof.
  intros Hx Hx'. induction s as [|c s IH]; intros H.
  - simpl. destruct (N.eqb_spec x open_bracket); [congruence | reflexivity].
  - change ((c :: s) ++ [x]) with (c :: (s ++ [x])). cbn [note_free] in *.
    apply andb_true_iff in H as [H1 H2]. rewrite (IH H2), andb_true_r.
    destruct (c =? open_bracket)%N; [|reflexivity].
    cbn [andb] in *. apply negb_true_iff in H1. apply negb_true_iff.
    rewrite existsb_app, H1. cbn [existsb orb].
    destruct (N.eqb_spec close_bracket x); [congruence | reflexivity].
Qed.

Lemma as_full_stop_brackets (c : N) :
  ((as_full_stop c =? open_bracket) = (c =? open_bracket))%N
  /\ ((close_bracket =? as_full_stop c) = (close_bracket =? c))%N.
Proof.
  unfold as_full_stop. destruct (is_terminal c) eqn:E; [|auto].
  destruct (terminal_plain c E) as (_ & Ho & Hc).
  destruct (N.eqb_spec c open_bracket); [congruence|].
  destruct (N.eqb_spec close_bracket c); [congruence|].
  split; reflexivity.
Qed.

Lemma note_free_map (s : pystr) :
  note_free s = true -> note_free (map as_full_stop s) = true.
Proof.
  induction s as [|c s IH]; [reflexivity|].
  cbn [map note_free]. intros H. apply andb_true_iff in H as [H1 H2].
  rewrite (IH H2), andb_true_r.
  destruct (as_full_stop_brackets c) as [-> _].
  destruct (c =? open_bracket)%N; [|reflexivity].
  cbn [andb] in *. rewrite <- H1. f_equal.
  clear. induction s as [|d s IH]; [reflexivity|].
  cbn [map existsb]. destruct (as_full_stop_brackets d) as [_ ->]. now rewrite IH.
Qed.

Lemma closed_sentences (s : pystr) :
  flat_map closed (re_split_terminals s) = map as_full_stop s ++ [full_stop].
Proof.
  induction s as [|c r IH]; [reflexivity|].
  destruct (is_terminal c) eqn:E.
  - cbn [re_split_terminals map]. rewrite E. unfold as_full_stop at 1. rewrite E.
    cbn [flat_map]. rewrite IH. reflexivity.
  - rewrite (split_cons_plain c r E). cbn [map]. unfold as_full_stop at 1. rewrite E.
    pose proof (split_nonempty r) as Hn.
    destruct (re_split_terminals r) as [|h t]; [congruence|].
    cbn [hd tl flat_map] in *. unfold closed at 1. cbn [app].
    rewrite <- IH. reflexivity.
Qed.

Lemma filter_all {A} (p : A -> bool) (l : list A) :
  (forall x, In x l -> p x = true) -> filter p l = l.
Proof.
  induction l as [|x l IH]; intros H; [reflexivity|].
  simpl. rewrite (H x (or_introl eq_refl)). f_equal. apply IH.
  intros y Hy. apply H. now right.
Qed.

(** What the loop leaves when it has taken the sentences [ts] of a cleaned
    body: text without whitespace or removable note, on which cleaning,
    splitting and the loop give the same text again. *)
Lemma summary_replay (content : pystr) (max_length : Z) :
  let sentences := re_split_terminals (re_sub_brackets (re_sub_spaces content)) in
  let summary := summary_loop max_length [] sentences in
  (forall c, In c summary -> is_space c = false
                             /\ (is_terminal c = true -> c = full_stop)
                             /\ (c = full_stop \/ In c content))
  /\ re_sub_brackets (re_sub_spaces summary) = summary
  /\ summary_loop max_length [] (re_split_terminals summary) = summary.
Proof.
  intros sentences summary.
  set (X := re_sub_brackets (re_sub_spaces content)) in *.
  set (ts := taken max_length [] sentences).
  assert (Hs : summary = flat_map closed ts) by apply loop_taken.
  destruct (taken_prefix max_length sentences []) as [rest Hrest]. fold ts in Hrest.
  assert (Hts : forall x, In x ts -> forall c, In c x ->
            is_terminal c = false /\ In c content /\ is_space c = false).
  { intros x Hx c Hc.
    destruct (split_sentences_plain X x) with (c := c) as [H1 H2]; auto.
    - fold sentences. rewrite Hrest. apply in_or_app. now left.
    - apply clean_subset in H2 as [H2 H3]. auto. }
  assert (Hchars : forall c, In c summary ->
            is_space c = false /\ (is_terminal c = true -> c = full_stop)
            /\ (c = full_stop \/ In c content)).
  { intros c Hc. rewrite Hs in Hc. apply in_flat_map in Hc as (x & Hx & Hc).
    unfold closed in Hc. apply in_app_or in Hc as [Hc|[<-|[]]].
    - destruct (Hts x Hx c Hc) as (H1 & H2 & H3).
      repeat split; auto. intros H. congruence.
    - repeat split; auto. }
  split; [exact Hchars|].
  assert (Hclean : re_sub_brackets (re_sub_spaces summary) = summary).
  { unfold re_sub_spaces. rewrite filter_all.
    2:{ intros c Hc. destruct (Hchars c Hc) as [H _]. now rewrite H. }
    apply sub_brackets_fixed.
    apply (note_free_app summary (flat_map closed rest)).
    rewrite Hs, <- flat_map_app, <- Hrest. unfold sentences.
    rewrite closed_sentences.
    apply note_free_snoc; [discriminate | discriminate |].
    apply note_free_map. unfold X, re_sub_brackets.
    apply sub_brackets_note_free.
    intros c Hc Ec. subst c. unfold re_sub_spaces in Hc.
    apply filter_In in Hc as [_ Hc]. discriminate. }
  split; [exact Hclean|].
  rewrite Hs at 1. rewrite split_closed by (intros x Hx c Hc; now apply (Hts x Hx c Hc)).
  unfold ts. apply (taken_replay max_length sentences []).
Qed.

End SummaryShape.

Section SummaryCases.
Import NewsConverter.

Lemma first_sentence_split (content : pystr) :
  exists t,
    re_split_terminals (re_sub_brackets (re_sub_spaces content))
    = first_sentence content :: t
    /\ strip (first_sentence content) = first_sentence content.
Proof.
  unfold first_sentence.
  pose proof (split_nonempty (re_sub_brackets (re_sub_spaces content))) as Hn.
  pose proof (split_sentences_plain (re_sub_brackets (re_sub_spaces content))) as Hp.
  destruct (re_split_terminals _) as [|h t]; [congruence|].
  exists t. split; [reflexivity|]. cbn [hd].
  apply strip_id. intros c Hc.
  destruct (Hp h (or_introl eq_refl) c Hc) as [_ H].
  now apply clean_subset in H as [_ H].
Qed.

Lemma summary_built (content : pystr) (max_length : Z) :
  first_sentence content <> [] -> len (first_sentence content) <= max_length ->
  let summary :=
    summary_loop max_length []
      (re_split_terminals (re_sub_brackets (re_sub_spaces content))) in
  generate_summary content max_length = summary
  /\ (exists rest, summary = first_sentence content ++ [full_stop] ++ rest)
  /\ (exists body, summary = body ++ [full_stop]).
Proof.
  intros Hne Hlen summary.
  destruct (first_sentence_split content) as (t & E & Hstrip).
  assert (Hcond : (len ([] ++ first_sentence content) <=? max_length)
                  && nonempty (strip (first_sentence content)) = true).
  { rewrite Hstrip. cbn [app]. apply andb_true_iff. split.
    - now apply Z.leb_le.
    - now apply nonempty_true. }
  assert (Hs : summary
               = (first_sentence content ++ [full_stop])
                 ++ flat_map closed
                      (taken max_length ([] ++ first_sentence content ++ [full_stop]) t)).
  { unfold summary. rewrite E. cbn [summary_loop]. rewrite Hcond.
    rewrite loop_taken. reflexivity. }
  assert (Hend : exists body, summary = body ++ [full_stop]).
  { rewrite Hs.
    destruct (taken max_length ([] ++ first_sentence content ++ [full_stop]) t)
      as [|x l] eqn:Et.
    - exists (first_sentence content). simpl. now rewrite app_nil_r.
    - destruct (exists_last (l := x :: l) ltac:(discriminate)) as (l' & z & ->).
      exists ((first_sentence content ++ [full_stop]) ++ flat_map closed l' ++ z).
      rewrite flat_map_app. cbn [flat_map]. unfold closed at 2.
      now rewrite app_nil_r, <- !app_assoc. }
  split; [|split; [|exact Hend]].
  - unfold generate_summary. fold summary.
    destruct Hend as [body Hb].
    assert (Hn : nonempty summary = true)
      by (rewrite Hb; destruct body; reflexivity).
    rewrite Hn. apply strip_id. intros c Hc.
    now destruct (proj1 (summary_replay content max_length) c Hc) as [H _].
  - eexists. rewrite Hs, <- app_assoc. reflexivity.
Qed.

End SummaryCases.

(** X7.  When the first sentence of the cleaned body is not empty and fits
    the budget, [generate_summary] returns that sentence, "。", and possibly
    further sentences: the summary ends in "。", holds no whitespace and no
    terminal mark other than "。", is made of characters of the body and of
    "。", and is at most one character longer than the budget. *)
Theorem summary_of_sentences (content : pystr) (max_length : Z) :
  first_sentence content <> [] ->
  len (first_sentence content) <= max_length ->
  (exists rest,
      NewsConverter.generate_summary content max_length
      = first_sentence content ++ [NewsConverter.full_stop] ++ rest)
  /\ (exists body,
      NewsConverter.generate_summary content max_length
      = body ++ [NewsConverter.full_stop])
  /\ (forall c, In c (NewsConverter.generate_summary content max_length) ->
      is_space c = false
      /\ (NewsConverter.is_terminal c = true -> c = NewsConverter.full_stop)
      /\ (c = NewsConverter.full_stop \/ In c content))
  /\ len (NewsConverter.generate_summary content max_length) <= max_length + 1.
Proof.
  intros Hne Hlen.
  destruct (summary_built content max_length Hne Hlen) as (E & Hfirst & Hend).
  rewrite E. split; [exact Hfirst|]. split; [exact Hend|]. split.
  - apply (proj1 (summary_replay content max_length)).
  - rewrite <- E.
    assert (H0 : 0 <= max_length) by (pose proof (len_nonneg (first_sentence content)); lia).
    apply (generate_summary_length content max_length H0).
    destruct Hend as [body ->]. destruct body; discriminate.
Qed.

Lemma summary_of_sentences_witness :
  first_sentence (py "今日股市全面上涨。 投资者情绪高涨！【编辑：张三】银行板块涨幅居前。")
  = py "今日股市全面上涨"
  /\ NewsConverter.generate_summary
       (py "今日股市全面上涨。 投资者情绪高涨！【编辑：张三】银行板块涨幅居前。") 200
     = py "今日股市全面上涨。投资者情绪高涨。银行板块涨幅居前。"
  /\ len (NewsConverter.generate_summary
            (py "今日股市全面上涨。 投资者情绪高涨！【编辑：张三】银行板块涨幅居前。") 200)
     <= 200 + 1.
Proof.
  split; [vm_compute; reflexivity|]. split; [vm_compute; reflexivity|].
  refine (proj2 (proj2 (proj2 (summary_of_sentences
    (py "今日股市全面上涨。 投资者情绪高涨！【编辑：张三】银行板块涨幅居前。") 200 _ _)))).
  - vm_compute. discriminate.
  - vm_compute. discriminate.
Defined.

(** X8.  When the first sentence of the cleaned body is empty (the body
    starts with a terminal mark, or nothing is left of it) or longer than the
    budget, [generate_summary] returns the first [max_length] characters of
    the body as given, whitespace and bracketed notes included, followed by
    "...". *)
Theorem summary_fallback (content : pystr) (max_length : Z) :
  first_sentence content = [] \/ max_length < len (first_sentence content) ->
  NewsConverter.generate_summary content max_length
  = slice_to content max_length ++ NewsConverter.ellipsis.
Proof.
  intros H.
  destruct (first_sentence_split content) as (t & E & Hstrip).
  unfold NewsConverter.generate_summary. rewrite E.
  cbn [NewsConverter.summary_loop app]. rewrite Hstrip.
  destruct H as [H|H].
  - rewrite H. cbn [nonempty]. now rewrite andb_false_r.
  - destruct (Z.leb_spec (len (first_sentence content)) max_length); [lia|].
    reflexivity.
Qed.

Lemma summary_fallback_witness :
  NewsConverter.generate_summary (py "。 【注】要闻速览") 200
  = py "。 【注】要闻速览..."
  /\ NewsConverter.generate_summary (py "要闻 速览。") 3 = py "要闻 ...".
Proof.
  split.
  - refine (summary_fallback (py "。 【注】要闻速览") 200 (or_introl _)).
    vm_compute. reflexivity.
  - refine (summary_fallback (py "要闻 速览。") 3 (or_intror _)).
    vm_compute. reflexivity.
Defined.

(** X9.  [generate_summary] is idempotent on the summaries it builds from
    sentences: summarizing such a summary with the same budget returns it
    unchanged. *)
Theorem summary_idempotent (content : pystr) (max_length : Z) :
  first_sentence content <> [] ->
  len (first_sentence content) <= max_length ->
  NewsConverter.generate_summary
    (NewsConverter.generate_summary content max_length) max_length
  = NewsConverter.generate_summary content max_length.
Proof.
  intros Hne Hlen.
  destruct (summary_built content max_length Hne Hlen) as (E & _ & Hend).
  destruct (summary_replay content max_length) as (Hchars & Hclean & Hloop).
  rewrite E. unfold NewsConverter.generate_summary at 1.
  rewrite Hclean, Hloop.
  destruct Hend as [body Hb].
  assert (Hn : nonempty (NewsConverter.summary_loop max_length []
                  (NewsConverter.re_split_terminals
                     (NewsConverter.re_sub_brackets
                        (NewsConverter.re_sub_spaces content)))) = true)
    by (rewrite Hb; destruct body; reflexivity).
  rewrite Hn. apply strip_id. intros c Hc. now destruct (Hchars c Hc) as [H _].
Qed.

Lemma summary_idempotent_witness :
  NewsConverter.generate_summary
    (NewsConverter.generate_summary
       (py "今日股市全面上涨。 投资者情绪高涨！【编辑：张三】银行板块涨幅居前。") 20) 20
  = NewsConverter.generate_summary
      (py "今日股市全面上涨。 投资者情绪高涨！【编辑：张三】银行板块涨幅居前。") 20.
Proof.
  refine (summary_idempotent
            (py "今日股市全面上涨。 投资者情绪高涨！【编辑：张三】银行板块涨幅居前。") 20 _ _).
  - vm_compute. discriminate.
  - vm_compute. discriminate.
Defined.

(** ** Runs that succeed *)

Lemma bind_run {A B} (m : M A) (k : A -> M B) (w w1 : World) (a : A) :
  m w = (Ok a, w1) -> bind m k w = k a w1.
Proof. unfold bind. now intros ->. Qed.

Lemma lift_run {A B} (r : result A) (k : A -> M B) (w : World) (a : A) :
  r = Ok a -> bind (lift r) k w = k a w.
Proof. intros ->. reflexivity. Qed.

Lemma keeps_ret {A} (a : A) : keeps_clock (ret a).
Proof. intros w. reflexivity. Qed.

Lemma keeps_raise {A} (e : exn) : keeps_clock (raise (A := A) e).
Proof. intros w. reflexivity. Qed.

Lemma keeps_lift {A} (r : result A) : keeps_clock (lift r).
Proof. intros w. reflexivity. Qed.

Lemma keeps_bind {A B} (m : M A) (k : A -> M B) :
  keeps_clock m -> (forall a, keeps_clock (k a)) -> keeps_clock (bind m k).
Proof.
  intros Hm Hk w. unfold bind. specialize (Hm w).
  destruct (m w) as [[a|e] w1]; simpl in *; [|exact Hm].
  now rewrite (Hk a w1).
Qed.

Lemma keeps_try {A} (m : M A) (h : exn -> M A) :
  keeps_clock m -> (forall e, keeps_clock (h e)) -> keeps_clock (try_except m h).
Proof.
  intros Hm Hh w. unfold try_except. specialize (Hm w).
  destruct (m w) as [[a|e] w1]; simpl in *; [exact Hm|].
  now rewrite (Hh e w1).
Qed.

Lemma keeps_randbelow (n : Z) : keeps_clock (randbelow n).
Proof. intros w. reflexivity. Qed.

Lemma keeps_clock_read : keeps_clock clock_read.
Proof. intros w. reflexivity. Qed.

Create HintDb keeps.
#[local] Hint Resolve keeps_ret keeps_raise keeps_lift keeps_randbelow keeps_clock_read : keeps.

Ltac keeps :=
  repeat first
    [ progress (intros)
    | solve [auto with keeps nocore]
    | apply keeps_bind | apply keeps_try
    | match goal with
      | |- keeps_clock (match ?x with _ => _ end) => destruct x
      | |- keeps_clock (if ?x then _ else _) => destruct x
      end ].

Lemma keeps_randint (a b : Z) : keeps_clock (randint a b).
Proof. unfold randint. keeps. Qed.

Lemma keeps_choice {A} (l : list A) : keeps_clock (choice l).
Proof. unfold choice. keeps. Qed.

Lemma keeps_now : keeps_clock now.
Proof. unfold now. keeps. Qed.

Lemma keeps_sample_loop {A} (d : A) (k : nat) :
  forall pool n, keeps_clock (sample_loop d pool n k).
Proof.
  induction k as [|k IH]; intros pool n; cbn [sample_loop]; keeps.
Qed.

Lemma keeps_sample {A} (d : A) (l : list A) (k : Z) : keeps_clock (sample d l k).
Proof. unfold sample. keeps; apply keeps_sample_loop. Qed.

#[local] Hint Resolve keeps_randint keeps_choice keeps_now keeps_sample : keeps.

Lemma keeps_ok {A} (m : M A) (w w' : World) (r : result A) :
  keeps_clock m -> m w = (r, w') -> clock_ok w -> clock_ok w'.
Proof.
  intros Hk E Hc n. specialize (Hk w). rewrite E in Hk. simpl in Hk.
  rewrite Hk. apply Hc.
Qed.

Lemma clock_ok_in_range (w : World) : clock_ok w -> clock_in_range w.
Proof. intros H. apply H. Qed.

Lemma now_run (w : World) :
  clock_in_range w -> exists t w', now w = (Ok t, w') /\ 0 <= t <= max_datetime.
Proof.
  unfold clock_in_range, now, bind, clock_read. intros H.
  apply Z.leb_le in H. rewrite H. unfold ret. do 2 eexists. split; [reflexivity|].
  apply Z.leb_le in H. split; [apply N2Z.is_nonneg | exact H].
Qed.

Lemma converts_checked : all_from (Z.to_nat 10001) 0 converts = true.
Proof. vm_compute. reflexivity. Qed.

Lemma float_of_int_small (z : Z) :
  0 <= z <= 10000 -> float_of_int z = Ok (of_int z).
Proof.
  intros H.
  assert (Hc : converts z = true).
  { apply (all_from_spec converts (Z.to_nat 10001) 0 converts_checked).
    rewrite Z2Nat.id; lia. }
  unfold converts, float_of_int in *.
  destruct (is_infinity (of_int z)); [discriminate | reflexivity].
Qed.

Lemma digits_fuel_chars (fuel : nat) :
  forall n acc c, In c (digits_fuel fuel n acc) -> In c acc \/ (48 <= c <= 57)%N.
Proof.
  induction fuel as [|f IH]; intros n acc c; cbn [digits_fuel]; [auto|].
  assert (Hd : (48 <= 48 + n mod 10 <= 57)%N).
  { pose proof (N.mod_upper_bound n 10 ltac:(discriminate)) as Hm.
    generalize dependent (n mod 10)%N. intros m Hm. lia. }
  destruct (n <? 10)%N.
  - intros [<-|H]; auto.
  - intros H. apply IH in H as [[<-|H]|H]; auto.
Qed.

Lemma str_of_int_chars (z : Z) (c : N) :
  In c (str_of_int z) -> c = 45%N \/ (48 <= c <= 57)%N.
Proof.
  unfold str_of_int, str_of_N. destruct (z <? 0).
  - intros [<-|H]; [now left|]. apply digits_fuel_chars in H as [[]|H]. now right.
  - intros H. apply digits_fuel_chars in H as [[]|H]. now right.
Qed.

Lemma pad_int_chars (width : nat) (z : Z) (c : N) :
  In c (pad_int width z) -> c = 45%N \/ (48 <= c <= 57)%N.
Proof.
  unfold pad_int, zeros. intros H. apply in_app_or in H as [H|H].
  - apply repeat_spec in H. subst c. right. lia.
  - now apply (str_of_int_chars z).
Qed.

Lemma utf8_encodable_small (s : pystr) :
  (forall c, In c s -> (c < 0xD800)%N) -> utf8_encodable s = true.
Proof.
  intros H. apply forallb_forall. intros c Hc. specialize (H c Hc).
  apply negb_true_iff. apply andb_false_iff. left. apply N.leb_gt. exact H.
Qed.

Lemma pad_int_encodable (width : nat) (z : Z) : utf8_encodable (pad_int width z) = true.
Proof.
  apply utf8_encodable_small. intros c Hc.
  apply pad_int_chars in Hc as [->|Hc]; lia.
Qed.

Lemma isoformat_encodable (t : datetime) : utf8_encodable (isoformat t) = true.
Proof.
  unfold isoformat. destruct (date_of t) as [[y m] d].
  repeat rewrite utf8_encodable_app. rewrite !pad_int_encodable.
  destruct (micro_of t =? 0); [reflexivity|].
  change (46%N :: pad_int 6 (micro_of t)) with ([46%N] ++ pad_int 6 (micro_of t)).
  rewrite utf8_encodable_app, pad_int_encodable. reflexivity.
Qed.

Section Succeeds.
Context {rt : Runtime}.

Lemma keeps_v1_stats : keeps_clock NewsConverter.generate_random_stats.
Proof. unfold NewsConverter.generate_random_stats. keeps. Qed.

Lemma keeps_v1_time : keeps_clock NewsConverter.current_time_text.
Proof. unfold NewsConverter.current_time_text. keeps. Qed.

#[local] Hint Resolve keeps_v1_stats keeps_v1_time : keeps.

Lemma keeps_v1_parse (v : json) : keeps_clock (NewsConverter.parse_datetime v).
Proof.
  unfold NewsConverter.parse_datetime, NewsConverter.parse_datetime_try. keeps.
Qed.

Lemma keeps_v1_guid (u t : json) : keeps_clock (NewsConverter.generate_guid u t).
Proof. unfold NewsConverter.generate_guid. keeps. Qed.

#[local] Hint Resolve keeps_v1_parse keeps_v1_guid : keeps.

Lemma keeps_v1_convert (item : json) : keeps_clock (NewsConverter.convert_news_item item).
Proof. unfold NewsConverter.convert_news_item. keeps. Qed.

Lemma keeps_v2_stats : keeps_clock NewsDataConverter.generate_random_stats.
Proof. unfold NewsDataConverter.generate_random_stats. keeps. Qed.

Lemma keeps_v2_past : keeps_clock NewsDataConverter.random_past_time.
Proof. unfold NewsDataConverter.random_past_time. keeps. Qed.

#[local] Hint Resolve keeps_v2_stats keeps_v2_past : keeps.

Lemma keeps_v2_parse (v : json) : keeps_clock (NewsDataConverter.parse_datetime v).
Proof.
  unfold NewsDataConverter.parse_datetime, NewsDataConverter.parse_datetime_try,
    NewsDataConverter.reformat.
  keeps.
Qed.

Lemma keeps_v2_hotness (s : Stats) (p : pystr) :
  keeps_clock (NewsDataConverter.calculate_hotness_score s p).
Proof.
  unfold NewsDataConverter.calculate_hotness_score, NewsDataConverter.hotness_try,
    NewsDataConverter.uniform, NewsDataConverter.random_float.
  keeps.
Qed.

Lemma keeps_v2_guid (t s : json) : keeps_clock (NewsDataConverter.generate_guid t s).
Proof. unfold NewsDataConverter.generate_guid. keeps. Qed.

Lemma keeps_v2_tags (k c : json) : keeps_clock (NewsDataConverter.extract_tags k c).
Proof. unfold NewsDataConverter.extract_tags, NewsDataConverter.tag_list. keeps. Qed.

#[local] Hint Resolve keeps_v2_parse keeps_v2_hotness keeps_v2_guid keeps_v2_tags : keeps.

Lemma keeps_v2_convert (item : json) :
  keeps_clock (NewsDataConverter.convert_news_item item).
Proof. unfold NewsDataConverter.convert_news_item. keeps. Qed.

Lemma try_run {A} (m : M A) (h : exn -> M A) (w : World) :
  keeps_clock m -> clock_ok w ->
  (forall e w1, clock_ok w1 -> exists a w', h e w1 = (Ok a, w')) ->
  exists a w', try_except m h w = (Ok a, w').
Proof.
  intros Hk Hc Hh. unfold try_except.
  destruct (m w) as [[a|e] w1] eqn:E; [eauto|].
  apply Hh. exact (keeps_ok m w w1 _ Hk E Hc).
Qed.

Lemma v1_time_run (w : World) :
  clock_ok w -> exists out w', NewsConverter.current_time_text w = (Ok out, w').
Proof.
  intros Hc. unfold NewsConverter.current_time_text.
  destruct (now_run w (clock_ok_in_range w Hc)) as (t & w' & E & _).
  rewrite (bind_run _ _ _ _ _ E). unfold ret. eauto.
Qed.

Lemma v1_parse_run (v : json) (w : World) :
  clock_ok w -> exists out w', NewsConverter.parse_datetime v w = (Ok out, w').
Proof.
  intros Hc. unfold NewsConverter.parse_datetime. apply try_run; auto.
  - unfold NewsConverter.parse_datetime_try. keeps.
  - intros _ w1. apply v1_time_run.
Qed.

Lemma v1_hotness_run (s : Stats) :
  100 <= st_view_count s <= 10000 -> 10 <= st_like_count s <= 1000 ->
  5 <= st_comment_count s <= 500 -> 0 <= st_share_count s <= 200 ->
  exists x, NewsConverter.calculate_hotness_score s = Ok x.
Proof.
  intros Hv Hl Hcm Hs. unfold NewsConverter.calculate_hotness_score.
  rewrite !float_of_int_small by lia. eauto.
Qed.

Lemma v1_guid_run (u t : pystr) (w : World) :
  clock_ok w ->
  (forall n, utf8_encodable (u ++ t ++ timestamp_str n) = true) ->
  exists g w', NewsConverter.generate_guid (JStr u) (JStr t) w = (Ok g, w').
Proof.
  intros Hc He. unfold NewsConverter.generate_guid.
  destruct (now_run w (clock_ok_in_range w Hc)) as (c & w' & E & _).
  rewrite (bind_run _ _ _ _ _ E), He. unfold ret. eauto.
Qed.

Lemma choice_run {A} (x : A) (l : list A) (w : World) :
  exists a w', choice (x :: l) w = (Ok a, w').
Proof. unfold choice, bind, randbelow, ret. eauto. Qed.

Lemma v1_convert_run (o : list (pystr * json)) (t b u : pystr) (w : World) :
  field_of (JObj o) NewsConverter.key_title = JStr t ->
  field_of (JObj o) NewsConverter.key_body = JStr b ->
  blank b = false ->
  field_of (JObj o) NewsConverter.key_url = JStr u ->
  (forall n, utf8_encodable (u ++ t ++ timestamp_str n) = true) ->
  clock_ok w ->
  exists r w',
    NewsConverter.convert_news_item (JObj o) w = (Ok r, w')
    /\ title r = t /\ content r = b /\ link r = JStr u.
Proof.
  intros Ht Hb Hnb Hu Henc Hc.
  unfold NewsConverter.convert_news_item, NewsConverter.dict_get.
  change (match lookup o NewsConverter.key_title with Some v => v | None => JStr [] end)
    with (field_of (JObj o) NewsConverter.key_title).
  change (match lookup o NewsConverter.key_body with Some v => v | None => JStr [] end)
    with (field_of (JObj o) NewsConverter.key_body).
  change (match lookup o NewsConverter.key_url with Some v => v | None => JStr [] end)
    with (field_of (JObj o) NewsConverter.key_url).
  rewrite Ht, Hb, Hu.
  do 5 (rewrite (lift_run _ _ _ _ eq_refl)).
  assert (Hne : negb (nonempty b) || str_eqb (strip b) [] = false).
  { apply orb_false_iff. split; [|exact Hnb].
    destruct b; [discriminate | reflexivity]. }
  rewrite Hne.
  rewrite (bind_run (ret b) _ w w b eq_refl).
  rewrite (bind_run (ret t) _ w w t eq_refl).
  destruct (v1_random_stats_run w) as (s & Es & Hv & Hl & Hcm & Hs).
  rewrite (bind_run _ _ _ _ _ Es).
  destruct (v1_hotness_run s Hv Hl Hcm Hs) as [x Ex].
  rewrite (lift_run _ _ _ _ Ex).
  assert (Hc1 : clock_ok (after_draws 4 w)) by exact Hc.
  destruct (v1_parse_run (match lookup o NewsConverter.key_time with
                          | Some v => v | None => JStr [] end)
              (after_draws 4 w) Hc1) as (p & w2 & Ep).
  rewrite (bind_run _ _ _ _ _ Ep).
  assert (Hc2 : clock_ok w2) by exact (keeps_ok _ _ _ _ (keeps_v1_parse _) Ep Hc1).
  destruct (v1_guid_run u t w2 Hc2 Henc) as (g & w3 & Eg).
  rewrite (bind_run _ _ _ _ _ Eg).
  destruct (choice_run (hd [] NewsConverter.default_authors)
              (tl NewsConverter.default_authors) w3) as (au & w4 & Ea).
  change (hd [] NewsConverter.default_authors :: tl NewsConverter.default_authors)
    with NewsConverter.default_authors in Ea.
  rewrite (bind_run _ _ _ _ _ Ea).
  unfold ret. do 2 eexists. split; [reflexivity|]. auto.
Qed.

Lemma v2_past_run (w : World) :
  clock_ok w -> exists out w', NewsDataConverter.random_past_time w = (Ok out, w').
Proof.
  intros Hc. unfold NewsDataConverter.random_past_time.
  destruct (randint_run 1 30 w ltac:(lia)) as (d & Ed & Hd).
  rewrite (bind_run _ _ _ _ _ Ed).
  destruct (now_run (after_draws 1 w) (clock_ok_in_range _ Hc)) as (t & w' & E & Ht).
  rewrite (bind_run _ _ _ _ _ E).
  assert (Hm : minus_days t d = Ok (t - d * us_per_day)).
  { unfold minus_days.
    assert (H : min_datetime <= t - d * us_per_day <= max_datetime).
    { change min_datetime with (-719162 * us_per_day).
      unfold us_per_day, us_per_second in *. lia. }
    destruct H as [H1 H2]. apply Z.leb_le in H1, H2. now rewrite H1, H2. }
  rewrite (lift_run _ _ _ _ Hm). unfold ret. eauto.
Qed.

Lemma v2_parse_run (v : json) (w : World) :
  clock_ok w ->
  utf8_encodable (NewsDataConverter.py_str v) = true ->
  exists out w', NewsDataConverter.parse_datetime v w = (Ok out, w').
Proof.
  intros Hc Hp. unfold NewsDataConverter.parse_datetime. apply try_run; auto.
  - unfold NewsDataConverter.parse_datetime_try, NewsDataConverter.reformat. keeps.
  - intros _ w1 Hc1. unfold bind, lift.
    rewrite print_framed, (shown_date_printable v Hp) by reflexivity.
    now apply v2_past_run.
Qed.

Lemma v2_guid_run (title source : json) (w : World) :
  clock_ok w ->
  utf8_encodable (NewsDataConverter.py_str title) = true ->
  utf8_encodable (NewsDataConverter.py_str source) = true ->
  exists g w', NewsDataConverter.generate_guid title source w = (Ok g, w').
Proof.
  intros Hc Ht Hs. unfold NewsDataConverter.generate_guid.
  destruct (now_run w (clock_ok_in_range w Hc)) as (c & w' & E & _).
  rewrite (bind_run _ _ _ _ _ E).
  rewrite !utf8_encodable_app, Ht, Hs, isoformat_encodable.
  change (utf8_encodable (py "_")) with true. cbn [andb]. unfold ret. eauto.
Qed.

Lemma sample_loop_run {A} (d : A) (k : nat) :
  forall pool n w, exists l w', sample_loop d pool n k w = (Ok l, w').
Proof.
  induction k as [|k IH]; intros pool n w; cbn [sample_loop]; [unfold ret; eauto|].
  unfold bind at 1, randbelow at 1.
  set (j := Z.of_N (rand_tape w (rand_pos w)) mod Z.of_nat n).
  destruct (IH (set_nth (Z.to_nat j) (nth (n - 1) pool d) pool) (n - 1)%nat
              (mkWorld (rand_tape w) (S (rand_pos w)) (clock_tape w) (clock_pos w)))
    as (l & w' & E).
  rewrite (bind_run _ _ _ _ _ E). unfold ret. eauto.
Qed.

Lemma tag_list_run (keyword category : json) (w : World) :
  exists tl w', NewsDataConverter.tag_list keyword category w = (Ok tl, w').
Proof.
  unfold NewsDataConverter.tag_list. cbv zeta.
  destruct (randint_run 0 2 w ltac:(lia)) as (k & Ek & Hk).
  rewrite (bind_run _ _ _ _ _ Ek).
  unfold sample.
  destruct (Z.ltb_spec k 0); [lia|].
  cbn [orb].
  match goal with
  | |- context [Z.of_nat ?n <? k] => destruct (Z.ltb_spec (Z.of_nat n) k) as [Hlt|_]
  end.
  { simpl in Hlt. lia. }
  unfold bind. cbv beta iota.
  match goal with
  | |- context [sample_loop ?d ?p ?n ?j ?w1] =>
    destruct (sample_loop_run d j p n w1) as (l & w' & E); rewrite E
  end.
  unfold ret. eauto.
Qed.

Lemma v2_tags_run (keyword category : json) (w : World) :
  exists tags w', NewsDataConverter.extract_tags keyword category w = (Ok tags, w').
Proof.
  unfold NewsDataConverter.extract_tags.
  destruct (tag_list_run keyword category w) as (tl & w' & E).
  rewrite (bind_run _ _ _ _ _ E). unfold ret. eauto.
Qed.

Lemma clean_text_run (v : json) :
  cleanable v = true -> exists t, NewsDataConverter.clean_text v = Ok t.
Proof.
  unfold cleanable, NewsDataConverter.clean_text.
  destruct v; intros H; try (rewrite H; eauto).
  destruct (negb (truthy (JStr s))); eauto.
Qed.

Lemma v2_convert_run (o : list (pystr * json)) (w : World) :
  cleanable (field_of (JObj o) NewsDataConverter.key_title) = true ->
  cleanable (field_of (JObj o) NewsDataConverter.key_body) = true ->
  cleanable (field_of (JObj o) NewsDataConverter.key_intro) = true ->
  utf8_encodable (NewsDataConverter.py_str (field_of (JObj o) NewsDataConverter.key_title))
  = true ->
  utf8_encodable (NewsDataConverter.py_str (field_of (JObj o) NewsDataConverter.key_source))
  = true ->
  utf8_encodable (NewsDataConverter.py_str (field_of (JObj o) NewsDataConverter.key_time))
  = true ->
  clock_ok w ->
  exists r w', NewsDataConverter.convert_news_item (JObj o) w = (Ok r, w').
Proof.
  intros Ht Hb Hi Het Hes Hed Hc.
  destruct (clean_text_run _ Ht) as [t' Et].
  destruct (clean_text_run _ Hb) as [b' Eb].
  destruct (clean_text_run _ Hi) as [i' Ei].
  unfold NewsDataConverter.convert_news_item, NewsDataConverter.dict_get,
    NewsConverter.dict_get.
  repeat match goal with
  | |- context [match lookup o ?k with Some v => v | None => JStr [] end] =>
    change (match lookup o k with Some v => v | None => JStr [] end)
      with (field_of (JObj o) k)
  end.
  do 8 (rewrite (lift_run _ _ _ _ eq_refl)).
  destruct (v2_random_stats_run w) as (s & Es & _).
  rewrite (bind_run _ _ _ _ _ Es).
  assert (Hc1 : clock_ok (after_draws 4 w)) by exact Hc.
  destruct (v2_parse_run (field_of (JObj o) NewsDataConverter.key_time) _ Hc1 Hed)
    as (p & w2 & Ep).
  rewrite (bind_run _ _ _ _ _ Ep).
  assert (Hc2 : clock_ok w2) by exact (keeps_ok _ _ _ _ (keeps_v2_parse _) Ep Hc1).
  destruct (v2_hotness_total s p w2) as (x & w3 & Ex).
  rewrite (bind_run _ _ _ _ _ Ex).
  assert (Hc3 : clock_ok w3) by exact (keeps_ok _ _ _ _ (keeps_v2_hotness _ _) Ex Hc2).
  rewrite (lift_run _ _ _ _ Et), (lift_run _ _ _ _ Eb), (lift_run _ _ _ _ Ei),
    (lift_run _ _ _ _ Ei).
  assert (Hcat : exists c w4,
             (match NewsDataConverter.known_category
                      (field_of (JObj o) NewsDataConverter.key_keyword) with
              | Some k => ret k
              | None => choice NewsDataConverter.categories
              end) w3 = (Ok c, w4) /\ clock_ok w4).
  { destruct (NewsDataConverter.known_category _).
    - unfold ret. eauto.
    - destruct (choice_run (hd [] NewsDataConverter.categories)
                  (tl NewsDataConverter.categories) w3) as (c & w4 & Ec).
      change (hd [] NewsDataConverter.categories :: tl NewsDataConverter.categories)
        with NewsDataConverter.categories in Ec.
      exists c, w4. split; [exact Ec|].
      exact (keeps_ok _ _ _ _ (keeps_choice _) Ec Hc3). }
  destruct Hcat as (c & w4 & Ec & Hc4).
  rewrite (bind_run _ _ _ _ _ Ec).
  destruct (v2_guid_run _ _ w4 Hc4 Het Hes) as (g & w5 & Eg).
  rewrite (bind_run _ _ _ _ _ Eg).
  destruct (v2_tags_run (field_of (JObj o) NewsDataConverter.key_keyword)
              (field_of (JObj o) NewsDataConverter.key_keyword) w5) as (tg & w6 & Etg).
  rewrite (bind_run _ _ _ _ _ Etg).
  unfold ret. eauto.
Qed.

End Succeeds.

Lemma sample_clock_ok : clock_ok sample_world.
Proof. intros n. vm_compute. discriminate. Qed.

Lemma plain_timestamp_encodable (s : pystr) :
  utf8_encodable s = true ->
  forall n, utf8_encodable (s ++ timestamp_str (Runtime := plain_runtime) n) = true.
Proof.
  intros Hs n. rewrite utf8_encodable_app, Hs. cbn [andb timestamp_str plain_runtime].
  rewrite utf8_encodable_app. apply andb_true_iff. split; [|reflexivity].
  apply utf8_encodable_small. intros c Hc.
  apply str_of_int_chars in Hc as [->|Hc]; lia.
Qed.

(** X10.  Variant 1's [convert_news_item] succeeds on every record that is an
    object whose title, body and URL are text (an absent title or URL counts
    as empty text), whose body is not blank and whose URL and title can be
    encoded as UTF-8, provided the clock can be read.  The record it returns
    carries title, body and URL unchanged, the summary of the body with
    budget 200 as both summary and description, the category of title and
    body, and the fixed values of a manually entered, published, active,
    processed record in language "zh" without creator, feed or image. *)
Theorem v1_convert_succeeds (rt : Runtime) (o : list (pystr * json)) (t b u : pystr)
        (w : World) :
  field_of (JObj o) NewsConverter.key_title = JStr t ->
  field_of (JObj o) NewsConverter.key_body = JStr b ->
  blank b = false ->
  field_of (JObj o) NewsConverter.key_url = JStr u ->
  (forall n, utf8_encodable (u ++ t ++ timestamp_str n) = true) ->
  clock_ok w ->
  exists r w',
    NewsConverter.convert_news_item (JObj o) w = (Ok r, w')
    /\ title r = t /\ content r = b /\ link r = JStr u
    /\ summary r = NewsConverter.generate_summary b 200
    /\ description r = summary r
    /\ category r = NewsConverter.analyze_category_with_ai t b
    /\ created_by r = JNull /\ is_active r = true
    /\ source_type r = py "manual" /\ rss_source_id r = JNull
    /\ image_url r = JStr [] /\ language r = py "zh"
    /\ status r = py "published" /\ is_processed r = true.
Proof.
  intros Ht Hb Hnb Hu Henc Hc.
  destruct (v1_convert_run o t b u w Ht Hb Hnb Hu Henc Hc) as (r & w' & E & H1 & H2 & H3).
  exists r, w'. split; [exact E|].
  destruct (v1_convert_inv _ _ _ _ E)
    as (o' & u' & _ & _ & _ & _ & _ & _ & Hcat & Hsum & Hdesc & _).
  destruct (v1_convert_runs _ _ _ _ E)
    as (w1 & w2 & w3 & _ & _ & _ & _ & F1 & F2 & F3 & F4 & F5 & F6 & F7 & F8).
  rewrite H1, H2 in Hcat. rewrite H2 in Hsum.
  repeat split; assumption.
Qed.

Lemma v1_convert_succeeds_witness :
  exists r w',
    NewsConverter.convert_news_item (rt := plain_runtime) sample_item sample_world
    = (Ok r, w')
    /\ title r = py "股市大涨 经济回暖"
    /\ content r = py "今日股市全面上涨。 投资者情绪高涨！【编辑：张三】银行板块涨幅居前。"
    /\ link r = JStr (py "https://www.example.com/a/1.html")
    /\ summary r
       = NewsConverter.generate_summary
           (py "今日股市全面上涨。 投资者情绪高涨！【编辑：张三】银行板块涨幅居前。") 200
    /\ description r = summary r
    /\ category r
       = NewsConverter.analyze_category_with_ai (py "股市大涨 经济回暖")
           (py "今日股市全面上涨。 投资者情绪高涨！【编辑：张三】银行板块涨幅居前。")
    /\ created_by r = JNull /\ is_active r = true
    /\ source_type r = py "manual" /\ rss_source_id r = JNull
    /\ image_url r = JStr [] /\ language r = py "zh"
    /\ status r = py "published" /\ is_processed r = true.
Proof.
  refine (v1_convert_succeeds plain_runtime _ _ _ _ sample_world _ _ _ _ _ sample_clock_ok).
  - reflexivity.
  - reflexivity.
  - reflexivity.
  - reflexivity.
  - intros n. rewrite app_assoc. apply plain_timestamp_encodable. reflexivity.
Defined.

(** X11.  Variant 2's [convert_news_item] succeeds on every record that is
    an object whose title, body and introduction are text or values that are
    false in a condition, and whose title, source and publication time can be
    encoded as UTF-8, provided the clock can be read: no keyword or count
    makes it fail, and no date text that can be printed.  The record carries
    the cleaned title, body and introduction (the latter as summary and as
    description), URL and image unchanged, an empty author and the same fixed
    values as in variant 1. *)
Theorem v2_convert_succeeds (rt : Runtime) (o : list (pystr * json)) (w : World) :
  cleanable (field_of (JObj o) NewsDataConverter.key_title) = true ->
  cleanable (field_of (JObj o) NewsDataConverter.key_body) = true ->
  cleanable (field_of (JObj o) NewsDataConverter.key_intro) = true ->
  utf8_encodable (NewsDataConverter.py_str (field_of (JObj o) NewsDataConverter.key_title))
  = true ->
  utf8_encodable (NewsDataConverter.py_str (field_of (JObj o) NewsDataConverter.key_source))
  = true ->
  utf8_encodable (NewsDataConverter.py_str (field_of (JObj o) NewsDataConverter.key_time))
  = true ->
  clock_ok w ->
  exists r w',
    NewsDataConverter.convert_news_item (JObj o) w = (Ok r, w')
    /\ NewsDataConverter.clean_text (field_of (JObj o) NewsDataConverter.key_title)
       = Ok (title r)
    /\ NewsDataConverter.clean_text (field_of (JObj o) NewsDataConverter.key_body)
       = Ok (content r)
    /\ NewsDataConverter.clean_text (field_of (JObj o) NewsDataConverter.key_intro)
       = Ok (summary r)
    /\ description r = summary r
    /\ link r = field_of (JObj o) NewsDataConverter.key_url
    /\ image_url r = field_of (JObj o) NewsDataConverter.key_image
    /\ author r = []
    /\ created_by r = JNull /\ is_active r = true
    /\ source_type r = py "manual" /\ rss_source_id r = JNull
    /\ language r = py "zh"
    /\ status r = py "published" /\ is_processed r = true.
Proof.
  intros Ht Hb Hi Het Hes Hed Hc.
  destruct (v2_convert_run o w Ht Hb Hi Het Hes Hed Hc) as (r & w' & E).
  exists r, w'. split; [exact E|].
  destruct (v2_convert_inv _ _ _ _ E)
    as (o' & tl & wa & wb & _ & H1 & H2 & H3 & H4 & _ & H5 & _).
  destruct (v2_convert_runs _ _ _ _ E)
    as (w1 & w2 & w3 & w4 & w5 & _ & _ & _ & _ & _ & _
        & F1 & F2 & F3 & F4 & F5 & F6 & F7 & F8 & F9).
  repeat split; assumption.
Qed.

Lemma v2_convert_succeeds_witness :
  exists r w',
    NewsDataConverter.convert_news_item (rt := plain_runtime) keyword_item sample_world
    = (Ok r, w')
    /\ NewsDataConverter.clean_text (field_of keyword_item NewsDataConverter.key_title)
       = Ok (title r)
    /\ NewsDataConverter.clean_text (field_of keyword_item NewsDataConverter.key_body)
       = Ok (content r)
    /\ NewsDataConverter.clean_text (field_of keyword_item NewsDataConverter.key_intro)
       = Ok (summary r)
    /\ description r = summary r
    /\ link r = field_of keyword_item NewsDataConverter.key_url
    /\ image_url r = field_of keyword_item NewsDataConverter.key_image
    /\ author r = []
    /\ created_by r = JNull /\ is_active r = true
    /\ source_type r = py "manual" /\ rss_source_id r = JNull
    /\ language r = py "zh"
    /\ status r = py "published" /\ is_processed r = true.
Proof.
  refine (v2_convert_succeeds plain_runtime _ sample_world _ _ _ _ _ _ sample_clock_ok);
    reflexivity.
Defined.

(** A date that [strptime] refuses and that cannot be printed makes the
    conversion of the record fail: the [print] of the handler in
    [parse_datetime] raises. *)
Lemma v2_convert_unprintable_date :
  fst (NewsDataConverter.convert_news_item (rt := plain_runtime)
         (JObj [(py "标题", JStr (py "快讯"));
                (py "发布时间", JStr (py "2025年07月01日19:01" ++ [0xD800%N]))])
         sample_world)
  = Raise UnicodeEncodeError.
Proof. vm_compute. reflexivity. Qed.

(** ** The batch runs: what is written, and how the counts add up *)

Lemma count_events_app (p : event -> bool) (a b : list event) :
  count_events p (a ++ b) = count_events p a + count_events p b.
Proof. unfold count_events. rewrite filter_app, length_app. lia. Qed.

Section Batches.
Context {rt : Runtime}.


(** The title of a converted record went through [encode] in
    [generate_guid], so it can be printed. *)
Lemma v1_title_encodable (item : json) (w w' : World) (r : NormalizedRecord) :
  NewsConverter.convert_news_item item w = (Ok r, w') ->
  utf8_encodable (title r) = true.
Proof.
  intros H.
  destruct (v1_convert_inv _ _ _ _ H) as (o & u & _ & _ & _ & Ht & Hu & _).
  destruct (v1_convert_runs _ _ _ _ H) as (w1 & w2 & w3 & _ & _ & Hg & _).
  rewrite Ht, Hu in Hg. unfold NewsConverter.generate_guid in Hg.
  bind_step Hg.
  destruct (utf8_encodable (u ++ title r ++ timestamp_str (Z.to_N a))) eqn:Ee;
    [|now apply raise_inv in Hg].
  rewrite !utf8_encodable_app in Ee.
  apply andb_true_iff in Ee as [_ Ee]. now apply andb_true_iff in Ee as [Ee _].
Qed.










(** What one item adds to the counters agrees with the line printed for it. *)
Lemma convert_step_counts (i : Z) (item : json) (st st' : NewsConverter.LoopState)
      (w w' : World) :
  NewsConverter.convert_step i item st w = (st', w') ->
  NewsConverter.escaped st' = None ->
  exists ev,
    NewsConverter.printed st' = NewsConverter.printed st ++ [ev]
    /\ Z.of_nat (length (NewsConverter.converted_data st'))
       = Z.of_nat (length (NewsConverter.converted_data st))
         + count_events is_converted [ev]
    /\ NewsConverter.skipped_count st'
       = NewsConverter.skipped_count st + count_events is_skipped [ev]
    /\ count_events is_converted [ev] + count_events is_skipped [ev]
       + count_events is_failure [ev] = 1.
Proof.
  unfold NewsConverter.convert_step.
  destruct (NewsConverter.convert_news_item item w) as [[r|e] w1] eqn:Ec.
  - rewrite print_after, (v1_title_encodable _ _ _ _ Ec) by reflexivity.
    intros H _. injection H as <- _. eexists. split; [reflexivity|].
    cbn [NewsConverter.converted_data NewsConverter.skipped_count].
    rewrite length_app. unfold count_events. simpl. lia.
  - unfold NewsConverter.handle. intros H Hesc. injection H as <- _.
    destruct (is_value_error e).
    + destruct (message_contains e NewsConverter.empty_body_mark).
      * destruct (NewsConverter.shown_title item i) as [t|e']; [|discriminate].
        destruct (Console.print _); [|discriminate].
        eexists. split; [reflexivity|].
        cbn [NewsConverter.converted_data NewsConverter.skipped_count].
        unfold count_events. simpl. lia.
      * eexists. split; [reflexivity|].
        cbn [NewsConverter.converted_data NewsConverter.skipped_count].
        unfold count_events. simpl. lia.
    + destruct (NewsConverter.shown_title item i) as [t|e']; [|discriminate].
      destruct (Console.print _); [|discriminate].
      eexists. split; [reflexivity|].
      cbn [NewsConverter.converted_data NewsConverter.skipped_count].
      unfold count_events. simpl. lia.
Qed.

(** The loop's counters agree with the lines it prints. *)
Lemma v1_loop_counts (items : list json) :
  forall i st w st' w',
    NewsConverter.convert_loop i items st w = (st', w') ->
    NewsConverter.escaped st' = None ->
    exists events,
      NewsConverter.printed st' = NewsConverter.printed st ++ events
      /\ Z.of_nat (length (NewsConverter.converted_data st'))
         = Z.of_nat (length (NewsConverter.converted_data st))
           + count_events is_converted events
      /\ NewsConverter.skipped_count st'
         = NewsConverter.skipped_count st + count_events is_skipped events
      /\ count_events is_converted events + count_events is_skipped events
         + count_events is_failure events = Z.of_nat (length items).
Proof.
  induction items as [|item rest IH]; intros i st w st' w' H Hesc.
  - simpl in H. injection H as <- _. exists []. rewrite app_nil_r.
    unfold count_events. simpl. repeat split; lia.
  - cbn [NewsConverter.convert_loop] in H.
    destruct (NewsConverter.convert_step i item st w) as [st1 w1] eqn:Es.
    destruct (NewsConverter.escaped st1) as [e|] eqn:E1.
    + injection H as <- _. congruence.
    + destruct (convert_step_counts _ _ _ _ _ _ Es E1) as (ev & Hp & Hc & Hs & H1).
      destruct (IH _ _ _ _ _ H Hesc) as (events & Ep & Ec & Ek & Et).
      exists (ev :: events). change (ev :: events) with ([ev] ++ events).
      rewrite !count_events_app. cbn [length]. rewrite Nat2Z.inj_succ.
      repeat split; try lia.
      rewrite Ep, Hp, <- app_assoc. reflexivity.
Qed.

End Batches.

Section Written.
Context {rt : Runtime}.


End Written.



(** X13.  When variant 1's [convert_file] writes its output, the closing
    report adds up: the number of records written is the number of items
    reported as converted, the skip counter is the number of items reported as
    skipped for an empty body, and converted, skipped and failed items
    together are all the items of the document (one for a single object). *)
Theorem v1_report_adds_up (rt : Runtime) (fs : Files) (w : World)
        (recs : list NormalizedRecord) :
  written (fst (NewsConverter.convert_file fs w)) = Complete recs ->
  exists data events skipped,
    source_state fs = Loaded data
    /\ console (fst (NewsConverter.convert_file fs w))
       = events ++ [Summary (record_count data) (Z.of_nat (length recs)) skipped]
    /\ count_events is_converted events = Z.of_nat (length recs)
    /\ count_events is_skipped events = skipped
    /\ count_events is_converted events + count_events is_skipped events
       + count_events is_failure events = record_count data.
Proof.
  unfold NewsConverter.convert_file.
  destruct (source_state fs) as [| e | | data]; simpl; try discriminate.
  assert (Hitems : forall items,
    let '(st, w') :=
      NewsConverter.convert_loop 0 items (NewsConverter.mkLoop [] 0 [] None) w in
    forall out,
    out = fst
      (match NewsConverter.escaped st with
       | Some e => (mkOutcome NoOutput (NewsConverter.printed st ++ [NewsConverter.report e])
                      None, w')
       | None =>
         match target_error fs with
         | Some e => (mkOutcome NoOutput
                        (NewsConverter.printed st ++ [NewsConverter.report e]) None, w')
         | None =>
           if forallb record_encodable (NewsConverter.converted_data st) then
             (mkOutcome (Complete (NewsConverter.converted_data st))
                (NewsConverter.printed st
                 ++ [Summary (Z.of_nat (length items))
                             (Z.of_nat (length (NewsConverter.converted_data st)))
                             (NewsConverter.skipped_count st)])
                None, w')
           else
             (mkOutcome Truncated
                (NewsConverter.printed st ++ [NewsConverter.report UnicodeEncodeError])
                None, w')
         end
       end) ->
    written out = Complete recs ->
    exists events skipped,
      console out
      = events ++ [Summary (Z.of_nat (length items)) (Z.of_nat (length recs)) skipped]
      /\ count_events is_converted events = Z.of_nat (length recs)
      /\ count_events is_skipped events = skipped
      /\ count_events is_converted events + count_events is_skipped events
         + count_events is_failure events = Z.of_nat (length items)).
  { intros items.
    destruct (NewsConverter.convert_loop 0 items (NewsConverter.mkLoop [] 0 [] None) w)
      as [st w'] eqn:El.
    intros out -> Hw.
    destruct (NewsConverter.escaped st) as [e|] eqn:Ee; [discriminate|].
    destruct (target_error fs) as [e|]; [discriminate|].
    destruct (forallb record_encodable (NewsConverter.converted_data st));
      [|discriminate].
    simpl in Hw. injection Hw as <-.
    destruct (v1_loop_counts items _ _ _ _ _ El Ee) as (events & Ep & Ec & Es & Et).
    simpl in Ep, Ec, Es.
    exists events, (NewsConverter.skipped_count st). simpl. rewrite Ep.
    repeat split; lia. }
  destruct data as [| b | z | f | s | l | o]; try discriminate.
  - specialize (Hitems l).
    destruct (NewsConverter.convert_loop 0 l (NewsConverter.mkLoop [] 0 [] None) w)
      as [st w'].
    intros Hw. destruct (Hitems _ eq_refl Hw) as (events & skipped & H).
    exists (JArr l), events, skipped. split; [reflexivity | exact H].
  - specialize (Hitems [JObj o]).
    destruct (NewsConverter.convert_loop 0 [JObj o] (NewsConverter.mkLoop [] 0 [] None) w)
      as [st w'].
    intros Hw. destruct (Hitems _ eq_refl Hw) as (events & skipped & H).
    exists (JObj o), events, skipped. split; [reflexivity | exact H].
Qed.

Lemma v1_report_adds_up_witness :
  exists recs,
    written (fst (NewsConverter.convert_file (rt := plain_runtime)
                    (mkFiles (Loaded (JArr [sample_item; blank_item; sample_item])) None)
                    sample_world)) = Complete recs
    /\ length recs = 2%nat
    /\ exists data events skipped,
        Loaded (JArr [sample_item; blank_item; sample_item]) = Loaded data
        /\ console (fst (NewsConverter.convert_file (rt := plain_runtime)
                           (mkFiles (Loaded (JArr [sample_item; blank_item; sample_item]))
                              None) sample_world))
           = events ++ [Summary (record_count data) (Z.of_nat (length recs)) skipped]
        /\ count_events is_converted events = Z.of_nat (length recs)
        /\ count_events is_skipped events = skipped
        /\ count_events is_converted events + count_events is_skipped events
           + count_events is_failure events = record_count data.
Proof.
  eexists. split; [vm_compute; reflexivity|]. split; [reflexivity|].
  refine (v1_report_adds_up plain_runtime
            (mkFiles (Loaded (JArr [sample_item; blank_item; sample_item])) None)
            sample_world _ _).
  vm_compute. reflexivity.
Defined.

Section Batches2.
Context {rt : Runtime}.

Lemma v2_loop_counts (items : list json) :
  forall acc log w acc' log' w',
    NewsDataConverter.convert_loop items acc log w = (acc', log', w', None) ->
    Z.of_nat (length acc') + count_events is_failure log'
    = Z.of_nat (length acc) + count_events is_failure log + Z.of_nat (length items)
    /\ count_events is_converted log' = count_events is_converted log
    /\ count_events is_skipped log' = count_events is_skipped log.
Proof.
  induction items as [|item rest IH]; intros acc log w acc' log' w' H.
  - simpl in H. injection H as <- <- _. simpl. lia.
  - cbn [NewsDataConverter.convert_loop] in H.
    destruct (NewsDataConverter.convert_news_item item w) as [[r|e] w1].
    + apply IH in H as (H1 & H2 & H3). rewrite length_app in H1.
      cbn [length] in *. lia.
    + destruct (Console.print _); [|discriminate].
      apply IH in H as (H1 & H2 & H3). rewrite !count_events_app in *.
      unfold count_events in *. cbn [length filter is_failure is_converted is_skipped] in *.
      lia.
Qed.

Lemma v2_keeps_loop (items : list json) :
  forall acc log w acc' log' w' leaving,
    NewsDataConverter.convert_loop items acc log w = (acc', log', w', leaving) ->
    clock_tape w' = clock_tape w.
Proof.
  induction items as [|item rest IH]; intros acc log w acc' log' w' leaving H.
  - simpl in H. now injection H as _ _ <- _.
  - cbn [NewsDataConverter.convert_loop] in H.
    pose proof (keeps_v2_convert item w) as Hk.
    destruct (NewsDataConverter.convert_news_item item w) as [[r|e] w1].
    + apply IH in H. simpl in Hk. congruence.
    + destruct (Console.print _).
      * apply IH in H. simpl in Hk. congruence.
      * injection H as _ _ <- _. exact Hk.
Qed.

(** The loop is left early only with the exception of [print], and then
    the item that could not be printed is text. *)
Lemma v2_loop_leaves (items : list json) :
  forall acc log w acc' log' w' e,
    NewsDataConverter.convert_loop items acc log w = (acc', log', w', Some e) ->
    e = UnicodeEncodeError
    /\ exists item,
        In item items
        /\ utf8_encodable (NewsDataConverter.py_str item) = false.
Proof.
  induction items as [|item rest IH]; intros acc log w acc' log' w' e H.
  - discriminate.
  - cbn [NewsDataConverter.convert_loop] in H.
    destruct (NewsDataConverter.convert_news_item item w) as [[r|e0] w1].
    + apply IH in H as (-> & x & Hx & Hp). split; [reflexivity|].
      exists x. split; [now right | exact Hp].
    + rewrite print_after in H by reflexivity.
      destruct (utf8_encodable (NewsDataConverter.py_str item)) eqn:Ep.
      * apply IH in H as (-> & x & Hx & Hp). split; [reflexivity|].
        exists x. split; [now right | exact Hp].
      * injection H as _ _ _ <-. split; [reflexivity|].
        exists item. split; [now left | exact Ep].
Qed.

End Batches2.

(** An item that is text with a lone surrogate fails to convert and cannot
    be printed by the handler either: the loop is left, nothing is written
    and [convert_all] raises. *)
Lemma v2_unprintable_item_ends_run :
  fst (NewsDataConverter.convert_all (rt := plain_runtime)
         (mkFiles (Loaded (JObj [(py "Sheet1",
                                  JArr [keyword_item; JStr [120; 0xD800]%N])]))
            None) sample_world)
  = mkOutcome NoOutput [Failed AttributeError; RunError UnicodeEncodeError]
      (Some UnicodeEncodeError).
Proof. vm_compute. reflexivity. Qed.

(** X14.  The document variant 2's [convert_all] writes is consistent:
    [total_count] is the number of records in [news_items], and every item
    the loop went through (the elements of the "Sheet1" list) is either among
    the records or reported as failed. *)
Theorem v2_document_adds_up (rt : Runtime) (fs : Files) (w : World)
        (env : NewsDataConverter.Envelope) :
  written (fst (NewsDataConverter.convert_all fs w)) = Complete env ->
  NewsDataConverter.total_count env
  = Z.of_nat (length (NewsDataConverter.news_items env))
  /\ exists data items,
      source_state fs = Loaded data
      /\ NewsDataConverter.sheet_items data = Ok items
      /\ Z.of_nat (length (NewsDataConverter.news_items env))
         + count_events is_failure (console (fst (NewsDataConverter.convert_all fs w)))
         = Z.of_nat (length items).
Proof.
  unfold NewsDataConverter.convert_all.
  destruct (source_state fs) as [| e | | data]; simpl; try discriminate.
  destruct (NewsDataConverter.sheet_items data) as [items|e] eqn:Es; simpl;
    [|discriminate].
  destruct (NewsDataConverter.convert_loop items [] [] w)
    as [[[news log] w1] [e|]] eqn:El; simpl; [discriminate|].
  apply v2_loop_counts in El as (Hc & _).
  destruct (now w1) as [[t|e] w2]; simpl; [|discriminate].
  destruct (target_error fs); simpl; [discriminate|].
  destruct (forallb record_encodable news); simpl; [|discriminate].
  destruct (NewsDataConverter.sheet_length data) as [n|e]; simpl;
    intros H; injection H as <-; simpl;
    (split; [reflexivity|]); exists data, items;
    (split; [reflexivity|]); (split; [exact Es|]);
    rewrite count_events_app; unfold count_events in *; simpl in *; lia.
Qed.

Lemma v2_document_adds_up_witness :
  exists env,
    written (fst (NewsDataConverter.convert_all (rt := plain_runtime)
                    (mkFiles (Loaded (JObj [(py "Sheet1",
                                             JArr [keyword_item; JInt 7; sample_item])]))
                       None) sample_world)) = Complete env
    /\ length (NewsDataConverter.news_items env) = 2%nat
    /\ NewsDataConverter.total_count env
       = Z.of_nat (length (NewsDataConverter.news_items env)).
Proof.
  eexists. split; [vm_compute; reflexivity|]. split; [reflexivity|].
  refine (proj1 (v2_document_adds_up plain_runtime
            (mkFiles (Loaded (JObj [(py "Sheet1",
                                     JArr [keyword_item; JInt 7; sample_item])])) None)
            sample_world _ _)).
  vm_compute. reflexivity.
Defined.

(** X15.  Variant 2's [convert_all] raises for every document whose top
    level is not an object.  It can raise after it has written a complete
    document, because the closing report takes [len(data.get('Sheet1', []))];
    when it does, the document written holds no record, and either the top
    level is not an object (AttributeError) or "Sheet1" is null, a boolean or
    a number (TypeError). *)
Theorem v2_raises_after_writing (rt : Runtime) (fs : Files) (w : World) (data : json) :
  source_state fs = Loaded data ->
  (is_object data = false ->
   raised (fst (NewsDataConverter.convert_all fs w)) <> None)
  /\ (forall env e,
      written (fst (NewsDataConverter.convert_all fs w)) = Complete env ->
      raised (fst (NewsDataConverter.convert_all fs w)) = Some e ->
      NewsDataConverter.news_items env = []
      /\ NewsDataConverter.total_count env = 0
      /\ ((is_object data = false /\ e = AttributeError)
          \/ (exists o v,
              data = JObj o
              /\ lookup o NewsDataConverter.key_sheet = Some v
              /\ is_scalar v = true
              /\ e = TypeError))).
Proof.
  intros Hs. unfold NewsDataConverter.convert_all. rewrite Hs.
  assert (Hempty : forall (len : result Z),
    let out := fst
      (let '(news, log, w1, leaving) := NewsDataConverter.convert_loop [] [] [] w in
       match leaving with
       | Some e => (NewsDataConverter.fail NoOutput log e, w1)
       | None =>
         match now w1 with
         | (Raise e, w2) => (NewsDataConverter.fail NoOutput log e, w2)
         | (Ok t, w2) =>
           match target_error fs with
           | Some e => (NewsDataConverter.fail NoOutput log e, w2)
           | None =>
             if forallb record_encodable news then
               match len with
               | Ok n =>
                 (mkOutcome
                    (Complete (NewsDataConverter.mkEnvelope news (Z.of_nat (length news))
                                 (isoformat t)))
                    (log ++ [Summary n (Z.of_nat (length news)) 0]) None, w2)
               | Raise e =>
                 (NewsDataConverter.fail
                    (Complete (NewsDataConverter.mkEnvelope news (Z.of_nat (length news))
                                 (isoformat t))) log e, w2)
               end
             else (NewsDataConverter.fail Truncated log UnicodeEncodeError, w2)
           end
         end
       end) in
    ((forall n, len = Ok n -> False) -> raised out <> None)
    /\ (forall env e, written out = Complete env -> raised out = Some e ->
        NewsDataConverter.news_items env = []
        /\ NewsDataConverter.total_count env = 0
        /\ len = Raise e)).
  { intros len. cbn [NewsDataConverter.convert_loop].
    destruct (now w) as [[t|e0] w2]; simpl.
    - destruct (target_error fs) as [e0|]; simpl.
      + split; [discriminate | intros env e Hw; discriminate].
      + destruct len as [n|e0]; simpl.
        * split; [intros H; exfalso; now apply (H n) | intros env e _ Hr; discriminate].
        * split; [discriminate|]. intros env e Hw Hr.
          injection Hw as <-. injection Hr as <-. auto.
    - split; [discriminate | intros env e Hw; discriminate]. }
  destruct data as [| b | z | f | s | l | o].
  1-4: simpl; split; [discriminate | intros env e Hw; discriminate].
  - (* a string *)
    cbn [NewsDataConverter.sheet_items NewsDataConverter.sheet_length].
    destruct (contains NewsDataConverter.key_sheet s).
    + simpl. split; [discriminate | intros env e Hw; discriminate].
    + destruct (Hempty (Raise AttributeError)) as [H1 H2].
      split; [intros _; apply H1; discriminate|].
      intros env e Hw Hr. destruct (H2 env e Hw Hr) as (E1 & E2 & E3).
      injection E3 as <-. auto.
  - (* an array *)
    cbn [NewsDataConverter.sheet_items NewsDataConverter.sheet_length].
    destruct (existsb _ l).
    + simpl. split; [discriminate | intros env e Hw; discriminate].
    + destruct (Hempty (Raise AttributeError)) as [H1 H2].
      split; [intros _; apply H1; discriminate|].
      intros env e Hw Hr. destruct (H2 env e Hw Hr) as (E1 & E2 & E3).
      injection E3 as <-. auto.
  - (* an object *)
    split; [discriminate|].
    cbn [NewsDataConverter.sheet_items NewsDataConverter.sheet_length].
    destruct (lookup o NewsDataConverter.key_sheet) as [v|] eqn:El.
    + destruct v as [| b | z | f | s | l | o'].
      1-4: destruct (Hempty (Raise TypeError)) as [_ H2];
           intros env e Hw Hr; destruct (H2 env e Hw Hr) as (E1 & E2 & E3);
           injection E3 as <-; repeat split; auto; right;
           eexists o, _; repeat split; [exact El | reflexivity].
      * destruct (Hempty (Ok (len s))) as [_ H2].
        intros env e Hw Hr. destruct (H2 env e Hw Hr) as (_ & _ & E3). discriminate.
      * intros env e.
        destruct (NewsDataConverter.convert_loop l [] [] w)
          as [[[news log] w1] [e0|]]; simpl; [discriminate|].
        destruct (now w1) as [[t|e0] w2]; simpl; [|discriminate].
        destruct (target_error fs); simpl; [discriminate|].
        destruct (forallb record_encodable news); simpl; discriminate.
      * destruct (Hempty (Ok (Z.of_nat (length o')))) as [_ H2].
        intros env e Hw Hr. destruct (H2 env e Hw Hr) as (_ & _ & E3). discriminate.
    + destruct (Hempty (Ok 0)) as [_ H2].
      intros env e Hw Hr. destruct (H2 env e Hw Hr) as (_ & _ & E3). discriminate.
Qed.

Lemma v2_raises_after_writing_witness :
  raised (fst (NewsDataConverter.convert_all (rt := plain_runtime)
                 (mkFiles (Loaded (JArr [keyword_item])) None) sample_world))
  = Some AttributeError
  /\ written (fst (NewsDataConverter.convert_all (rt := plain_runtime)
                     (mkFiles (Loaded (JArr [keyword_item])) None) sample_world))
     = Complete (NewsDataConverter.mkEnvelope [] 0 (py "2025-07-02T10:00:00"))
  /\ raised (fst (NewsDataConverter.convert_all (rt := plain_runtime)
                    (mkFiles (Loaded (JArr [keyword_item])) None) sample_world))
     <> None.
Proof.
  split; [vm_compute; reflexivity|]. split; [vm_compute; reflexivity|].
  refine (proj1 (v2_raises_after_writing plain_runtime
                   (mkFiles (Loaded (JArr [keyword_item])) None) sample_world
                   (JArr [keyword_item]) eq_refl) _).
  reflexivity.
Defined.

(** ** The SQL script as a whole *)

Lemma sql_step_shift (j : Z) (st : SqlScan) (c : N) :
  sql_step (shift j st) c = shift j (sql_step st c).
Proof.
  unfold sql_step, shift. destruct st as [l d k b]. cbn [in_literal depth semicolons balanced].
  destruct (c =? 39)%N; [reflexivity|].
  destruct l; [reflexivity|].
  destruct (c =? 40)%N; [reflexivity|].
  destruct (c =? 41)%N; [reflexivity|].
  destruct (c =? 59)%N; [|reflexivity].
  cbn [in_literal depth semicolons balanced]. f_equal. lia.
Qed.

Lemma sql_scan_shift (text : pystr) :
  forall j st, sql_scan (shift j st) text = shift j (sql_scan st text).
Proof.
  unfold sql_scan. induction text as [|c r IH]; intros j st; [reflexivity|].
  cbn [fold_left]. rewrite sql_step_shift. apply IH.
Qed.

Section Script.
Context {rt : Runtime}.
Import NewsDataConverter.

Lemma sql_insert_scan_from (item : NormalizedRecord) (k : Z) :
  sql_scan (mkScan false 0 k true) (sql_insert item) = mkScan false 0 (k + 1) true.
Proof.
  change (mkScan false 0 k true) with (shift k scan_start).
  rewrite sql_scan_shift, sql_insert_scan. unfold shift.
  cbn [in_literal depth semicolons balanced]. f_equal. lia.
Qed.

Lemma sql_inserts_scan (items : list NormalizedRecord) :
  forall k, sql_scan (mkScan false 0 k true) (flat_map sql_insert items)
            = mkScan false 0 (k + Z.of_nat (length items)) true.
Proof.
  induction items as [|r items IH]; intros k.
  - simpl. f_equal. lia.
  - cbn [flat_map length]. rewrite sql_scan_app, sql_insert_scan_from, IH.
    f_equal. lia.
Qed.

Lemma isoformat_plain (t : datetime) : forallb sql_plain (isoformat t) = true.
Proof.
  apply forallb_forall. intros c Hc. unfold isoformat in Hc.
  destruct (date_of t) as [[y m] d].
  assert (Hp : forall width z, In c (pad_int width z) -> sql_plain c = true).
  { intros width z H. apply pad_int_chars in H as [->|H]; [reflexivity|].
    unfold sql_plain.
    destruct (N.eqb_spec c 39); [lia|]. destruct (N.eqb_spec c 40); [lia|].
    destruct (N.eqb_spec c 41); [lia|]. destruct (N.eqb_spec c 59); [lia|]. reflexivity. }
  repeat (apply in_app_or in Hc as [Hc|Hc];
          [first [now apply (Hp _ _ Hc) | destruct Hc as [<-|[]]; reflexivity]|]).
  destruct (micro_of t =? 0); [destruct Hc|].
  destruct Hc as [<-|Hc]; [reflexivity | now apply (Hp _ _ Hc)].
Qed.

Lemma header_scan (t : datetime) :
  sql_scan scan_start (SqlFile.header t) = mkScan false 0 1 true.
Proof.
  unfold SqlFile.header. rewrite !sql_scan_app.
  rewrite (sql_scan_plain (py "-- 自动生成的新闻数据插入语句")) by reflexivity.
  rewrite (sql_scan_plain nl) by reflexivity.
  rewrite (sql_scan_plain (py "-- 生成时间: ")) by reflexivity.
  rewrite (sql_scan_plain (isoformat t)) by apply isoformat_plain.
  reflexivity.
Qed.

Lemma script_scan (t : datetime) (items : list NormalizedRecord) :
  sql_scan scan_start (SqlFile.header t ++ flat_map sql_insert items ++ SqlFile.footer)
  = mkScan false 0 (Z.of_nat (length items) + 2) true.
Proof.
  rewrite !sql_scan_app, header_scan, sql_inserts_scan.
  change (sql_scan (mkScan false 0 (1 + Z.of_nat (length items)) true) SqlFile.footer)
    with (mkScan false 0 (1 + Z.of_nat (length items) + 1) true).
  f_equal. lia.
Qed.

End Script.

(** ** The SQL stage on the JSON document *)

Section SqlItems.
Context {rt : Runtime}.
Import NewsDataConverter.

Lemma item_sql_of_record (r : NormalizedRecord) :
  SqlFile.item_sql (record_json r) = Ok (sql_insert r).
Proof.
  cbv [SqlFile.item_sql SqlFile.values SqlFile.columns record_json record_keys
       record_values combine SqlFile.subscript lookup str_eqb N.eqb Pos.eqb andb].
  unfold sql_insert. do 2 f_equal.
  repeat rewrite <- app_assoc. reflexivity.
Qed.

Lemma py_str_number_plain (v : json) :
  is_number v = true -> forallb sql_plain (py_str v) = true.
Proof.
  destruct v; try discriminate; intros _; cbn [py_str];
    [apply str_of_int_plain | apply float_repr_plain].
Qed.

Lemma values_scan (item : json) (cols : list (pystr * bool)) :
  forall text d k b,
    SqlFile.values item cols = Ok text ->
    (forall key, In (key, false) cols ->
       exists v, SqlFile.subscript item key = Ok v /\ is_number v = true) ->
    sql_scan (mkScan false d k b) text = mkScan false d k b.
Proof.
  induction cols as [|[key escaped] rest IH]; intros text d k b H Hn.
  - simpl in H. injection H as <-. reflexivity.
  - cbn [SqlFile.values] in H.
    destruct (SqlFile.subscript item key) as [v|e] eqn:Ev; [|discriminate].
    destruct (SqlFile.values item rest) as [text'|e] eqn:Er; [|discriminate].
    assert (Ht : value_line (if escaped then escape_sql v else py_str v) ++ text' = text)
      by (injection H; intros E; exact E).
    rewrite <- Ht, sql_scan_app.
    rewrite sql_scan_value_line.
    + apply IH; [reflexivity|]. intros key' Hk. apply Hn. now right.
    + destruct escaped; [apply sql_scan_escape_sql|].
      apply sql_scan_plain.
      destruct (Hn key (or_introl eq_refl)) as (v' & Ev' & Hv').
      rewrite Ev in Ev'. injection Ev' as <-. now apply py_str_number_plain.
Qed.

Lemma values_verbatim (item : json) (cols : list (pystr * bool)) :
  forall text key v,
    SqlFile.values item cols = Ok text ->
    In (key, false) cols ->
    SqlFile.subscript item key = Ok v ->
    exists pre post, text = pre ++ value_line (py_str v) ++ post.
Proof.
  induction cols as [|[key' escaped] rest IH]; intros text key v H Hin Hv; [destruct Hin|].
  cbn [SqlFile.values] in H.
  destruct (SqlFile.subscript item key') as [v'|e] eqn:Ev; [|discriminate].
  destruct (SqlFile.values item rest) as [text'|e] eqn:Er; [|discriminate].
  assert (Ht : value_line (if escaped then escape_sql v' else py_str v') ++ text' = text)
    by (injection H; intros E; exact E).
  rewrite <- Ht. clear H Ht.
  destruct Hin as [Heq|Hin].
  - injection Heq as -> ->. rewrite Hv in Ev. injection Ev as <-.
    exists [], text'. reflexivity.
  - destruct (IH text' key v eq_refl Hin Hv) as (pre & post & ->).
    exists (value_line (if escaped then escape_sql v' else py_str v') ++ pre), post.
    now rewrite <- app_assoc.
Qed.

End SqlItems.

(** X17.  The INSERT statement [generate_sql_inserts] builds for an item of
    the JSON document: for the dict of a converted record it is the statement
    of that record; for any item whose four counts and score are numbers it is
    one well-formed statement, whatever the other columns hold; and the value
    of a count or score column is copied into the statement as it is, without
    quoting. *)
Theorem item_statement (rt : Runtime) :
  (forall r, SqlFile.item_sql (record_json r) = Ok (NewsDataConverter.sql_insert r))
  /\ (forall item sql,
      SqlFile.item_sql item = Ok sql ->
      (forall key, In key plain_columns ->
         exists v, SqlFile.subscript item key = Ok v /\ is_number v = true) ->
      well_formed_statement sql)
  /\ (forall item sql key v,
      SqlFile.item_sql item = Ok sql ->
      In key plain_columns ->
      SqlFile.subscript item key = Ok v ->
      exists pre post,
        sql = pre ++ NewsDataConverter.value_line (NewsDataConverter.py_str v) ++ post).
Proof.
  assert (Hgen : forall (l : list (pystr * bool)) key,
             In (key, false) l <-> In key (map fst (filter (fun kb => negb (snd kb)) l))).
  { induction l as [|[k b] l IH]; intros key; [simpl; tauto|].
    cbn [filter snd]. destruct b; cbn [negb map fst In]; rewrite <- IH.
    - split; [intros [H|H]; [discriminate | exact H] | now right].
    - split; (intros [H|H]; [left | now right]); congruence. }
  assert (Hcols : forall key, In (key, false) SqlFile.columns <-> In key plain_columns)
    by (intros key; apply (Hgen SqlFile.columns)).
  clear Hgen.
  split; [apply item_sql_of_record|]. split.
  - intros item sql H Hn. unfold SqlFile.item_sql in H.
    destruct (SqlFile.values item SqlFile.columns) as [text|e] eqn:Ev; [|discriminate].
    assert (Hsql : NewsDataConverter.insert_head ++ text ++ NewsDataConverter.insert_tail
                   = sql) by (injection H; intros E; exact E).
    rewrite <- Hsql. clear H Hsql. split.
    + rewrite !sql_scan_app.
      change (sql_scan scan_start NewsDataConverter.insert_head)
        with (mkScan false 1 0 true).
      rewrite (values_scan item SqlFile.columns text 1 0 true Ev)
        by (intros key Hk; apply Hn; now apply Hcols).
      reflexivity.
    + change NewsDataConverter.insert_tail
        with ((py "    NOW()," ++ NewsDataConverter.nl ++ py "    NOW()"
               ++ NewsDataConverter.nl ++ py ")") ++ [59; 10; 10]%N).
      rewrite !app_assoc. eexists. reflexivity.
  - intros item sql key v H Hk Hv. unfold SqlFile.item_sql in H.
    destruct (SqlFile.values item SqlFile.columns) as [text|e] eqn:Ev; [|discriminate].
    assert (Hsql : NewsDataConverter.insert_head ++ text ++ NewsDataConverter.insert_tail
                   = sql) by (injection H; intros E; exact E).
    rewrite <- Hsql. clear H Hsql. apply Hcols in Hk.
    destruct (values_verbatim item SqlFile.columns text key v Ev Hk Hv)
      as (pre & post & ->).
    exists (NewsDataConverter.insert_head ++ pre), (post ++ NewsDataConverter.insert_tail).
    now rewrite <- !app_assoc.
Qed.

Lemma item_statement_witness :
  well_formed_statement (NewsDataConverter.sql_insert (rt := plain_runtime) quoted_record)
  /\ exists sql,
      SqlFile.item_sql (rt := plain_runtime) injected_item = Ok sql
      /\ (exists pre post,
          sql = pre ++ NewsDataConverter.value_line
                         (NewsDataConverter.py_str (rt := plain_runtime)
                            (JStr (py "1); DROP TABLE news; --"))) ++ post)
      /\ sql_scan scan_start sql = mkScan false (-1) 3 false.
Proof.
  destruct (item_statement plain_runtime) as (H1 & H2 & H3). split.
  - apply (H2 (record_json quoted_record)); [apply H1|].
    intros key Hk.
    repeat (destruct Hk as [<-|Hk]; [eexists; split; reflexivity|]). destruct Hk.
  - eexists. split; [vm_compute; reflexivity|]. split.
    + apply (H3 injected_item _ (py "view_count")).
      * vm_compute. reflexivity.
      * left. reflexivity.
      * reflexivity.
    + vm_compute. reflexivity.
Defined.

Section SqlStage.
Context {rt : Runtime}.
Import NewsDataConverter.

Lemma values_fail (item : json) (key : pystr) (cols : list (pystr * bool)) :
  In key (map fst cols) ->
  (forall v, SqlFile.subscript item key <> Ok v) ->
  exists e, SqlFile.values item cols = Raise e.
Proof.
  intros Hin Hf. induction cols as [|[k b] rest IH]; [destruct Hin|].
  cbn [SqlFile.values].
  destruct (SqlFile.subscript item k) as [v|e] eqn:Ev; [|eauto].
  destruct Hin as [Hk|Hin].
  - simpl in Hk. subst k. exfalso. now apply (Hf v).
  - destruct (IH Hin) as [e ->]. eauto.
Qed.

Lemma statements_fail (items : list json) (item : json) :
  In item items ->
  (exists e, SqlFile.item_sql item = Raise e) ->
  exists e, SqlFile.statements items = Raise e.
Proof.
  intros Hin [e He]. induction items as [|x rest IH]; [destruct Hin|].
  cbn [SqlFile.statements].
  destruct Hin as [->|Hin].
  - rewrite He. eauto.
  - destruct (SqlFile.item_sql x) as [sql|e']; [|eauto].
    destruct (utf8_encodable sql); [|eauto].
    destruct (IH Hin) as [e'' ->]. eauto.
Qed.

Lemma escape_sql_text_encodable (s : pystr) :
  utf8_encodable s = true -> utf8_encodable (escape_sql (JStr s)) = true.
Proof.
  intros H. cbn [escape_sql py_str].
  rewrite !utf8_encodable_app. cbn [utf8_encodable forallb]. 
  change (negb ((55296 <=? quote_char)%N && (quote_char <=? 57343)%N)) with true.
  cbn [andb]. rewrite andb_true_r.
  unfold replace_char. apply forallb_forall. intros c Hc.
  apply in_flat_map in Hc as (x & Hx & Hc).
  destruct (x =? quote_char)%N.
  - destruct Hc as [<-|[<-|[]]]; reflexivity.
  - destruct Hc as [<-|[]].
    unfold utf8_encodable in H. rewrite forallb_forall in H. now apply H.
Qed.

Lemma float_repr_encodable (f : float) : utf8_encodable (float_repr f) = true.
Proof.
  pose proof (float_repr_chars f) as H. rewrite forallb_forall in H.
  apply forallb_forall. intros c Hc. specialize (H c Hc).
  unfold float_char in H. apply existsb_exists in H as (x & Hx & E).
  apply N.eqb_eq in E. subst x.
  repeat (destruct Hx as [<-|Hx]; [reflexivity|]). destruct Hx.
Qed.

Lemma str_of_int_encodable (z : Z) : utf8_encodable (str_of_int z) = true.
Proof.
  apply utf8_encodable_small. intros c Hc.
  apply str_of_int_chars in Hc as [->|Hc]; lia.
Qed.

Lemma escape_sql_encodable (v : json) :
  (forall x, utf8_encodable (container_str x) = true) ->
  json_encodable v = true -> utf8_encodable (escape_sql v) = true.
Proof.
  intros Hc Hv. destruct v as [|[|]|z|f|s|l|o]; try reflexivity.
  - apply str_of_int_encodable.
  - apply float_repr_encodable.
  - now apply escape_sql_text_encodable.
  - apply (escape_sql_text_encodable (container_str (JArr l))), Hc.
  - apply (escape_sql_text_encodable (container_str (JObj o))), Hc.
Qed.

Lemma value_line_encodable (v : pystr) :
  utf8_encodable v = true -> utf8_encodable (value_line v) = true.
Proof.
  intros H. unfold value_line. rewrite !utf8_encodable_app, H. reflexivity.
Qed.

Lemma sql_insert_encodable (r : NormalizedRecord) :
  (forall x, utf8_encodable (container_str x) = true) ->
  record_encodable r = true -> fixed_fields r ->
  utf8_encodable (sql_insert r) = true.
Proof.
  intros Hc He (F1 & F2 & F3 & F4 & F5).
  unfold record_encodable in He.
  repeat (apply andb_true_iff in He as [He ?]).
  unfold sql_insert. rewrite F1, F2, F3, F4, F5.
  repeat rewrite utf8_encodable_app.
  repeat rewrite value_line_encodable
    by first [ apply escape_sql_text_encodable; first [assumption | reflexivity]
             | apply escape_sql_encodable; first [assumption | reflexivity]
             | apply str_of_int_encodable
             | apply float_repr_encodable
             | destruct (is_active r); reflexivity
             | destruct (is_processed r); reflexivity ].
  reflexivity.
Qed.

Lemma statements_of_records (news : list NormalizedRecord) :
  (forall x, utf8_encodable (container_str x) = true) ->
  Forall (fun r => record_encodable r = true /\ fixed_fields r) news ->
  SqlFile.statements (map record_json news) = Ok (flat_map sql_insert news).
Proof.
  intros Hc H. induction H as [|r news [He Hf] _ IH]; [reflexivity|].
  cbn [map SqlFile.statements flat_map].
  rewrite item_sql_of_record, (sql_insert_encodable r Hc He Hf), IH. reflexivity.
Qed.

(** The statements of a list of records are written up to the first one
    that cannot be encoded. *)
Lemma statements_of_any_records (news : list NormalizedRecord) :
  SqlFile.statements (map record_json news)
  = if forallb (fun r => utf8_encodable (sql_insert r)) news
    then Ok (flat_map sql_insert news) else Raise UnicodeEncodeError.
Proof.
  induction news as [|r news IH]; [reflexivity|].
  cbn [map SqlFile.statements flat_map forallb].
  rewrite item_sql_of_record.
  destruct (utf8_encodable (sql_insert r)); [|reflexivity].
  rewrite IH. cbn [andb].
  now destruct (forallb (fun r => utf8_encodable (sql_insert r)) news).
Qed.

Lemma v2_loop_records (P : NormalizedRecord -> Prop) (items : list json) :
  (forall item w r w', convert_news_item item w = (Ok r, w') -> P r) ->
  forall acc log w acc' log' w' leaving,
    convert_loop items acc log w = (acc', log', w', leaving) ->
    Forall P acc -> Forall P acc'.
Proof.
  intros HP. induction items as [|item rest IH];
    intros acc log w acc' log' w' leaving H Hacc.
  - simpl in H. now injection H as <- _ _ _.
  - cbn [convert_loop] in H.
    destruct (convert_news_item item w) as [[r|e] w1] eqn:E.
    + apply (IH _ _ _ _ _ _ _ H). apply Forall_app. split; [exact Hacc|].
      constructor; [|constructor]. exact (HP _ _ _ _ E).
    + destruct (Console.print _).
      * exact (IH _ _ _ _ _ _ _ H Hacc).
      * now injection H as <- _ _ _.
Qed.

Lemma v2_fixed_fields (item : json) (w w' : World) (r : NormalizedRecord) :
  convert_news_item item w = (Ok r, w') -> fixed_fields r.
Proof.
  intros H. apply v2_convert_runs in H
    as (w1 & w2 & w3 & w4 & w5 & _ & _ & _ & _ & _ & _
        & F1 & F2 & F3 & F4 & F5 & F6 & F7 & F8 & F9).
  unfold fixed_fields. auto.
Qed.

End SqlStage.

(** X16.  The script [generate_sql_inserts] writes for a JSON document whose
    "news_items" are the dicts of a list of records, when the SQL file can be
    opened and the clock read.  If every statement can be encoded as UTF-8 the
    run completes, and the script is well formed as a whole: the comment lines
    and "BEGIN;", one INSERT statement per record in the order of the
    document, then "COMMIT;"; read as SQL, every literal is closed,
    parentheses are balanced, and the statement terminators outside literals
    are exactly those of BEGIN, of the INSERT statements and of COMMIT.  If a
    statement cannot be encoded (a text with a lone surrogate), [f.write]
    raises: the file is left cut short and the exception is raised again. *)
Theorem sql_script_well_formed (rt : Runtime) (fs : Files) (w : World)
        (o : list (pystr * json)) (news : list NormalizedRecord) :
  source_state fs = Loaded (JObj o) ->
  lookup o key_news_items = Some (JArr (map record_json news)) ->
  target_error fs = None ->
  clock_in_range w ->
  exists t,
    (forallb (fun r => utf8_encodable (NewsDataConverter.sql_insert r)) news = true ->
     fst (SqlFile.generate_sql_inserts fs w)
     = mkScript
         (Complete (SqlFile.header t ++ flat_map NewsDataConverter.sql_insert news
                    ++ SqlFile.footer))
         [ScriptWritten (Z.of_nat (length news))] None
     /\ sql_scan scan_start
          (SqlFile.header t ++ flat_map NewsDataConverter.sql_insert news
           ++ SqlFile.footer)
        = mkScan false 0 (Z.of_nat (length news) + 2) true)
    /\ (forallb (fun r => utf8_encodable (NewsDataConverter.sql_insert r)) news = false ->
        fst (SqlFile.generate_sql_inserts fs w)
        = mkScript Truncated [ScriptFailed UnicodeEncodeError] (Some UnicodeEncodeError)).
Proof.
  intros Hs Hl Ht Hc. destruct (now_run w Hc) as (t & w' & E & _).
  exists t. unfold SqlFile.generate_sql_inserts.
  rewrite Hs. cbn [NewsDataConverter.dict_get NewsConverter.dict_get].
  unfold NewsDataConverter.dict_get, NewsConverter.dict_get.
  rewrite Hl, Ht, E. cbn [SqlFile.iterate].
  rewrite statements_of_any_records, length_map.
  split; intros He; rewrite He; [|reflexivity].
  split; [reflexivity | apply script_scan].
Qed.

Lemma sql_script_well_formed_witness :
  (exists t,
      fst (SqlFile.generate_sql_inserts (rt := plain_runtime)
             (mkFiles (Loaded (JObj [(key_news_items,
                                      JArr (map record_json
                                              [quoted_record; quoted_record]))]))
                None) sample_world)
      = mkScript
          (Complete (SqlFile.header t
                     ++ flat_map (NewsDataConverter.sql_insert (rt := plain_runtime))
                          [quoted_record; quoted_record]
                     ++ SqlFile.footer))
          [ScriptWritten 2] None)
  /\ fst (SqlFile.generate_sql_inserts (rt := plain_runtime)
            (mkFiles (Loaded (JObj [(key_news_items,
                                     JArr (map record_json
                                             [quoted_record; unencodable_record]))]))
               None) sample_world)
     = mkScript Truncated [ScriptFailed UnicodeEncodeError] (Some UnicodeEncodeError).
Proof.
  assert (Hc : clock_in_range sample_world) by (vm_compute; discriminate).
  split.
  - destruct (sql_script_well_formed plain_runtime
                (mkFiles (Loaded (JObj [(key_news_items,
                                         JArr (map record_json
                                                 [quoted_record; quoted_record]))]))
                   None) sample_world _ [quoted_record; quoted_record]
                eq_refl eq_refl eq_refl Hc) as (t & H & _).
    exists t. apply H. vm_compute. reflexivity.
  - destruct (sql_script_well_formed plain_runtime
                (mkFiles (Loaded (JObj [(key_news_items,
                                         JArr (map record_json
                                                 [quoted_record; unencodable_record]))]))
                   None) sample_world _ [quoted_record; unencodable_record]
                eq_refl eq_refl eq_refl Hc) as (t & _ & H).
    apply H. vm_compute. reflexivity.
Defined.

(** X18.  How [generate_sql_inserts] fails and what it leaves: a document
    whose top level is not an object raises AttributeError before the SQL file
    is opened; an item that lacks one of the 24 columns, or is not an object,
    ends the run with an exception and leaves the SQL file cut short (a
    script without "COMMIT;"); a document without "news_items" gives the
    script with no statement between "BEGIN;" and "COMMIT;". *)
Theorem sql_stage_failures (rt : Runtime) (fs : Files) (w : World) :
  (forall data,
      source_state fs = Loaded data -> is_object data = false ->
      SqlFile.generate_sql_inserts fs w = (SqlFile.fail NoOutput AttributeError, w))
  /\ (forall o items item key,
      source_state fs = Loaded (JObj o) ->
      lookup o key_news_items = Some (JArr items) ->
      target_error fs = None ->
      In item items -> In key record_keys ->
      (forall v, SqlFile.subscript item key <> Ok v) ->
      script (fst (SqlFile.generate_sql_inserts fs w)) = Truncated
      /\ script_raised (fst (SqlFile.generate_sql_inserts fs w)) <> None)
  /\ (forall o,
      source_state fs = Loaded (JObj o) ->
      lookup o key_news_items = None ->
      target_error fs = None ->
      clock_in_range w ->
      exists t w',
        SqlFile.generate_sql_inserts fs w
        = (mkScript (Complete (SqlFile.header t ++ SqlFile.footer))
             [ScriptWritten 0] None, w')).
Proof.
  unfold SqlFile.generate_sql_inserts. split; [|split].
  - intros data Hs Ho. rewrite Hs. destruct data; try discriminate; reflexivity.
  - intros o items item key Hs Hl Ht Hin Hk Hf. rewrite Hs.
    unfold NewsDataConverter.dict_get, NewsConverter.dict_get. rewrite Hl, Ht.
    assert (Hst : exists e, SqlFile.statements items = Raise e).
    { apply (statements_fail items item Hin). unfold SqlFile.item_sql.
      destruct (values_fail item key SqlFile.columns Hk Hf) as [e ->]. eauto. }
    destruct Hst as [e He].
    destruct (now w) as [[t|e'] w1]; [|split; [reflexivity | discriminate]].
    cbn [SqlFile.iterate]. rewrite He. split; [reflexivity | discriminate].
  - intros o Hs Hl Ht Hc. rewrite Hs.
    unfold NewsDataConverter.dict_get, NewsConverter.dict_get. rewrite Hl, Ht.
    destruct (now_run w Hc) as (t & w' & E & _). rewrite E.
    exists t, w'. reflexivity.
Qed.

Lemma sql_stage_failures_witness :
  SqlFile.generate_sql_inserts (rt := plain_runtime)
    (mkFiles (Loaded (JArr [record_json quoted_record])) None) sample_world
  = (SqlFile.fail NoOutput AttributeError, sample_world)
  /\ (script (fst (SqlFile.generate_sql_inserts (rt := plain_runtime)
                     (mkFiles (Loaded (JObj [(key_news_items,
                                              JArr [record_json quoted_record;
                                                    JObj [(py "title", JStr (py "x"))]])]))
                        None) sample_world)) = Truncated
      /\ script_raised (fst (SqlFile.generate_sql_inserts (rt := plain_runtime)
                     (mkFiles (Loaded (JObj [(key_news_items,
                                              JArr [record_json quoted_record;
                                                    JObj [(py "title", JStr (py "x"))]])]))
                        None) sample_world)) <> None)
  /\ exists t w',
      SqlFile.generate_sql_inserts (rt := plain_runtime)
        (mkFiles (Loaded (JObj [(py "total_count", JInt 0)])) None) sample_world
      = (mkScript (Complete (SqlFile.header t ++ SqlFile.footer)) [ScriptWritten 0] None, w').
Proof.
  split; [|split].
  - apply (proj1 (sql_stage_failures plain_runtime
                    (mkFiles (Loaded (JArr [record_json quoted_record])) None)
                    sample_world) (JArr [record_json quoted_record])); reflexivity.
  - apply (proj1 (proj2 (sql_stage_failures plain_runtime _ sample_world))
             [(key_news_items,
               JArr [record_json quoted_record; JObj [(py "title", JStr (py "x"))]])]
             [record_json quoted_record; JObj [(py "title", JStr (py "x"))]]
             (JObj [(py "title", JStr (py "x"))]) (py "content")).
    + reflexivity.
    + reflexivity.
    + reflexivity.
    + right. left. reflexivity.
    + right. left. reflexivity.
    + intros v. vm_compute. discriminate.
  - apply (proj2 (proj2 (sql_stage_failures plain_runtime
                           (mkFiles (Loaded (JObj [(py "total_count", JInt 0)])) None)
                           sample_world)) [(py "total_count", JInt 0)]).
    + reflexivity.
    + reflexivity.
    + reflexivity.
    + vm_compute. discriminate.
Defined.

Section Pipeline.
Context {rt : Runtime}.
Import NewsDataConverter.

Lemma convert_all_completes (fs : Files) (w : World) :
  raised (fst (convert_all fs w)) = None ->
  exists data items news log w1 t w2 n,
    source_state fs = Loaded data
    /\ sheet_items data = Ok items
    /\ convert_loop items [] [] w = (news, log, w1, None)
    /\ now w1 = (Ok t, w2)
    /\ forallb record_encodable news = true
    /\ convert_all fs w
       = (mkOutcome (Complete (mkEnvelope news (Z.of_nat (length news)) (isoformat t)))
            (log ++ [Summary n (Z.of_nat (length news)) 0]) None, w2).
Proof.
  unfold convert_all.
  destruct (source_state fs) as [| e | | data]; try discriminate.
  destruct (sheet_items data) as [items|e] eqn:Ei; [|discriminate].
  destruct (convert_loop items [] [] w) as [[[news log] w1] [e|]] eqn:El;
    [discriminate|].
  destruct (now w1) as [[t|e] w2] eqn:En; [|discriminate].
  destruct (target_error fs); [discriminate|].
  destruct (forallb record_encodable news) eqn:Ee; [|discriminate].
  destruct (sheet_length data) as [n|e]; [|discriminate].
  intros _. exists data, items, news, log, w1, t, w2, n.
  repeat split; first [assumption | reflexivity].
Qed.

Lemma envelope_news_items (path : pystr) (env : Envelope) :
  dict_get (envelope_json path env) key_news_items (JArr [])
  = Ok (JArr (map record_json (news_items env))).
Proof. reflexivity. Qed.

End Pipeline.

(** X19.  [main] of variant 2, end to end: when [convert_all] does not
    raise, the SQL file can be opened and the clock can be read, the SQL stage
    reads back the document just written and completes without raising; the
    script holds, between "BEGIN;" and "COMMIT;", exactly one INSERT statement
    for each record of the document, in its order ([total_count] of them), and
    is well formed as a whole.  ([str] of a list or dict is taken to be
    encodable as UTF-8.) *)
Theorem main_pipeline (rt : Runtime) (input : Files) (before : file_state) (w : World) :
  (forall x, utf8_encodable (container_str x) = true) ->
  clock_ok w ->
  raised (fst (NewsDataConverter.convert_all input w)) = None ->
  exists env t,
    written (fst (NewsDataConverter.convert_all input w)) = Complete env
    /\ fst (SqlFile.main input before None w)
       = SqlFile.mkMain (fst (NewsDataConverter.convert_all input w))
           (Some (mkScript
                    (Complete (SqlFile.header t
                               ++ flat_map NewsDataConverter.sql_insert
                                    (NewsDataConverter.news_items env)
                               ++ SqlFile.footer))
                    [ScriptWritten (NewsDataConverter.total_count env)] None))
           None
    /\ sql_scan scan_start
         (SqlFile.header t
          ++ flat_map NewsDataConverter.sql_insert (NewsDataConverter.news_items env)
          ++ SqlFile.footer)
       = mkScan false 0 (NewsDataConverter.total_count env + 2) true.
Proof.
  intros Hcs Hc Hr.
  destruct (convert_all_completes input w Hr)
    as (data & items & news & log & w1 & t0 & w2 & n & Hs & Hi & Hl & Hn & He & E).
  assert (Hc2 : clock_ok w2).
  { intros k. pose proof (keeps_now w1) as K. rewrite Hn in K. simpl in K.
    rewrite K, (v2_keeps_loop _ _ _ _ _ _ _ _ Hl). apply Hc. }
  destruct (now_run w2 (clock_ok_in_range w2 Hc2)) as (t & w3 & En & _).
  assert (Hrec : Forall (fun r => record_encodable r = true /\ fixed_fields r) news).
  { assert (Hf : Forall fixed_fields news).
    { apply (v2_loop_records fixed_fields items) with (acc := []) (log := [])
        (w := w) (log' := log) (w' := w1) (leaving := None); auto.
      intros item wa r wb. apply v2_fixed_fields. }
    rewrite forallb_forall in He. rewrite Forall_forall in *.
    intros r Hin. split; [now apply He | now apply Hf]. }
  exists (NewsDataConverter.mkEnvelope news (Z.of_nat (length news)) (isoformat t0)), t.
  unfold SqlFile.main. rewrite E.
  cbn [fst written raised NewsDataConverter.news_items NewsDataConverter.total_count].
  split; [reflexivity|]. split.
  - unfold SqlFile.generate_sql_inserts.
    cbn [source_state target_error file_after envelope_json
         NewsDataConverter.news_items].
    rewrite envelope_news_items.
    cbn [NewsDataConverter.news_items].
    cbv iota. rewrite En. cbn [SqlFile.iterate].
    rewrite (statements_of_records news Hcs Hrec), length_map. reflexivity.
  - rewrite script_scan. reflexivity.
Qed.

Lemma main_pipeline_witness :
  exists env t,
    written (fst (NewsDataConverter.convert_all (rt := plain_runtime)
                    (mkFiles (Loaded (JObj [(py "Sheet1",
                                             JArr [keyword_item; JInt 7; sample_item])]))
                       None) sample_world)) = Complete env
    /\ fst (SqlFile.main (rt := plain_runtime)
              (mkFiles (Loaded (JObj [(py "Sheet1",
                                       JArr [keyword_item; JInt 7; sample_item])])) None)
              Missing None sample_world)
       = SqlFile.mkMain
           (fst (NewsDataConverter.convert_all (rt := plain_runtime)
                   (mkFiles (Loaded (JObj [(py "Sheet1",
                                            JArr [keyword_item; JInt 7; sample_item])]))
                      None) sample_world))
           (Some (mkScript
                    (Complete (SqlFile.header t
                               ++ flat_map (NewsDataConverter.sql_insert (rt := plain_runtime))
                                    (NewsDataConverter.news_items env)
                               ++ SqlFile.footer))
                    [ScriptWritten (NewsDataConverter.total_count env)] None))
           None
    /\ sql_scan scan_start
         (SqlFile.header t
          ++ flat_map (NewsDataConverter.sql_insert (rt := plain_runtime))
               (NewsDataConverter.news_items env)
          ++ SqlFile.footer)
       = mkScan false 0 (NewsDataConverter.total_count env + 2) true.
Proof.
  apply (main_pipeline plain_runtime
           (mkFiles (Loaded (JObj [(py "Sheet1", JArr [keyword_item; JInt 7; sample_item])]))
              None) Missing sample_world).
  - intros x. reflexivity.
  - exact sample_clock_ok.
  - vm_compute. reflexivity.
Defined.

(** ** Dates: what the patterns take, and the calendar both ways *)

Lemma match_seq_extend (ks : list Re.cls) :
  forall g m, Re.match_seq ks g = Some (m, []) ->
    forall rest, Re.match_seq ks (g ++ rest) = Some (g, rest).
Proof.
  induction ks as [|k ks IH]; intros g m H rest.
  - simpl in H. injection H as _ ->. reflexivity.
  - destruct g as [|c r]; [discriminate|].
    cbn [Re.match_seq app] in *. destruct (Re.cls_match k c); [|discriminate].
    destruct (Re.match_seq ks r) as [[m' r']|] eqn:E; [|discriminate].
    injection H as _ ->. now rewrite (IH r m' E rest).
Qed.

Lemma match_seq_fails (ks : list Re.cls) :
  forall g, (length ks <= length g)%nat -> Re.match_seq ks g = None ->
    forall rest, Re.match_seq ks (g ++ rest) = None.
Proof.
  induction ks as [|k ks IH]; intros g Hl H rest; [discriminate|].
  destruct g as [|c r]; [simpl in Hl; lia|].
  cbn [Re.match_seq app] in *. destruct (Re.cls_match k c); [|reflexivity].
  destruct (Re.match_seq ks r) as [[m' r']|] eqn:E; [discriminate|].
  rewrite (IH r ltac:(simpl in Hl; lia) E rest). reflexivity.
Qed.

Lemma matches_first (alts : list (list Re.cls)) (g : pystr) :
  first_takes alts g = true ->
  forall p rest, exists more,
    Re.matches (Re.Alt alts :: p) (g ++ rest)
    = map (fun gr => (g :: fst gr, snd gr)) (Re.matches p rest) ++ more.
Proof.
  intros H p rest. cbn [Re.matches].
  induction alts as [|ks alts IH]; [discriminate|].
  cbn [first_takes] in H. cbn [flat_map].
  destruct (Re.match_seq ks g) as [[m [|x r]]|] eqn:E; [|discriminate|].
  - rewrite (match_seq_extend ks g m E rest). eauto.
  - apply andb_true_iff in H as [Hl H]. apply Nat.leb_le in Hl.
    rewrite (match_seq_fails ks g Hl E rest). cbn [app]. now apply IH.
Qed.

Lemma re_match_alt (alts : list (list Re.cls)) (g : pystr) (p : list Re.elem)
      (rest : pystr) (gs : list pystr) (r : pystr) :
  first_takes alts g = true ->
  Re.re_match p rest = Some (gs, r) ->
  Re.re_match (Re.Alt alts :: p) (g ++ rest) = Some (g :: gs, r).
Proof.
  intros H Hp. unfold Re.re_match in *.
  destruct (matches_first alts g H p rest) as [more ->].
  destruct (Re.matches p rest) as [|[gs' r'] tl]; [discriminate|].
  simpl in *. injection Hp as -> ->. reflexivity.
Qed.

Lemma re_match_last (alts : list (list Re.cls)) (g : pystr) :
  first_takes alts g = true ->
  Re.re_match [Re.Alt alts] g = Some ([g], []).
Proof.
  intros H. rewrite <- (app_nil_r g) at 1. now apply re_match_alt.
Qed.

Lemma re_match_lit (c : N) (p : list Re.elem) (rest : pystr) :
  Re.re_match (Re.Lit c :: p) (c :: rest) = Re.re_match p rest.
Proof. unfold Re.re_match. cbn [Re.matches]. now rewrite N.eqb_refl. Qed.

Lemma re_match_spaces (p : list Re.elem) (c : N) (rest : pystr) :
  is_space c = false ->
  Re.re_match (Re.Spaces :: p) (space :: c :: rest) = Re.re_match p (c :: rest).
Proof.
  intros H. unfold Re.re_match. cbn [Re.matches Re.after_spaces].
  change (is_space space) with true. cbv iota. rewrite H.
  cbn [app flat_map]. now rewrite app_nil_r.
Qed.

(** With one alternative the matches are exactly those of the rest. *)
Lemma matches_single (ks : list Re.cls) (g : pystr) (p : list Re.elem) (rest : pystr) :
  first_takes [ks] g = true ->
  Re.matches (Re.Alt [ks] :: p) (g ++ rest)
  = map (fun gr => (g :: fst gr, snd gr)) (Re.matches p rest).
Proof.
  intros H. cbn [first_takes] in H. cbn [Re.matches flat_map].
  destruct (Re.match_seq ks g) as [[m [|x r]]|] eqn:E.
  - rewrite (match_seq_extend ks g m E rest). now rewrite app_nil_r.
  - discriminate.
  - now rewrite andb_false_r in H.
Qed.

Lemma matches_lit (c : N) (p : list Re.elem) (rest : pystr) :
  Re.matches (Re.Lit c :: p) (c :: rest) = Re.matches p rest.
Proof. cbn [Re.matches]. now rewrite N.eqb_refl. Qed.

Lemma field_facts (width : nat) (directive : Re.elem) (n : nat) (lo v : Z) :
  all_from n lo (field_ok width directive) = true ->
  lo <= v < lo + Z.of_nat n ->
  first_takes (alts_of directive) (pad_int width v) = true
  /\ first_takes [repeat Re.Digit width] (pad_int width v) = true
  /\ py_int (pad_int width v) = Some v.
Proof.
  intros H Hv. pose proof (all_from_spec _ _ _ H v Hv) as E.
  unfold field_ok in E. apply andb_true_iff in E as [E E3].
  apply andb_true_iff in E as [E1 E2]. repeat split; try assumption.
  destruct (py_int (pad_int width v)) as [z|]; [|discriminate].
  apply Z.eqb_eq in E3. now subst.
Qed.

Lemma year_fields_checked : all_from (Z.to_nat 9999) 1 (field_ok 4 dir_Y) = true.
Proof. vm_compute. reflexivity. Qed.

Lemma month_fields_checked : all_from 12 1 (field_ok 2 dir_m) = true.
Proof. vm_compute. reflexivity. Qed.

Lemma day_fields_checked : all_from 31 1 (field_ok 2 dir_d) = true.
Proof. vm_compute. reflexivity. Qed.

Lemma hour_fields_checked : all_from 24 0 (field_ok 2 dir_H) = true.
Proof. vm_compute. reflexivity. Qed.

Lemma minute_fields_checked : all_from 60 0 (field_ok 2 dir_M) = true.
Proof. vm_compute. reflexivity. Qed.

Lemma second_fields_checked : all_from 60 0 (field_ok 2 dir_S) = true.
Proof. vm_compute. reflexivity. Qed.

(** *** The calendar, both ways *)

Lemma civil_round_trip (y m d : Z) :
  1 <= y <= 9999 -> 1 <= m <= 12 -> 1 <= d <= days_in_month y m ->
  civil_from_days (days_from_civil y m d) = (y, m, d).
Proof.
  intros Hy Hm Hd.
  unfold days_from_civil.
  set (y' := if m <=? 2 then y - 1 else y).
  set (era := y' / 400).
  set (yoe := y' - era * 400).
  set (mp := (m + 9) mod 12).
  set (doy := (153 * mp + 2) / 5 + d - 1).
  set (doe := yoe * 365 + yoe / 4 - yoe / 100 + doy).
  assert (Hyoe : 0 <= yoe <= 399) by (unfold yoe, era; Z.div_mod_to_equations; lia).
  assert (Hmp : 0 <= mp <= 11) by (unfold mp; Z.div_mod_to_equations; lia).
  assert (Hmm : m = if mp <? 10 then mp + 3 else mp - 9).
  { unfold mp. destruct (Z.ltb_spec ((m + 9) mod 12) 10); Z.div_mod_to_equations; lia. }
  (* the length of the month, by its place in the year that starts in March *)
  assert (Hlen : d <= (153 * (mp + 1) + 2) / 5 - (153 * mp + 2) / 5
                 /\ (mp = 11 -> d <= if is_leap y then 29 else 28)).
  { unfold days_in_month in Hd.
    assert (Hcase : m = 1 \/ m = 2 \/ m = 3 \/ m = 4 \/ m = 5 \/ m = 6 \/ m = 7 \/ m = 8
                    \/ m = 9 \/ m = 10 \/ m = 11 \/ m = 12) by lia.
    destruct Hcase as [E|[E|[E|[E|[E|[E|[E|[E|[E|[E|[E|E]]]]]]]]]]];
      unfold mp; rewrite E in *; cbn in Hd |- *; 
      (split; [destruct (is_leap y); lia | intros; try lia; try discriminate]). }
  destruct Hlen as [Hl1 Hl2].
  assert (Hdoy : 0 <= doy <= 365).
  { pose proof Hl1 as H1. pose proof Hl2 as H2. unfold doy.
    destruct (Z.eq_dec mp 11) as [E|N].
    - specialize (H2 E). destruct (is_leap y); Z.div_mod_to_equations; lia.
    - Z.div_mod_to_equations; lia. }
  assert (Hdoy' : doy = 365 -> is_leap y = true).
  { intros E. pose proof Hl2 as H11.
    assert (mp = 11) by (unfold doy in E; Z.div_mod_to_equations; lia).
    specialize (H11 H). destruct (is_leap y); [reflexivity|].
    unfold doy in E. Z.div_mod_to_equations. lia. }
  assert (Hleap : doy = 365 -> (yoe + 1) mod 4 = 0 /\ ((yoe + 1) mod 100 <> 0 \/ yoe = 399)).
  { intros E. specialize (Hdoy' E). unfold is_leap in Hdoy'.
    assert (mp = 11) by (unfold doy in E; Z.div_mod_to_equations; lia).
    assert (m = 2) by (rewrite Hmm; destruct (Z.ltb_spec mp 10); lia).
    assert (Hy' : y = yoe + era * 400 + 1).
    { unfold yoe, y'. destruct (Z.leb_spec m 2); lia. }
    apply andb_true_iff in Hdoy' as [H4 H100].
    apply Z.eqb_eq in H4. apply orb_true_iff in H100 as [H100|H400].
    - apply negb_true_iff in H100. apply Z.eqb_neq in H100.
      split; [|left]; Z.div_mod_to_equations; lia.
    - apply Z.eqb_eq in H400. split; [|right]; Z.div_mod_to_equations; lia. }
  assert (Hdoe : 0 <= doe < 146097).
  { unfold doe. destruct (Z.eq_dec doy 365) as [E|N].
    - destruct (Hleap E). Z.div_mod_to_equations; lia.
    - Z.div_mod_to_equations; lia. }
  unfold civil_from_days.
  replace (era * 146097 + doe - 719468 + 719468) with (era * 146097 + doe) by lia.
  assert (Hera : (era * 146097 + doe) / 146097 = era) by (Z.div_mod_to_equations; lia).
  rewrite Hera.
  replace (era * 146097 + doe - era * 146097) with doe by lia.
  assert (Hyoe' : (doe - doe / 1460 + doe / 36524 - doe / 146096) / 365 = yoe).
  { unfold doe in *. destruct (Z.eq_dec doy 365) as [E|N].
    - destruct (Hleap E) as [L4 L100]. rewrite E in *.
      Z.div_mod_to_equations; lia.
    - Z.div_mod_to_equations; lia. }
  rewrite Hyoe'.
  replace (doe - (365 * yoe + yoe / 4 - yoe / 100)) with doy by (unfold doe; lia).
  assert (Hmp' : (5 * doy + 2) / 153 = mp).
  { unfold doy in *. Z.div_mod_to_equations. lia. }
  rewrite Hmp', <- Hmm.
  replace (doy - (153 * mp + 2) / 5 + 1) with d by (unfold doy; lia).
  f_equal. f_equal. unfold yoe, y'. destruct (Z.leb_spec m 2); lia.
Qed.

Lemma days_from_civil_eq (y m d : Z) :
  days_from_civil y m d
  = let y' := if m <=? 2 then y - 1 else y in
    (y' / 400) * 146097
    + ((y' - (y' / 400) * 400) * 365 + (y' - (y' / 400) * 400) / 4
       - (y' - (y' / 400) * 400) / 100
       + ((153 * ((m + 9) mod 12) + 2) / 5 + d - 1))
    - 719468.
Proof. reflexivity. Qed.

Lemma days_round_trip (z : Z) :
  -719162 <= z <= 2932896 ->
  let '(y, m, d) := civil_from_days z in
  days_from_civil y m d = z /\ 1 <= d <= days_in_month y m.
Proof.
  intros Hz. unfold civil_from_days.
  set (z' := z + 719468).
  set (era := z' / 146097).
  set (doe := z' - era * 146097).
  set (yoe := (doe - doe / 1460 + doe / 36524 - doe / 146096) / 365).
  set (doy := doe - (365 * yoe + yoe / 4 - yoe / 100)).
  set (mp := (5 * doy + 2) / 153).
  assert (Hdoe : 0 <= doe < 146097) by (unfold doe, era; Z.div_mod_to_equations; lia).
  assert (Hyoe : 0 <= yoe <= 399) by (unfold yoe; Z.div_mod_to_equations; lia).
  assert (Hdoy : 0 <= doy <= 365) by (unfold doy, yoe; Z.div_mod_to_equations; lia).
  assert (Hmp : 0 <= mp <= 11) by (unfold mp; Z.div_mod_to_equations; lia).
  assert (Hera : (yoe + era * 400) / 400 = era) by (Z.div_mod_to_equations; lia).
  set (m := if mp <? 10 then mp + 3 else mp - 9).
  set (y := if m <=? 2 then yoe + era * 400 + 1 else yoe + era * 400).
  assert (Hm : (m + 9) mod 12 = mp /\ 1 <= m <= 12).
  { unfold m. destruct (Z.ltb_spec mp 10); split; try lia; Z.div_mod_to_equations; lia. }
  assert (Hy : (if m <=? 2 then y - 1 else y) = yoe + era * 400).
  { unfold y. destruct (m <=? 2); lia. }
  split.
  - rewrite days_from_civil_eq. cbv zeta. rewrite Hy, Hera. destruct Hm as [-> _].
    replace (yoe + era * 400 - era * 400) with yoe by lia.
    unfold doy, doe, z'. lia.
  - assert (Hd : 1 <= doy - (153 * mp + 2) / 5 + 1)
      by (unfold mp; Z.div_mod_to_equations; lia).
    split; [exact Hd|].
    unfold days_in_month.
    destruct (Z.eqb_spec m 2) as [E2|N2].
    + assert (mp = 11) by (unfold m in E2; destruct (Z.ltb_spec mp 10); lia).
      assert (Hy2 : y = yoe + era * 400 + 1) by (unfold y; rewrite E2; reflexivity).
      assert (Hle : doy - (153 * mp + 2) / 5 + 1 <= 29)
        by (unfold mp in *; Z.div_mod_to_equations; lia).
      unfold is_leap.
      destruct (Z.eqb_spec (y mod 4) 0) as [E4|N4]; cbn [andb].
      * destruct (Z.eqb_spec (y mod 100) 0) as [E100|N100]; cbn [negb orb]; [|exact Hle].
        destruct (Z.eqb_spec (y mod 400) 0) as [E400|N400]; [exact Hle|].
        (unfold mp, doy, yoe in *; Z.div_mod_to_equations; lia).
      * (unfold mp, doy, yoe in *; Z.div_mod_to_equations; lia).
    + assert (Hcase : mp = 0 \/ mp = 1 \/ mp = 2 \/ mp = 3 \/ mp = 4 \/ mp = 5 \/ mp = 6
                      \/ mp = 7 \/ mp = 8 \/ mp = 9 \/ mp = 10)
        by (unfold m in N2; destruct (Z.ltb_spec mp 10); lia).
      (unfold m; destruct Hcase as [E|[E|[E|[E|[E|[E|[E|[E|[E|[E|E]]]]]]]]]];
        rewrite E; cbn; unfold mp in E; Z.div_mod_to_equations; lia).
Qed.


(** ** Date texts *)

Lemma year_field (y : Z) :
  1 <= y <= 9999 ->
  first_takes (alts_of dir_Y) (pad_int 4 y) = true
  /\ first_takes [Re.d4] (pad_int 4 y) = true
  /\ py_int (pad_int 4 y) = Some y.
Proof.
  intros H. pose proof year_fields_checked as E.
  apply (field_facts 4 dir_Y (Z.to_nat 9999) 1 y E). lia.
Qed.

Lemma month_field (m : Z) :
  1 <= m <= 12 ->
  first_takes (alts_of dir_m) (pad_int 2 m) = true
  /\ first_takes [Re.d2] (pad_int 2 m) = true
  /\ py_int (pad_int 2 m) = Some m.
Proof.
  intros H. pose proof month_fields_checked as E.
  apply (field_facts 2 dir_m 12 1 m E). lia.
Qed.

Lemma day_field (d : Z) :
  1 <= d <= 31 ->
  first_takes (alts_of dir_d) (pad_int 2 d) = true
  /\ first_takes [Re.d2] (pad_int 2 d) = true
  /\ py_int (pad_int 2 d) = Some d.
Proof.
  intros H. pose proof day_fields_checked as E.
  apply (field_facts 2 dir_d 31 1 d E). lia.
Qed.

Lemma hour_field (h : Z) :
  0 <= h <= 23 ->
  first_takes (alts_of dir_H) (pad_int 2 h) = true
  /\ first_takes [Re.d2] (pad_int 2 h) = true
  /\ py_int (pad_int 2 h) = Some h.
Proof.
  intros H. pose proof hour_fields_checked as E.
  apply (field_facts 2 dir_H 24 0 h E). lia.
Qed.

Lemma minute_field (n : Z) :
  0 <= n <= 59 ->
  first_takes (alts_of dir_M) (pad_int 2 n) = true
  /\ first_takes [Re.d2] (pad_int 2 n) = true
  /\ py_int (pad_int 2 n) = Some n.
Proof.
  intros H. pose proof minute_fields_checked as E.
  apply (field_facts 2 dir_M 60 0 n E). lia.
Qed.

Lemma second_field (s : Z) :
  0 <= s <= 59 ->
  first_takes (alts_of dir_S) (pad_int 2 s) = true
  /\ first_takes [Re.d2] (pad_int 2 s) = true
  /\ py_int (pad_int 2 s) = Some s.
Proof.
  intros H. pose proof second_fields_checked as E.
  apply (field_facts 2 dir_S 60 0 s E). lia.
Qed.

Lemma short_pattern_takes (y m d hh mm : Z) :
  1 <= y <= 9999 -> 1 <= m <= 12 -> 1 <= d <= 31 -> 0 <= hh <= 23 -> 0 <= mm <= 59 ->
  Re.re_match NewsDataConverter.short_pattern (date_text y m d hh mm)
  = Some ([pad_int 4 y; pad_int 2 m; pad_int 2 d; pad_int 2 hh; pad_int 2 mm], []).
Proof.
  intros Hy Hm Hd Hh Hn.
  destruct (year_field y Hy) as (_ & Y & _), (month_field m Hm) as (_ & M & _),
    (day_field d Hd) as (_ & D & _), (hour_field hh Hh) as (_ & H & _),
    (minute_field mm Hn) as (_ & N & _).
  unfold date_text, NewsDataConverter.short_pattern. cbn [app].
 
  apply re_match_alt; [exact Y|]. rewrite re_match_lit.
  apply re_match_alt; [exact M|]. rewrite re_match_lit.
  apply re_match_alt; [exact D|]. rewrite re_match_lit.
  apply re_match_alt; [exact H|]. rewrite re_match_lit.
  apply re_match_last. exact N.
Qed.

Lemma full_pattern_takes (y m d hh mm ss : Z) :
  1 <= y <= 9999 -> 1 <= m <= 12 -> 1 <= d <= 31 -> 0 <= hh <= 23 -> 0 <= mm <= 59 ->
  0 <= ss <= 59 ->
  Re.re_match NewsDataConverter.full_pattern (date_text_seconds y m d hh mm ss)
  = Some ([pad_int 4 y; pad_int 2 m; pad_int 2 d; pad_int 2 hh; pad_int 2 mm;
           pad_int 2 ss], []).
Proof.
  intros Hy Hm Hd Hh Hn Hs.
  destruct (year_field y Hy) as (_ & Y & _), (month_field m Hm) as (_ & M & _),
    (day_field d Hd) as (_ & D & _), (hour_field hh Hh) as (_ & H & _),
    (minute_field mm Hn) as (_ & N & _), (second_field ss Hs) as (_ & S & _).
  unfold date_text_seconds, date_text. repeat rewrite <- app_assoc.
  cbv [NewsDataConverter.full_pattern NewsDataConverter.short_pattern].
  cbn [app].
  apply re_match_alt; [exact Y|]. rewrite re_match_lit.
  apply re_match_alt; [exact M|]. rewrite re_match_lit.
  apply re_match_alt; [exact D|]. rewrite re_match_lit.
  apply re_match_alt; [exact H|]. rewrite re_match_lit.
  apply re_match_alt; [exact N|]. rewrite re_match_lit.
  apply re_match_last. exact S.
Qed.

(** Without seconds the longer pattern finds nothing. *)
Lemma full_pattern_rejects (y m d hh mm : Z) :
  1 <= y <= 9999 -> 1 <= m <= 12 -> 1 <= d <= 31 -> 0 <= hh <= 23 -> 0 <= mm <= 59 ->
  Re.re_match NewsDataConverter.full_pattern (date_text y m d hh mm) = None.
Proof.
  intros Hy Hm Hd Hh Hn.
  destruct (year_field y Hy) as (_ & Y & _), (month_field m Hm) as (_ & M & _),
    (day_field d Hd) as (_ & D & _), (hour_field hh Hh) as (_ & H & _),
    (minute_field mm Hn) as (_ & N & _).
  unfold date_text.
  cbv [NewsDataConverter.full_pattern NewsDataConverter.short_pattern].
  cbn [app]. rewrite <- (app_nil_r (pad_int 2 mm)). unfold Re.re_match.
  rewrite (matches_single _ _ _ _ Y), matches_lit.
  rewrite (matches_single _ _ _ _ M), matches_lit.
  rewrite (matches_single _ _ _ _ D), matches_lit.
  rewrite (matches_single _ _ _ _ H), matches_lit.
  rewrite (matches_single _ _ _ _ N). reflexivity.
Qed.

Lemma short_format_reads (y m d hh mm : Z) :
  1 <= y <= 9999 -> 1 <= m <= 12 -> 1 <= d <= 31 -> 0 <= hh <= 23 -> 0 <= mm <= 59 ->
  strptime NewsDataConverter.short_format (date_text y m d hh mm)
  = make_datetime y m d hh mm 0.
Proof.
  intros Hy Hm Hd Hh Hn.
  destruct (year_field y Hy) as (Y & _ & Yi), (month_field m Hm) as (M & _ & Mi),
    (day_field d Hd) as (D & _ & Di), (hour_field hh Hh) as (H & _ & Hi),
    (minute_field mm Hn) as (N & _ & Ni).
  unfold strptime.
  assert (E : Re.re_match NewsDataConverter.short_format (date_text y m d hh mm)
              = Some ([pad_int 4 y; pad_int 2 m; pad_int 2 d; pad_int 2 hh;
                       pad_int 2 mm], [])).
  { unfold date_text, NewsDataConverter.short_format. cbn [app].
   
    apply re_match_alt; [exact Y|]. rewrite re_match_lit.
    apply re_match_alt; [exact M|]. rewrite re_match_lit.
    apply re_match_alt; [exact D|]. rewrite re_match_lit.
    apply re_match_alt; [exact H|]. rewrite re_match_lit.
    apply re_match_last. exact N. }
  rewrite E. cbn [ints_of]. rewrite Yi, Mi, Di, Hi, Ni. reflexivity.
Qed.

Lemma full_format_reads (y m d hh mm ss : Z) :
  1 <= y <= 9999 -> 1 <= m <= 12 -> 1 <= d <= 31 -> 0 <= hh <= 23 -> 0 <= mm <= 59 ->
  0 <= ss <= 59 ->
  strptime NewsDataConverter.full_format (date_text_seconds y m d hh mm ss)
  = make_datetime y m d hh mm ss.
Proof.
  intros Hy Hm Hd Hh Hn Hs.
  destruct (year_field y Hy) as (Y & _ & Yi), (month_field m Hm) as (M & _ & Mi),
    (day_field d Hd) as (D & _ & Di), (hour_field hh Hh) as (H & _ & Hi),
    (minute_field mm Hn) as (N & _ & Ni), (second_field ss Hs) as (S & _ & Si).
  unfold strptime.
  assert (E : Re.re_match NewsDataConverter.full_format
                (date_text_seconds y m d hh mm ss)
              = Some ([pad_int 4 y; pad_int 2 m; pad_int 2 d; pad_int 2 hh;
                       pad_int 2 mm; pad_int 2 ss], [])).
  { unfold date_text_seconds, date_text. repeat rewrite <- app_assoc.
    cbv [NewsDataConverter.full_format NewsDataConverter.short_format].
    cbn [app].
    apply re_match_alt; [exact Y|]. rewrite re_match_lit.
    apply re_match_alt; [exact M|]. rewrite re_match_lit.
    apply re_match_alt; [exact D|]. rewrite re_match_lit.
    apply re_match_alt; [exact H|]. rewrite re_match_lit.
    apply re_match_alt; [exact N|]. rewrite re_match_lit.
    apply re_match_last. exact S. }
  rewrite E. cbn [ints_of]. rewrite Yi, Mi, Di, Hi, Ni, Si. reflexivity.
Qed.

(** A text without the letter [d] does not contain the script marker. *)
Lemma marker_needs_d (s : pystr) :
  forallb (fun c => negb (c =? 100)%N) s = true ->
  contains NewsDataConverter.script_marker s = false.
Proof.
  induction s as [|c r IH]; intros H; [reflexivity|].
  cbn [forallb] in H. apply andb_true_iff in H as [Hc Hr].
  cbn [contains]. rewrite (IH Hr), orb_false_r.
  unfold NewsDataConverter.script_marker. cbn [starts_with].
  apply negb_true_iff in Hc. rewrite N.eqb_sym, Hc. reflexivity.
Qed.

Lemma digits_without_d (n : nat) (s : pystr) :
  ascii_digits n s = true -> forallb (fun c => negb (c =? 100)%N) s = true.
Proof.
  intros H. apply ascii_digits_inv in H as [_ H].
  apply forallb_forall. intros c Hc.
  rewrite forallb_forall in H. specialize (H c Hc).
  unfold is_ascii_digit in H. apply andb_true_iff in H as [_ H].
  apply N.leb_le in H. apply negb_true_iff, N.eqb_neq. lia.
Qed.

Lemma date_text_plain (y m d hh mm : Z) :
  1 <= y <= 9999 -> 1 <= m <= 12 -> 1 <= d <= 31 -> 0 <= hh <= 23 -> 0 <= mm <= 59 ->
  forallb (fun c => negb (c =? 100)%N) (date_text y m d hh mm) = true.
Proof.
  intros Hy Hm Hd Hh Hn. unfold date_text.
  repeat rewrite forallb_app.
  rewrite (digits_without_d 4 _ (pad_int_4_digits y ltac:(lia))).
  rewrite (digits_without_d 2 _ (pad_int_2_digits m ltac:(lia))).
  rewrite (digits_without_d 2 _ (pad_int_2_digits d ltac:(lia))).
  rewrite (digits_without_d 2 _ (pad_int_2_digits hh ltac:(lia))).
  rewrite (digits_without_d 2 _ (pad_int_2_digits mm ltac:(lia))).
  reflexivity.
Qed.

Lemma date_text_seconds_plain (y m d hh mm ss : Z) :
  1 <= y <= 9999 -> 1 <= m <= 12 -> 1 <= d <= 31 -> 0 <= hh <= 23 -> 0 <= mm <= 59 ->
  0 <= ss <= 59 ->
  forallb (fun c => negb (c =? 100)%N) (date_text_seconds y m d hh mm ss) = true.
Proof.
  intros Hy Hm Hd Hh Hn Hs. unfold date_text_seconds.
  repeat rewrite forallb_app.
  rewrite (date_text_plain y m d hh mm Hy Hm Hd Hh Hn).
  rewrite (digits_without_d 2 _ (pad_int_2_digits ss ltac:(lia))).
  reflexivity.
Qed.

Lemma make_datetime_valid (y m d hh mm ss : Z) :
  valid_datetime y m d hh mm ss ->
  make_datetime y m d hh mm ss
  = Ok ((days_from_civil y m d * 86400 + hh * 3600 + mm * 60 + ss) * us_per_second).
Proof.
  intros (Hy & Hm & Hd & Hh & Hn & Hs). unfold make_datetime.
  replace (_ && _) with true; [reflexivity|]. symmetry.
  repeat (apply andb_true_iff; split); apply Z.leb_le; lia.
Qed.

Lemma make_datetime_no_such_day (y m d hh mm ss : Z) :
  days_in_month y m < d ->
  exists e, make_datetime y m d hh mm ss = Raise e.
Proof.
  intros Hd. unfold make_datetime.
  destruct (Z.leb_spec d (days_in_month y m)) as [H|H]; [lia|].
  rewrite !andb_false_r. cbn [andb]. eauto.
Qed.

Lemma digit_not_space (c : N) : is_ascii_digit c = true -> is_space c = false.
Proof.
  unfold is_ascii_digit. intros H. apply andb_true_iff in H as [H1 H2].
  apply N.leb_le in H1, H2.
  assert (E : (c = 48 \/ c = 49 \/ c = 50 \/ c = 51 \/ c = 52 \/ c = 53 \/ c = 54
               \/ c = 55 \/ c = 56 \/ c = 57)%N) by lia.
  repeat (destruct E as [->|E]; [reflexivity|]). subst c. reflexivity.
Qed.

Lemma re_match_spaces_digits (p : list Re.elem) (g rest : pystr) :
  ascii_digits 2 g = true ->
  Re.re_match (Re.Spaces :: p) (space :: g ++ rest) = Re.re_match p (g ++ rest).
Proof.
  intros H. apply ascii_digits_inv in H as [Hl H].
  destruct g as [|c r]; [discriminate|]. cbn [forallb] in H.
  apply andb_true_iff in H as [H _]. cbn [app].
  apply re_match_spaces. now apply digit_not_space.
Qed.

Lemma canonical_format_reads (y m d hh mm ss : Z) :
  1 <= y <= 9999 -> 1 <= m <= 12 -> 1 <= d <= 31 -> 0 <= hh <= 23 -> 0 <= mm <= 59 ->
  0 <= ss <= 59 ->
  strptime NewsDataConverter.canonical_format (timestamp_text y m d hh mm ss)
  = make_datetime y m d hh mm ss.
Proof.
  intros Hy Hm Hd Hh Hn Hs.
  destruct (year_field y Hy) as (Y & _ & Yi), (month_field m Hm) as (M & _ & Mi),
    (day_field d Hd) as (D & _ & Di), (hour_field hh Hh) as (H & _ & Hi),
    (minute_field mm Hn) as (N & _ & Ni), (second_field ss Hs) as (S & _ & Si).
  unfold strptime.
  assert (E : Re.re_match NewsDataConverter.canonical_format
                (timestamp_text y m d hh mm ss)
              = Some ([pad_int 4 y; pad_int 2 m; pad_int 2 d; pad_int 2 hh;
                       pad_int 2 mm; pad_int 2 ss], [])).
  { unfold timestamp_text, NewsDataConverter.canonical_format. cbn [app].
    apply re_match_alt; [exact Y|]. rewrite re_match_lit.
    apply re_match_alt; [exact M|]. rewrite re_match_lit.
    apply re_match_alt; [exact D|].
    rewrite re_match_spaces_digits by (apply pad_int_2_digits; lia).
    apply re_match_alt; [exact H|]. rewrite re_match_lit.
    apply re_match_alt; [exact N|]. rewrite re_match_lit.
    apply re_match_last. exact S. }
  rewrite E. cbn [ints_of]. rewrite Yi, Mi, Di, Hi, Ni, Si. reflexivity.
Qed.

Lemma date_text_encodable (y m d hh mm : Z) :
  utf8_encodable (date_text y m d hh mm) = true.
Proof.
  unfold date_text. rewrite !utf8_encodable_app, !pad_int_encodable. reflexivity.
Qed.

Lemma date_text_seconds_encodable (y m d hh mm ss : Z) :
  utf8_encodable (date_text_seconds y m d hh mm ss) = true.
Proof.
  unfold date_text_seconds.
  rewrite !utf8_encodable_app, date_text_encodable, pad_int_encodable. reflexivity.
Qed.

Section DateTexts.
Context {rt : Runtime}.
Hypothesis pads : strftime_pads_year = true.

(** The handler of [parse_datetime] prints a text without the script marker
    as it is. *)
Lemma print_date (s : pystr) :
  contains NewsDataConverter.script_marker s = false ->
  Console.print (py "日期解析错误: "
                 ++ NewsDataConverter.py_str (NewsDataConverter.shown_date (JStr s))
                 ++ py ", 错误: ")
  = if utf8_encodable s then Ok tt else Raise UnicodeEncodeError.
Proof.
  intros H. rewrite print_framed by reflexivity.
  cbn [NewsDataConverter.shown_date]. now rewrite H.
Qed.

Lemma strftime_of_fields (y m d hh mm ss : Z) :
  valid_datetime y m d hh mm ss ->
  strftime ((days_from_civil y m d * 86400 + hh * 3600 + mm * 60 + ss) * us_per_second)
  = timestamp_text y m d hh mm ss.
Proof.
  intros (Hy & Hm & Hd & Hh & Hn & Hs).
  unfold strftime, date_of, hour_of, minute_of, second_of, timestamp_text.
  rewrite pads. unfold us_per_day, us_per_second.
  set (days := days_from_civil y m d). set (tod := hh * 3600 + mm * 60 + ss).
  replace ((days * 86400 + hh * 3600 + mm * 60 + ss) * 1000000)
    with (days * (86400 * 1000000) + tod * 1000000) by (unfold tod; lia).
  assert (Ht : 0 <= tod < 86400) by (unfold tod; lia).
  assert (E : (days * (86400 * 1000000) + tod * 1000000) / (86400 * 1000000) = days)
    by (Z.div_mod_to_equations; lia).
  assert (R : (days * (86400 * 1000000) + tod * 1000000) mod (86400 * 1000000)
              = tod * 1000000)
    by (Z.div_mod_to_equations; lia).
  rewrite E, R. unfold days. rewrite (civil_round_trip y m d Hy Hm Hd).
  assert (EH : tod * 1000000 / (3600 * 1000000) = hh)
    by (unfold tod; Z.div_mod_to_equations; lia).
  assert (EM : (tod * 1000000 / (60 * 1000000)) mod 60 = mm).
  { replace (tod * 1000000 / (60 * 1000000)) with (hh * 60 + mm)
      by (unfold tod; Z.div_mod_to_equations; lia).
    Z.div_mod_to_equations; lia. }
  assert (ES : (tod * 1000000 / 1000000) mod 60 = ss).
  { rewrite Z.div_mul by lia. unfold tod. Z.div_mod_to_equations; lia. }
  rewrite EH, EM, ES. reflexivity.
Qed.

(** X20. [parse_datetime] of variant 2 turns every valid date written as
    [YYYY年MM月DD日HH:MM], with or without [:SS], into
    [YYYY-MM-DD HH:MM:SS] with the same fields (seconds [00] when absent),
    and reads neither the clock nor the random generator for it. *)
Theorem v2_reads_date_text (y m d hh mm ss : Z) (w : World) :
  valid_datetime y m d hh mm ss ->
  NewsDataConverter.parse_datetime (JStr (date_text y m d hh mm)) w
  = (Ok (timestamp_text y m d hh mm 0), w)
  /\ NewsDataConverter.parse_datetime (JStr (date_text_seconds y m d hh mm ss)) w
     = (Ok (timestamp_text y m d hh mm ss), w).
Proof.
  intros Hv. pose proof Hv as (Hy & Hm & Hd & Hh & Hn & Hs).
  pose proof (days_in_month_le y m) as Hle.
  assert (Hd' : 1 <= d <= 31) by lia.
  unfold NewsDataConverter.parse_datetime, try_except,
    NewsDataConverter.parse_datetime_try.
  split.
  - rewrite (marker_needs_d _ (date_text_plain y m d hh mm Hy Hm Hd' Hh Hn)).
    rewrite (full_pattern_rejects y m d hh mm Hy Hm Hd' Hh Hn).
    rewrite (short_pattern_takes y m d hh mm Hy Hm Hd' Hh Hn).
    unfold NewsDataConverter.reformat, bind, lift, ret.
    rewrite (short_format_reads y m d hh mm Hy Hm Hd' Hh Hn).
    rewrite (make_datetime_valid y m d hh mm 0) by (unfold valid_datetime; lia).
    rewrite Z.add_0_r at 1.
    rewrite <- (strftime_of_fields y m d hh mm 0) by (unfold valid_datetime; lia).
    now rewrite Z.add_0_r.
  - rewrite (marker_needs_d _ (date_text_seconds_plain y m d hh mm ss Hy Hm Hd' Hh Hn Hs)).
    rewrite (full_pattern_takes y m d hh mm ss Hy Hm Hd' Hh Hn Hs).
    unfold NewsDataConverter.reformat, bind, lift, ret.
    rewrite (full_format_reads y m d hh mm ss Hy Hm Hd' Hh Hn Hs).
    rewrite (make_datetime_valid y m d hh mm ss Hv).
    now rewrite (strftime_of_fields y m d hh mm ss Hv).
Qed.

(** X21. When the fields have the right widths and ranges but the month has
    no such day (30 February, 31 April), [strptime] raises inside
    [parse_datetime] of variant 2 and the result is a random past time: what
    [random_past_time] gives in the same world. *)
Theorem v2_no_such_day (y m d hh mm ss : Z) (w : World) :
  1 <= y <= 9999 -> 1 <= m <= 12 -> days_in_month y m < d <= 31 ->
  0 <= hh <= 23 -> 0 <= mm <= 59 -> 0 <= ss <= 59 ->
  NewsDataConverter.parse_datetime (JStr (date_text y m d hh mm)) w
  = NewsDataConverter.random_past_time w
  /\ NewsDataConverter.parse_datetime (JStr (date_text_seconds y m d hh mm ss)) w
     = NewsDataConverter.random_past_time w.
Proof.
  intros Hy Hm Hd Hh Hn Hs.
  assert (Hd' : 1 <= d <= 31).
  { split; [|lia]. unfold days_in_month in Hd.
    destruct (m =? 2); [destruct (is_leap y); lia|].
    destruct ((m =? 4) || (m =? 6) || (m =? 9) || (m =? 11)); lia. }
  unfold NewsDataConverter.parse_datetime, try_except,
    NewsDataConverter.parse_datetime_try.
  split.
  - rewrite (marker_needs_d _ (date_text_plain y m d hh mm Hy Hm Hd' Hh Hn)).
    rewrite (full_pattern_rejects y m d hh mm Hy Hm Hd' Hh Hn).
    rewrite (short_pattern_takes y m d hh mm Hy Hm Hd' Hh Hn).
    unfold NewsDataConverter.reformat, bind, lift, ret.
    rewrite (short_format_reads y m d hh mm Hy Hm Hd' Hh Hn).
    destruct (make_datetime_no_such_day y m d hh mm 0 ltac:(lia)) as [e ->].
    rewrite print_date, date_text_encodable
      by exact (marker_needs_d _ (date_text_plain y m d hh mm Hy Hm Hd' Hh Hn)).
    reflexivity.
  - rewrite (marker_needs_d _ (date_text_seconds_plain y m d hh mm ss Hy Hm Hd' Hh Hn Hs)).
    rewrite (full_pattern_takes y m d hh mm ss Hy Hm Hd' Hh Hn Hs).
    unfold NewsDataConverter.reformat, bind, lift, ret.
    rewrite (full_format_reads y m d hh mm ss Hy Hm Hd' Hh Hn Hs).
    destruct (make_datetime_no_such_day y m d hh mm ss ltac:(lia)) as [e ->].
    rewrite print_date, date_text_seconds_encodable
      by exact (marker_needs_d _
                  (date_text_seconds_plain y m d hh mm ss Hy Hm Hd' Hh Hn Hs)).
    reflexivity.
Qed.

Lemma strftime_read_back (t : datetime) :
  min_datetime <= t <= max_datetime ->
  strptime NewsDataConverter.canonical_format (strftime t)
  = Ok (t - t mod us_per_second)
  /\ strftime (t - t mod us_per_second) = strftime t.
Proof.
  intros Ht.
  pose proof (day_of_range t Ht) as Hday.
  pose proof (civil_from_days_bounds _ Hday) as Hb.
  pose proof (days_round_trip _ Hday) as Hr.
  destruct (time_of_day_bounds t) as (Hh & Hn & Hs).
  assert (Et : strftime t
               = let '(y, m, d) := civil_from_days (t / us_per_day) in
                 timestamp_text y m d (hour_of t) (minute_of t) (second_of t)).
  { unfold strftime, date_of. rewrite pads. reflexivity. }
  destruct (civil_from_days (t / us_per_day)) as [[y m] d] eqn:Ec.
  destruct Hb as (Hy & Hm & Hd). destruct Hr as (Hdays & Hd').
  assert (Hv : valid_datetime y m d (hour_of t) (minute_of t) (second_of t))
    by (unfold valid_datetime; lia).
  assert (Es : (days_from_civil y m d * 86400 + hour_of t * 3600 + minute_of t * 60
                + second_of t) * us_per_second = t - t mod us_per_second).
  { rewrite Hdays. unfold hour_of, minute_of, second_of, us_per_day, us_per_second.
    Z.div_mod_to_equations. lia. }
  rewrite Et, canonical_format_reads by lia.
  rewrite (make_datetime_valid _ _ _ _ _ _ Hv), Es. split; [reflexivity|].
  rewrite <- Es. now apply strftime_of_fields.
Qed.

Lemma random_past_time_stamp (w : World) :
  clock_in_range w ->
  exists t w',
    NewsDataConverter.random_past_time w = (Ok (strftime t), w')
    /\ min_datetime <= t <= max_datetime.
Proof.
  unfold clock_in_range. intros Hc.
  unfold NewsDataConverter.random_past_time, randint.
  change (30 - 1 + 1 <=? 0) with false. cbv iota.
  unfold bind, randbelow, now, bind, clock_read, ret, lift.
  cbn [clock_tape clock_pos].
  set (c := Z.of_N (clock_tape w (clock_pos w))) in *.
  set (r := Z.of_N (rand_tape w (rand_pos w)) mod (30 - 1 + 1)).
  assert (Hr : 0 <= r < 30) by (apply Z.mod_pos_bound; lia).
  assert (H0 : 0 <= c) by apply N2Z.is_nonneg.
  apply Z.leb_le in Hc. rewrite Hc. apply Z.leb_le in Hc.
  assert (Hrange : min_datetime <= c - (1 + r) * us_per_day <= max_datetime).
  { change min_datetime with (-719162 * us_per_day).
    unfold us_per_day, us_per_second in *. lia. }
  unfold minus_days.
  destruct Hrange as [Hlo Hhi].
  apply Z.leb_le in Hlo, Hhi. rewrite Hlo, Hhi. cbn [andb].
  do 2 eexists. split; [reflexivity|].
  apply Z.leb_le in Hlo, Hhi. auto.
Qed.

(** [parse_datetime] returns the text of an instant, unless its handler is
    entered with a date that cannot be printed. *)
Lemma v2_parse_datetime_stamp (v : json) (w : World) :
  clock_in_range w ->
  (exists t w',
      NewsDataConverter.parse_datetime v w = (Ok (strftime t), w')
      /\ min_datetime <= t <= max_datetime)
  \/ (NewsDataConverter.parse_datetime v w = (Raise UnicodeEncodeError, w)
      /\ utf8_encodable (NewsDataConverter.py_str (NewsDataConverter.shown_date v))
         = false).
Proof.
  intros Hc.
  assert (Hre : forall fmt s,
             (exists t, NewsDataConverter.reformat fmt s w = (Ok (strftime t), w)
                        /\ min_datetime <= t <= max_datetime)
             \/ (exists e, NewsDataConverter.reformat fmt s w = (Raise e, w))).
  { intros fmt s. unfold NewsDataConverter.reformat, bind, lift, ret.
    destruct (strptime fmt s) as [t|e] eqn:E; [left | right; eauto].
    exists t. split; [reflexivity|]. eapply strptime_range; eauto. }
  assert (Htry :
            (exists t w', NewsDataConverter.parse_datetime_try v w = (Ok (strftime t), w')
                          /\ min_datetime <= t <= max_datetime)
            \/ (exists e, NewsDataConverter.parse_datetime_try v w = (Raise e, w))).
  { unfold NewsDataConverter.parse_datetime_try.
    destruct v as [| | | |s| |]; try (right; eexists; reflexivity).
    set (s' := if contains NewsDataConverter.script_marker s then _ else s).
    destruct (Re.re_match NewsDataConverter.full_pattern s').
    - destruct (Hre NewsDataConverter.full_format s') as [(t & E & H)|(e & E)];
        [left | right]; eauto.
    - destruct (Re.re_match NewsDataConverter.short_pattern s').
      + destruct (Hre NewsDataConverter.short_format s') as [(t & E & H)|(e & E)];
          [left | right]; eauto.
      + left. now apply random_past_time_stamp. }
  unfold NewsDataConverter.parse_datetime, try_except.
  destruct Htry as [(t & w' & E & H)|(e & E)]; rewrite E.
  - left. eauto.
  - unfold bind, lift. rewrite print_framed by reflexivity.
    destruct (utf8_encodable
                (NewsDataConverter.py_str (NewsDataConverter.shown_date v))) eqn:Ep.
    + left. now apply random_past_time_stamp.
    + right. split; reflexivity.
Qed.

(** X22.  The text [parse_datetime] of variant 2 returns is always accepted
    by the [strptime(published_at, '%Y-%m-%d %H:%M:%S')] of
    [calculate_hotness_score], which reads back an instant that prints as the
    same text.  [parse_datetime] returns a text whenever the date its handler
    would print can be printed; it raises only UnicodeEncodeError, and only
    when that date cannot be printed (text with a lone surrogate). *)
Theorem v2_timestamp_read_back (v : json) (w : World) :
  clock_in_range w ->
  (utf8_encodable (NewsDataConverter.py_str (NewsDataConverter.shown_date v)) = true ->
   exists out w' t,
     NewsDataConverter.parse_datetime v w = (Ok out, w')
     /\ strptime NewsDataConverter.canonical_format out = Ok t
     /\ strftime t = out)
  /\ (forall out w',
      NewsDataConverter.parse_datetime v w = (Ok out, w') ->
      exists t,
        strptime NewsDataConverter.canonical_format out = Ok t /\ strftime t = out)
  /\ (forall e w',
      NewsDataConverter.parse_datetime v w = (Raise e, w') ->
      e = UnicodeEncodeError
      /\ utf8_encodable (NewsDataConverter.py_str (NewsDataConverter.shown_date v))
         = false).
Proof.
  intros Hc.
  destruct (v2_parse_datetime_stamp v w Hc) as [(t & w1 & E & Ht)|(E & Hp)].
  - destruct (strftime_read_back t Ht) as (Er & Es).
    split; [|split].
    + intros _. exists (strftime t), w1, (t - t mod us_per_second). auto.
    + intros out w' H. rewrite E in H. injection H as <- _.
      exists (t - t mod us_per_second). auto.
    + intros e w' H. rewrite E in H. discriminate.
  - split; [|split].
    + intros H. congruence.
    + intros out w' H. rewrite E in H. discriminate.
    + intros e w' H. rewrite E in H. injection H as <- _. auto.
Qed.

End DateTexts.

(** ** Variant 1: the fields of a date are copied *)

Lemma re_search_eq (p : list Re.elem) (s : pystr) :
  Re.re_search p s
  = match Re.re_match p s with
    | Some (gs, rest) => Some (gs, firstn (length s - length rest) s)
    | None => match s with [] => None | _ :: r => Re.re_search p r end
    end.
Proof. destruct s; reflexivity. Qed.

Lemma contains_mark (x : N) (a b : pystr) : contains [x] (a ++ x :: b) = true.
Proof.
  induction a as [|c a IH]; cbn [app contains].
  - cbn [starts_with]. now rewrite N.eqb_refl.
  - rewrite IH. apply orb_true_r.
Qed.

(** [\d{1,2}] takes two digits when it can. *)
Lemma re_match_short_field (g : pystr) (p : list Re.elem) (rest : pystr)
      (gs : list pystr) (r : pystr) :
  short_field g = true ->
  (length g = 1%nat -> no_digit_next rest = true) ->
  Re.re_match p rest = Some (gs, r) ->
  Re.re_match (Re.Alt [Re.d2; Re.d1] :: p) (g ++ rest) = Some (g :: gs, r).
Proof.
  intros Hg Hnext Hp. unfold short_field in Hg.
  apply andb_true_iff in Hg as [Hd Hl].
  unfold Re.re_match in *.
  destruct (Re.matches p rest) as [|[gs' r'] tl] eqn:Em; [discriminate|].
  cbn [hd_error] in Hp. injection Hp as -> ->.
  destruct g as [|a [|b [|c g]]]; try discriminate.
  - cbn [forallb] in Hd. rewrite andb_true_r in Hd.
    specialize (Hnext eq_refl).
    cbn [app Re.matches flat_map Re.d2 Re.d1 Re.match_seq Re.cls_match].
    rewrite Hd. destruct rest as [|c rest'].
    + rewrite Em. reflexivity.
    + cbn [no_digit_next] in Hnext. apply negb_true_iff in Hnext. rewrite Hnext.
      rewrite Em. reflexivity.
  - cbn [forallb] in Hd. apply andb_true_iff in Hd as [Ha Hb].
    rewrite andb_true_r in Hb.
    cbn [app Re.matches flat_map Re.d2 Re.d1 Re.match_seq Re.cls_match].
    rewrite Ha, Hb, Em. reflexivity.
Qed.

(** X23. When the text starts with four digits, [年], and groups of one or two
    digits before [月], [日], [:] and at the end, [parse_datetime] of variant 1
    returns these groups joined as [year-MM-DD HH:MM:00], one-digit groups
    padded with a zero, without reading the clock.  Nothing checks the
    values: month 13 or hour 99 is copied, and what follows the minutes is
    dropped. *)
Theorem v1_copies_date_fields {rt : Runtime}
        (year month day hour minute tail : pystr) (w : World) :
  length year = 4%nat -> forallb is_digit year = true ->
  short_field month = true -> short_field day = true ->
  short_field hour = true -> short_field minute = true ->
  (length minute = 1%nat -> no_digit_next tail = true) ->
  NewsConverter.parse_datetime
    (JStr (year ++ [NewsConverter.year_mark] ++ month ++ [NewsConverter.month_mark]
           ++ day ++ [NewsConverter.day_mark] ++ hour ++ [colon] ++ minute ++ tail)) w
  = (Ok (year ++ [dash] ++ zfill 2 month ++ [dash] ++ zfill 2 day ++ [space]
         ++ zfill 2 hour ++ [colon] ++ zfill 2 minute ++ py ":00"), w).
Proof.
  intros Hl Hy Hm Hd Hh Hn Htail.
  unfold NewsConverter.parse_datetime, try_except, NewsConverter.parse_datetime_try.
  set (s := year ++ _).
  assert (E1 : NewsConverter.json_has (JStr s) NewsConverter.year_mark = Some true).
  { unfold s. cbn [NewsConverter.json_has app]. now rewrite contains_mark. }
  assert (E2 : NewsConverter.json_has (JStr s) NewsConverter.month_mark = Some true).
  { unfold s. cbn [NewsConverter.json_has].
    rewrite (app_assoc year), (app_assoc _ month). cbn [app].
    now rewrite contains_mark. }
  assert (E3 : NewsConverter.json_has (JStr s) NewsConverter.day_mark = Some true).
  { unfold s. cbn [NewsConverter.json_has].
    rewrite (app_assoc year), (app_assoc _ month), (app_assoc _ [_]), (app_assoc _ day).
    cbn [app]. now rewrite contains_mark. }
  rewrite E1, E2, E3. cbn [andb].
  assert (Em : Re.re_match NewsConverter.date_pattern s
               = Some ([year; month; day; hour; minute], tail)).
  { unfold s, NewsConverter.date_pattern. cbn [app].
    apply re_match_alt.
    { destruct year as [|a [|b [|c [|e [|]]]]]; try discriminate.
      cbn [forallb] in Hy.
      repeat (apply andb_true_iff in Hy as [? Hy]).
      cbn [first_takes Re.d4 Re.match_seq Re.cls_match].
      repeat match goal with H : is_digit _ = true |- _ => rewrite H; clear H end.
      reflexivity. }
    rewrite re_match_lit.
    apply re_match_short_field; [exact Hm | reflexivity |]. rewrite re_match_lit.
    apply re_match_short_field; [exact Hd | reflexivity |]. rewrite re_match_lit.
    apply re_match_short_field; [exact Hh | reflexivity |]. rewrite re_match_lit.
    apply re_match_short_field; [exact Hn | exact Htail | reflexivity]. }
  rewrite re_search_eq, Em. reflexivity.
Qed.

Lemma sample_clock_in_range : clock_in_range sample_world.
Proof. unfold clock_in_range. vm_compute. discriminate. Qed.

Lemma v2_reads_date_text_witness :
  valid_datetime 2024 2 29 9 5 7
  /\ NewsDataConverter.parse_datetime (rt := plain_runtime)
       (JStr (py "2024年02月29日09:05")) sample_world
     = (Ok (py "2024-02-29 09:05:00"), sample_world)
  /\ NewsDataConverter.parse_datetime (rt := plain_runtime)
       (JStr (py "2024年02月29日09:05:07")) sample_world
     = (Ok (py "2024-02-29 09:05:07"), sample_world).
Proof.
  assert (Hv : valid_datetime 2024 2 29 9 5 7).
  { unfold valid_datetime. change (days_in_month 2024 2) with 29. lia. }
  split; [exact Hv|].
  exact (v2_reads_date_text (rt := plain_runtime) eq_refl 2024 2 29 9 5 7 sample_world Hv).
Defined.

Lemma v2_no_such_day_witness :
  days_in_month 2025 2 < 30 <= 31
  /\ NewsDataConverter.parse_datetime (rt := plain_runtime)
       (JStr (py "2025年02月30日10:00")) sample_world
     = NewsDataConverter.random_past_time sample_world
  /\ fst (NewsDataConverter.random_past_time (rt := plain_runtime) sample_world)
     = Ok (py "2025-06-16 10:00:00").
Proof.
  assert (Hd : days_in_month 2025 2 < 30 <= 31).
  { change (days_in_month 2025 2) with 28. lia. }
  split; [exact Hd|]. split; [|vm_compute; reflexivity].
  exact (proj1 (v2_no_such_day (rt := plain_runtime) 2025 2 30 10 0 0 sample_world
                  ltac:(lia) ltac:(lia) Hd ltac:(lia) ltac:(lia) ltac:(lia))).
Defined.

Lemma v2_timestamp_read_back_witness :
  (exists out w' t,
      NewsDataConverter.parse_datetime (rt := plain_runtime) (JStr (py "昨天")) sample_world
      = (Ok out, w')
      /\ strptime NewsDataConverter.canonical_format out = Ok t
      /\ strftime t = out)
  /\ (forall e w',
      NewsDataConverter.parse_datetime (rt := plain_runtime)
        (JStr (py "2025年07月01日19:01" ++ [0xD800%N])) sample_world = (Raise e, w') ->
      e = UnicodeEncodeError)
  /\ fst (NewsDataConverter.parse_datetime (rt := plain_runtime)
            (JStr (py "2025年07月01日19:01" ++ [0xD800%N])) sample_world)
     = Raise UnicodeEncodeError.
Proof.
  split; [|split].
  - apply (v2_timestamp_read_back (rt := plain_runtime) eq_refl (JStr (py "昨天"))
             sample_world sample_clock_in_range).
    reflexivity.
  - intros e w' H.
    exact (proj1 (proj2 (proj2 (v2_timestamp_read_back (rt := plain_runtime) eq_refl
                                  (JStr (py "2025年07月01日19:01" ++ [0xD800%N]))
                                  sample_world sample_clock_in_range)) e w' H)).
  - reflexivity.
Defined.

Lemma v1_copies_date_fields_witness :
  NewsConverter.parse_datetime (rt := plain_runtime)
    (JStr (py "2025年13月45日99:7 更新")) sample_world
  = (Ok (py "2025-13-45 99:07:00"), sample_world).
Proof.
  refine (v1_copies_date_fields (rt := plain_runtime)
            (py "2025") (py "13") (py "45") (py "99") (py "7") (py " 更新")
            sample_world _ _ _ _ _ _ _); reflexivity.
Defined.
